(** * Item tracking store: barcode codec, sequential allocator, item
      lifecycle and lock-retry protocol

    A shallow embedding of [src/main.py] (the SQLite-backed item tracker)
    together with the properties of its barcode grammar, its batch
    numbering, its status/location transitions and its retry loop.

    Conventions of the embedding.
    - Text is [string]; scanned barcodes are ASCII, so the character
      classes of Python ([isalnum], [isdigit], [isalpha], [isspace],
      [upper]) are given on the 7-bit range and leave other codes alone.
      [isascii] names that domain; statements whose truth depends on it
      carry it as a hypothesis.
    - Integers are those of CPython in its default configuration:
      unbounded, with the limit of 4300 digits on conversions between
      [int] and [str] in base 10; SQLite stores 64-bit signed integers.
    - A SQL table is the list of its rows in rowid order together with
      the AUTOINCREMENT counter; a [SELECT ... fetchone()] is the first
      matching row.
    - [input()] calls are arguments of the function that reads them and
      [print] calls are the messages a function returns.
    - [CURRENT_TIMESTAMP] is the argument [now] of an operation.
    - Store faults raised by the environment (lock contention, I/O) are
      explicit only in the functions that react to them with a retry. *)

From Stdlib Require Import ZArith NArith List Bool Lia Ascii String.
From Stdlib Require Import DecimalString DecimalN DecimalNat.
From Stdlib Require DecimalPos DecimalFacts.
Import ListNotations.
Open Scope string_scope.
Open Scope Z_scope.

Set Implicit Arguments.

(** ** Python string primitives used by the program *)

Module PyStr.

Definition is_us (c : ascii) : bool := Ascii.eqb c "_".

(** [s.split('_')] *)
Fixpoint split (s : string) : list string :=
  match s with
  | EmptyString => [""]
  | String c r =>
      if is_us c then "" :: split r
      else match split r with
           | h :: t => String c h :: t
           | [] => [String c ""]
           end
  end.

(** ['_'.join(parts)] *)
Fixpoint join (parts : list string) : string :=
  match parts with
  | [] => ""
  | [p] => p
  | p :: rest => p ++ String "_" (join rest)
  end.

Fixpoint all_chars (f : ascii -> bool) (s : string) : bool :=
  match s with
  | EmptyString => true
  | String c r => f c && all_chars f r
  end.

Fixpoint filter_chars (f : ascii -> bool) (s : string) : string :=
  match s with
  | EmptyString => ""
  | String c r => if f c then String c (filter_chars f r) else filter_chars f r
  end.

Fixpoint map_chars (f : ascii -> ascii) (s : string) : string :=
  match s with
  | EmptyString => ""
  | String c r => String (f c) (map_chars f r)
  end.

Definition code (c : ascii) : N := N_of_ascii c.

Definition between (lo hi : N) (c : ascii) : bool :=
  (N.leb lo (code c) && N.leb (code c) hi)%bool.

Definition is_digit_char : ascii -> bool := between 48 57.
Definition is_upper_char : ascii -> bool := between 65 90.
Definition is_lower_char : ascii -> bool := between 97 122.
Definition is_alpha_char (c : ascii) : bool := is_upper_char c || is_lower_char c.
Definition is_alnum_char (c : ascii) : bool := is_alpha_char c || is_digit_char c.

(** [s.isascii()] *)
Definition isascii (s : string) : bool := all_chars (fun c => N.ltb (code c) 128) s.

(** Whitespace as [str.strip] sees it: TAB..CR, FS..US, space. *)
Definition is_space_char (c : ascii) : bool :=
  between 9 13 c || between 28 32 c.

(** Whitespace as [int] skips it around an ASCII literal: TAB..CR and
    space, but not FS..US. *)
Definition is_int_space_char (c : ascii) : bool :=
  between 9 13 c || Ascii.eqb c " ".

Definition upper_char (c : ascii) : ascii :=
  if is_lower_char c then ascii_of_N (code c - 32) else c.

Definition lower_char (c : ascii) : ascii :=
  if is_upper_char c then ascii_of_N (code c + 32) else c.

(** [s.upper()], [s.lower()] *)
Definition upper : string -> string := map_chars upper_char.
Definition lower : string -> string := map_chars lower_char.

(** [s.isdigit()]: non-empty and every character a digit *)
Definition isdigit (s : string) : bool :=
  match s with
  | EmptyString => false
  | _ => all_chars is_digit_char s
  end.

(** [s.isalnum()] *)
Definition isalnum (s : string) : bool :=
  match s with
  | EmptyString => false
  | _ => all_chars is_alnum_char s
  end.

Fixpoint lstrip (s : string) : string :=
  match s with
  | EmptyString => ""
  | String c r => if is_space_char c then lstrip r else s
  end.

Fixpoint rev_onto (s acc : string) : string :=
  match s with
  | EmptyString => acc
  | String c r => rev_onto r (String c acc)
  end.

Definition rev (s : string) : string := rev_onto s "".

(** [s.strip()] *)
Definition strip (s : string) : string := rev (lstrip (rev (lstrip s))).

(** The digit grouping of an integer literal: single underscores
    between characters, none at either end.  Returns the text without
    them, or [None] when the grouping is malformed or the text empty. *)
Fixpoint ungroup (after_char : bool) (s : string) : option string :=
  match s with
  | EmptyString => if after_char then Some "" else None
  | String c r =>
      if is_us c then (if after_char then ungroup false r else None)
      else option_map (String c) (ungroup true r)
  end.

(** [sys.get_int_max_str_digits()], the default of CPython. *)
Definition int_max_str_digits : N := 4300.

(** Digits, grouped or not; a literal of more than
    [int_max_str_digits] digits (leading zeros count) is refused. *)
Definition nat_literal (s : string) : option Z :=
  match ungroup false s with
  | Some digits =>
      if N.ltb int_max_str_digits (N.of_nat (String.length digits)) then None
      else option_map (fun d => Z.of_N (N.of_uint d)) (NilEmpty.uint_of_string digits)
  | None => None
  end.

Fixpoint int_lstrip (s : string) : string :=
  match s with
  | EmptyString => ""
  | String c r => if is_int_space_char c then int_lstrip r else s
  end.

(** The literal [int] reads between the whitespace it skips. *)
Definition int_strip (s : string) : string := rev (int_lstrip (rev (int_lstrip s))).

(** [int(s)] for a [str] argument in base 10: surrounding whitespace,
    an optional sign, then decimal digits.  [None] is [ValueError]. *)
Definition int (s : string) : option Z :=
  match int_strip s with
  | String "+" r => nat_literal r
  | String "-" r => option_map Z.opp (nat_literal r)
  | t => nat_literal t
  end.

(** Whether [str(n)], and so an f-string field showing [n], stays
    within [int_max_str_digits] digits (the sign does not count);
    otherwise the conversion raises [ValueError]. *)
Definition str_fits (n : Z) : bool :=
  N.leb (N.of_nat (String.length (NilEmpty.string_of_uint (N.to_uint (Z.abs_N n)))))
        int_max_str_digits.

(** [str(n)] / [f"{n}"] for an integer with [str_fits n] *)
Definition str_of_Z (n : Z) : string :=
  match n with
  | Zneg p => String "-" (NilEmpty.string_of_uint (N.to_uint (Npos p)))
  | _ => NilEmpty.string_of_uint (N.to_uint (Z.to_N n))
  end.

Fixpoint zeros (k : nat) : string :=
  match k with
  | O => ""
  | S k' => String "0" (zeros k')
  end.

(** [f"{n:04d}"] for an integer with [str_fits n]: sign first, then
    zeros up to a total width of 4. *)
Definition format_04d (n : Z) : string :=
  match n with
  | Zneg p =>
      let d := NilEmpty.string_of_uint (N.to_uint (Npos p)) in
      String "-" (zeros (3 - String.length d) ++ d)
  | _ =>
      let d := NilEmpty.string_of_uint (N.to_uint (Z.to_N n)) in
      zeros (4 - String.length d) ++ d
  end.

(** [needle in s] *)
Fixpoint contains (needle s : string) : bool :=
  String.prefix needle s ||
  match s with
  | EmptyString => false
  | String _ r => contains needle r
  end.

End PyStr.

(** ** The store: tables of [init_database] *)

Module Store.

(** A table with an [INTEGER PRIMARY KEY AUTOINCREMENT] column: the
    rows paired with their rowid, oldest first, and the counter kept in
    [sqlite_sequence]. *)
Record table (A : Type) : Type := { seq : Z; rows : list (Z * A) }.

Definition empty_table {A} : table A := {| seq := 0; rows := [] |}.

Definition max_rowid {A} (l : list (Z * A)) : Z :=
  fold_right (fun r m => Z.max (fst r) m) 0 l.

Definition next_rowid {A} (t : table A) : Z :=
  Z.max (seq t) (max_rowid (rows t)) + 1.

(** [INSERT INTO t ...] without a constraint; [lastrowid] is
    [next_rowid t]. *)
Definition insert {A} (t : table A) (a : A) : table A :=
  {| seq := next_rowid t; rows := rows t ++ [(next_rowid t, a)] |}.

(** [DELETE FROM t WHERE doomed] *)
Definition delete_where {A} (doomed : Z * A -> bool) (t : table A) : table A :=
  {| seq := seq t; rows := filter (fun r => negb (doomed r)) (rows t) |}.

(** [UPDATE t SET ... WHERE hit] *)
Definition update_where {A} (hit : Z * A -> bool) (f : A -> A) (t : table A) : table A :=
  {| seq := seq t;
     rows := map (fun r => if hit r then (fst r, f (snd r)) else r) (rows t) |}.

(** [SELECT ... WHERE hit] followed by [fetchone()] *)
Definition fetchone {A} (hit : Z * A -> bool) (t : table A) : option (Z * A) :=
  find hit (rows t).

(** [SELECT COUNT( * ) ... WHERE hit] *)
Definition count_where {A} (hit : Z * A -> bool) (t : table A) : nat :=
  List.length (filter hit (rows t)).

Record batch_scan : Type := {
  bs_batch_barcode : string; bs_item_type : string; bs_generation : string;
  bs_created_date : string; bs_quantity : Z; bs_scan_time : Z; bs_status : string }.

Record item : Type := {
  full_barcode : string; batch_barcode : string; item_type : string;
  generation : string; created_date : string; current_status : string }.

Record note : Type := { note_item_id : Z; note_text : string }.

Record location : Type := { barcode : string; location_name : string }.

Record item_location : Type := {
  il_item_id : Z; il_location_barcode : string; il_timestamp : Z }.

Record item_scan : Type := {
  scan_barcode : string; scan_item_type : string; scan_generation : string;
  scan_created_date : string; scan_time : Z; scan_status : string }.

Record item_code : Type := { ic_code : string; ic_name : string }.

Record DB : Type := {
  batch_scans : table batch_scan;
  items : table item;
  notes : table note;
  locations : table location;
  item_locations : table item_location;
  item_scans : table item_scan;
  item_codes : table item_code }.

Definition set_batch_scans (db : DB) (t : table batch_scan) : DB :=
  {| batch_scans := t; items := items db; notes := notes db;
     locations := locations db; item_locations := item_locations db;
     item_scans := item_scans db; item_codes := item_codes db |}.

Definition set_items (db : DB) (t : table item) : DB :=
  {| batch_scans := batch_scans db; items := t; notes := notes db;
     locations := locations db; item_locations := item_locations db;
     item_scans := item_scans db; item_codes := item_codes db |}.

Definition set_notes (db : DB) (t : table note) : DB :=
  {| batch_scans := batch_scans db; items := items db; notes := t;
     locations := locations db; item_locations := item_locations db;
     item_scans := item_scans db; item_codes := item_codes db |}.

Definition set_locations (db : DB) (t : table location) : DB :=
  {| batch_scans := batch_scans db; items := items db; notes := notes db;
     locations := t; item_locations := item_locations db;
     item_scans := item_scans db; item_codes := item_codes db |}.

Definition set_item_locations (db : DB) (t : table item_location) : DB :=
  {| batch_scans := batch_scans db; items := items db; notes := notes db;
     locations := locations db; item_locations := t;
     item_scans := item_scans db; item_codes := item_codes db |}.

Definition set_item_scans (db : DB) (t : table item_scan) : DB :=
  {| batch_scans := batch_scans db; items := items db; notes := notes db;
     locations := locations db; item_locations := item_locations db;
     item_scans := t; item_codes := item_codes db |}.

(** The exceptions of [sqlite3] the program tells apart, with [str(e)]. *)
Inductive exn : Type :=
| IntegrityError (msg : string)
| OperationalError (msg : string)
| OtherError (msg : string).

Definition has_barcode (b : string) (r : Z * item) : bool :=
  String.eqb (full_barcode (snd r)) b.

Definition has_status (s : string) (r : Z * item) : bool :=
  String.eqb (current_status (snd r)) s.

(** [INSERT INTO items ...]: [full_barcode] is [UNIQUE]. *)
Definition insert_item (t : table item) (r : item) : exn + table item :=
  match fetchone (has_barcode (full_barcode r)) t with
  | Some _ => inl (IntegrityError "UNIQUE constraint failed: items.full_barcode")
  | None => inr (insert t r)
  end.

(** [INSERT OR REPLACE INTO locations ...]: [barcode] is [UNIQUE]; a
    conflicting row is deleted before the new one is inserted. *)
Definition replace_location (t : table location) (r : location) : table location :=
  insert (delete_where (fun x => String.eqb (barcode (snd x)) (barcode r)) t) r.

(** The declared constraints: rowids are a primary key, and
    [items.full_barcode], [locations.barcode] are [UNIQUE]. *)
Definition primary_key {A} (t : table A) : Prop := NoDup (map fst (rows t)).

Definition unique_barcodes (t : table item) : Prop :=
  NoDup (map (fun r => full_barcode (snd r)) (rows t)).

Definition unique_locations (t : table location) : Prop :=
  NoDup (map (fun r => barcode (snd r)) (rows t)).

Definition schema_ok (db : DB) : Prop :=
  primary_key (items db) /\ unique_barcodes (items db) /\
  unique_locations (locations db).

End Store.

(** ** The program: [src/main.py] *)

Module Tracker.
Import PyStr Store.

(** [INITIAL_ITEM_CODES], in the order of the dict. *)
Definition INITIAL_ITEM_CODES : list (string * string) :=
  [("PIPI", "PioPino"); ("CHNU", "Chestnut"); ("KIOY", "KingOyster");
   ("BLOY", "BlueOyster"); ("PIOY", "PinkOyster"); ("LIMA", "Lionsmane");
   ("INVE", "Inventory"); ("STOR", "Storage"); ("MISC", "Miscellaneous")].

(** [init_database] on a new file: every table empty but [item_codes],
    which receives the initial codes. *)
Definition init_database : DB :=
  {| batch_scans := empty_table; items := empty_table; notes := empty_table;
     locations := empty_table; item_locations := empty_table;
     item_scans := empty_table;
     item_codes :=
       fold_left (fun t cn => insert t {| ic_code := fst cn; ic_name := snd cn |})
                 INITIAL_ITEM_CODES empty_table |}.

(** [to_upper_alphanumeric]:
    [''.join(filter(str.isalnum, input_str)).upper()] *)
Definition to_upper_alphanumeric (input_str : string) : string :=
  upper (filter_chars is_alnum_char input_str).

(** [looks_like_item_barcode] *)
Definition looks_like_item_barcode (barcode : string) : bool :=
  match barcode with
  | EmptyString => false
  | _ => let n := List.length (split barcode) in Nat.eqb n 5 || Nat.eqb n 6
  end.

(** [get_item_name]: the registered name of a code, else ["Unknown"]. *)
Definition get_item_name (db : DB) (code : string) : string :=
  match fetchone (fun r => String.eqb (ic_code (snd r)) code) (item_codes db) with
  | Some r => ic_name (snd r)
  | None => "Unknown"
  end.

(** The dict returned by [parse_barcode]. *)
Record parsed : Type := {
  pd_item_type : string; pd_generation : string;
  pd_created_date : string; pd_full_barcode : string }.

(** What [parse_barcode] does: the dict, or [None] after one of its
    three diagnostics ("Invalid batch barcode: Expected 5 parts, got n",
    "Invalid item barcode: Expected 5 or 6 parts, got n",
    "Parsing error: ..."). *)
Inductive parse_result : Type :=
| Parsed (p : parsed)
| InvalidBatchBarcode (got : nat)
| InvalidItemBarcode (got : nat)
| ParsingError.

(** [not parsed] at the call sites: the function returned [None]. *)
Definition is_none (r : parse_result) : bool :=
  match r with Parsed _ => false | _ => true end.

(** The field-count diagnostics, as opposed to [ParsingError]. *)
Definition invalid_format (r : parse_result) : bool :=
  match r with
  | InvalidBatchBarcode _ | InvalidItemBarcode _ => true
  | _ => false
  end.

(** [2000 + int(year) if int(year) < 100 else int(year)] *)
Definition full_year (y : Z) : Z := if y <? 100 then 2000 + y else y.

(** [parse_barcode].  The f-string of the date cannot raise: a year
    that [int] accepted has at most [int_max_str_digits] digits, and so
    has [full_year] of it (lemma [full_year_fits]). *)
Definition parse_barcode (db : DB) (barcode : string) (is_batch : bool) : parse_result :=
  let parts := split barcode in
  let n := List.length parts in
  if is_batch && negb (Nat.eqb n 5) then InvalidBatchBarcode n
  else if negb is_batch && negb (Nat.eqb n 5 || Nat.eqb n 6) then InvalidItemBarcode n
  else
    let item_code := nth 0 parts "" in
    let day := nth 1 parts "" in
    let month := nth 2 parts "" in
    let year := nth 3 parts "" in
    let gen := nth 4 parts "" in
    match int year with
    | None => ParsingError
    | Some y =>
        Parsed {| pd_item_type := get_item_name db item_code;
                  pd_generation := gen;
                  pd_created_date := day ++ "." ++ month ++ "." ++ str_of_Z (full_year y);
                  pd_full_barcode := barcode |}
    end.

(** [ensure_item_exists] after its [SELECT] found no row: derive the
    batch barcode, insert, and map the exceptions to the result. *)
Definition ensure_item_insert (db : DB)
    (full_barcode item_type generation created_date : string) : bool * DB :=
  let parts := split full_barcode in
  if Nat.ltb (List.length parts) 5 then (false, db)
  else
    let batch_barcode := join (firstn 5 parts) in
    match insert_item (items db)
            {| Store.full_barcode := full_barcode; Store.batch_barcode := batch_barcode;
               Store.item_type := item_type; Store.generation := generation;
               Store.created_date := created_date; current_status := "IN" |} with
    | inr t => (true, set_items db t)
    | inl (IntegrityError _) => (true, db)
    | inl _ => (false, db)
    end.

(** [ensure_item_exists] *)
Definition ensure_item_exists (db : DB)
    (full_barcode item_type generation created_date : string) : bool * DB :=
  match fetchone (has_barcode full_barcode) (items db) with
  | Some _ => (true, db)
  | None => ensure_item_insert db full_barcode item_type generation created_date
  end.

Definition set_status (s : string) (i : item) : item :=
  {| full_barcode := full_barcode i; batch_barcode := batch_barcode i;
     item_type := item_type i; generation := generation i;
     created_date := created_date i; current_status := s |}.

(** [update_item_status]: the result is [c.rowcount > 0]. *)
Definition update_item_status (db : DB) (barcode new_status : string) : bool * DB :=
  (negb (Nat.eqb (count_where (has_barcode barcode) (items db)) 0),
   set_items db (update_where (has_barcode barcode) (set_status new_status) (items db))).

(** What a retrying function does besides returning: its prints and
    its [time.sleep] calls, in order. *)
Inductive event : Type :=
| RetryNotice (retries max_retries : nat)
| Sleep (delay_ms : N)
| ErrorNotice (e : exn)
| GaveUp (max_retries : nat).

Definition default_max_retries : nat := 3.
Definition default_retry_delay : N := 200.

(** [isinstance(e, sqlite3.OperationalError) and
     "database is locked" in str(e)] *)
Definition lock_busy (e : exn) : bool :=
  match e with
  | OperationalError msg => contains "database is locked" msg
  | _ => false
  end.

Definition scan_of (p : parsed) (status : string) (now : Z) : item_scan :=
  {| scan_barcode := pd_full_barcode p; scan_item_type := pd_item_type p;
     scan_generation := pd_generation p; scan_created_date := pd_created_date p;
     scan_time := now; scan_status := status |}.

(** The [while retries < max_retries] loop of [log_scan], by recursion
    on [max_retries - retries].  [store k] is what the store raises
    during the attempt made with [retries = k] ([None]: nothing). *)
Fixpoint log_scan_loop (store : nat -> option exn) (db : DB) (p : parsed)
    (status : string) (now : Z) (max_retries : nat) (retry_delay : N)
    (remaining retries : nat) : bool * DB * list event :=
  match remaining with
  | O => (false, db, [GaveUp max_retries])
  | S remaining' =>
      match store retries with
      | None => (true, set_item_scans db (insert (item_scans db) (scan_of p status now)), [])
      | Some e =>
          if lock_busy e then
            let '(r, db', evs) :=
              log_scan_loop store db p status now max_retries retry_delay
                            remaining' (S retries) in
            (r, db', RetryNotice (S retries) max_retries :: Sleep retry_delay :: evs)
          else (false, db, [ErrorNotice e])
      end
  end.

(** [log_scan] *)
Definition log_scan (store : nat -> option exn) (db : DB) (p : parsed)
    (status : string) (now : Z) (max_retries : nat) (retry_delay : N)
    : bool * DB * list event :=
  log_scan_loop store db p status now max_retries retry_delay max_retries 0.

(** [register_location] *)
Definition register_location (db : DB) (barcode location_name : string) : bool * DB :=
  let clean_barcode := to_upper_alphanumeric barcode in
  match clean_barcode with
  | EmptyString => (false, db)
  | _ =>
      match strip location_name with
      | EmptyString => (false, db)
      | _ =>
          (true, set_locations db
                   (replace_location (locations db)
                      {| Store.barcode := clean_barcode;
                         Store.location_name := location_name |}))
      end
  end.

(** The number [get_highest_item_number] reads off one barcode: the
    sixth field of a 6-field barcode when it is all digits. *)
Definition item_number (barcode : string) : option Z :=
  let parts := split barcode in
  if Nat.eqb (List.length parts) 6 then
    let num_part := nth 5 parts "" in
    if isdigit num_part then int num_part else None
  else None.

(** [get_highest_item_number] *)
Definition get_highest_item_number (db : DB) : Z :=
  fold_left
    (fun max_num r =>
       match item_number (full_barcode (snd r)) with
       | Some num => if num >? max_num then num else max_num
       | None => max_num
       end)
    (rows (items db)) 0.

(** What [create_batch] prints before it returns. *)
Inductive batch_report : Type :=
| LocationRequired
| LocationNotRegistered
| InvalidBarcodeFormat
| InvalidPartCount
| QuantityNotPositive
| InvalidQuantity
| BatchCreated (quantity : Z) (batch_base location_barcode : string) (start_num : Z)
| BatchAborted (e : exn).

(** The locals of [create_batch] when it reaches the quantity prompt. *)
Record batch_plan : Type := {
  bp_location_barcode : string; bp_parsed : parsed;
  bp_batch_base : string; bp_start_num : Z }.

(** [create_batch] up to [start_num = max_num + 1]: the location and
    barcode prompts, their validation, and the read of the highest item
    number, each on a connection of its own that is closed again. *)
Definition create_batch_prepare (db : DB) (location_entry barcode_entry : string)
    : batch_report + batch_plan :=
  let location_barcode := upper (strip location_entry) in
  match location_barcode with
  | EmptyString => inl LocationRequired
  | _ =>
      match fetchone (fun r => String.eqb (barcode (snd r)) location_barcode)
                     (locations db) with
      | None => inl LocationNotRegistered
      | Some _ =>
          let barcode_input := strip barcode_entry in
          match parse_barcode db barcode_input false with
          | Parsed p =>
              let parts := split barcode_input in
              let finish batch_base :=
                inr {| bp_location_barcode := location_barcode; bp_parsed := p;
                       bp_batch_base := batch_base;
                       bp_start_num := get_highest_item_number db + 1 |} in
              if Nat.eqb (List.length parts) 6 then finish (join (firstn 5 parts))
              else if Nat.eqb (List.length parts) 5 then finish barcode_input
              else inl InvalidPartCount
          | _ => inl InvalidBarcodeFormat
          end
      end
  end.

Definition batch_item_barcode (batch_base : string) (i : Z) : string :=
  batch_base ++ "_" ++ format_04d i.

(** [ValueError] of a conversion beyond [int_max_str_digits], and
    [OverflowError] of [sqlite3] for an integer beyond 64 bits; both
    reach the [except Exception] of [create_batch]. *)
Definition str_digits_exceeded : exn :=
  OtherError
    "Exceeds the limit (4300 digits) for integer string conversion; use sys.set_int_max_str_digits() to increase the limit".

Definition sqlite_int_overflow : exn :=
  OtherError "Python int too large to convert to SQLite INTEGER".

(** The largest [INTEGER] of SQLite, 2^63 - 1. *)
Definition sqlite_max_int : Z := 9223372036854775807.

(** The [for i in range(start_num, start_num + quantity)] loop, with
    [count] iterations left and the first exception ending it: the
    [04d] field of a number of too many digits, or the [UNIQUE]
    constraint of the item barcode. *)
Fixpoint create_batch_items (plan : batch_plan) (now : Z) (count : nat) (i : Z)
    (db : DB) : exn + DB :=
  match count with
  | O => inr db
  | S count' =>
    if negb (str_fits i) then inl str_digits_exceeded
    else
      let p := bp_parsed plan in
      let full_barcode := batch_item_barcode (bp_batch_base plan) i in
      match insert_item (items db)
              {| Store.full_barcode := full_barcode;
                 Store.batch_barcode := bp_batch_base plan;
                 Store.item_type := pd_item_type p;
                 Store.generation := pd_generation p;
                 Store.created_date := pd_created_date p;
                 current_status := "IN" |} with
      | inl e => inl e
      | inr t =>
          let item_id := next_rowid (items db) in
          let db1 := set_items db t in
          let db2 := set_item_locations db1
                       (insert (item_locations db1)
                          {| il_item_id := item_id;
                             il_location_barcode := bp_location_barcode plan;
                             il_timestamp := now |}) in
          let db3 := set_item_scans db2
                       (insert (item_scans db2)
                          {| scan_barcode := full_barcode;
                             scan_item_type := pd_item_type p;
                             scan_generation := pd_generation p;
                             scan_created_date := pd_created_date p;
                             scan_time := now; scan_status := "IN" |}) in
          create_batch_items plan now count' (i + 1) db3
      end
  end.

(** [create_batch] from the quantity prompt on: the prompt shows
    [start_num], inside the [try] of the quantity; then one connection,
    one transaction, rolled back on any exception.  The first [INSERT]
    binds [quantity], which SQLite takes up to [sqlite_max_int]. *)
Definition create_batch_commit (db : DB) (plan : batch_plan) (quantity_entry : string)
    (now : Z) : batch_report * DB :=
  if negb (str_fits (bp_start_num plan)) then (InvalidQuantity, db)
  else
  match int quantity_entry with
  | None => (InvalidQuantity, db)
  | Some quantity =>
      if quantity <=? 0 then (QuantityNotPositive, db)
      else if sqlite_max_int <? quantity then (BatchAborted sqlite_int_overflow, db)
      else
        let p := bp_parsed plan in
        let db1 := set_batch_scans db
                     (insert (batch_scans db)
                        {| bs_batch_barcode := bp_batch_base plan;
                           bs_item_type := pd_item_type p;
                           bs_generation := pd_generation p;
                           bs_created_date := pd_created_date p;
                           bs_quantity := quantity; bs_scan_time := now;
                           bs_status := "CREATED" |}) in
        match create_batch_items plan now (Z.to_nat quantity) (bp_start_num plan) db1 with
        | inr db2 =>
            (BatchCreated quantity (bp_batch_base plan) (bp_location_barcode plan)
                          (bp_start_num plan), db2)
        | inl e => (BatchAborted e, db)
        end
  end.

(** [create_batch] with no other writer between its connections. *)
Definition create_batch (db : DB) (location_entry barcode_entry quantity_entry : string)
    (now : Z) : batch_report * DB :=
  match create_batch_prepare db location_entry barcode_entry with
  | inl report => (report, db)
  | inr plan => create_batch_commit db plan quantity_entry now
  end.

(** What one pass of the [while True] loop of [move_item_session]
    prints. *)
Inductive move_report : Type :=
| NotParsed
| InvalidMoveBarcode
| FailedToCreateItem
| ItemMoved (created status_changed : bool)
| MoveError (e : exn).

Definition has_rowid {A} (id : Z) (r : Z * A) : bool := Z.eqb (fst r) id.

(** The body of the [while True] loop of [move_item_session] for a
    scanned [barcode] other than "finish": the target location was
    validated before the loop. *)
Definition move_item_scan (db : DB) (target_location barcode : string) (now : Z)
    : move_report * DB :=
  match parse_barcode db barcode false with
  | Parsed p =>
      let assign (created changed : bool) (db1 : DB) (item_id : Z) :=
        let db2 := set_item_locations db1
                     (insert (item_locations db1)
                        {| il_item_id := item_id;
                           il_location_barcode := target_location;
                           il_timestamp := now |}) in
        let db3 := set_item_scans db2
                     (insert (item_scans db2)
                        {| scan_barcode := barcode;
                           scan_item_type := pd_item_type p;
                           scan_generation := pd_generation p;
                           scan_created_date := pd_created_date p;
                           scan_time := now; scan_status := "IN" |}) in
        (ItemMoved created changed, db3) in
      match fetchone (has_barcode barcode) (items db) with
      | None =>
          let parts := split barcode in
          if Nat.ltb (List.length parts) 5 then (InvalidMoveBarcode, db)
          else
            match insert_item (items db)
                    {| Store.full_barcode := barcode;
                       Store.batch_barcode := join (firstn 5 parts);
                       Store.item_type := pd_item_type p;
                       Store.generation := pd_generation p;
                       Store.created_date := pd_created_date p;
                       current_status := "IN" |} with
            | inl e => (MoveError e, db)
            | inr t =>
                let db1 := set_items db t in
                match fetchone (has_barcode barcode) (items db1) with
                | None => (FailedToCreateItem, db1)
                | Some item_row => assign true false db1 (fst item_row)
                end
            end
      | Some item_row =>
          let item_id := fst item_row in
          if String.eqb (current_status (snd item_row)) "OUT" then
            assign false true
              (set_items db (update_where (has_rowid item_id) (set_status "IN") (items db)))
              item_id
          else assign false false db item_id
      end
  | _ => (NotParsed, db)
  end.

(** What [delete_all_out_items] prints. *)
Inductive purge_report : Type :=
| Cancelled
| NothingDeleted
| Deleted (out_count : nat).

Definition out_items (db : DB) : list (Z * item) :=
  filter (has_status "OUT") (rows (items db)).

(** [item_id IN (SELECT id FROM items WHERE current_status = 'OUT')] *)
Definition in_out_ids (db : DB) (item_id : Z) : bool :=
  existsb (fun r => Z.eqb (fst r) item_id) (out_items db).

(** [barcode IN (SELECT full_barcode FROM items WHERE current_status = 'OUT')] *)
Definition in_out_barcodes (db : DB) (b : string) : bool :=
  existsb (fun r => String.eqb (full_barcode (snd r)) b) (out_items db).

(** [delete_all_out_items] *)
Definition delete_all_out_items (db : DB) (confirm_entry : string) : purge_report * DB :=
  let confirm := strip confirm_entry in
  let normalized_confirm := filter_chars is_alpha_char (upper confirm) in
  if negb (String.eqb normalized_confirm "DELETEALL") then (Cancelled, db)
  else
    let out_count := count_where (has_status "OUT") (items db) in
    if Nat.eqb out_count 0 then (NothingDeleted, db)
    else
      (Deleted out_count,
       {| batch_scans := batch_scans db;
          items := delete_where (has_status "OUT") (items db);
          notes := delete_where (fun r => in_out_ids db (note_item_id (snd r))) (notes db);
          locations := locations db;
          item_locations :=
            delete_where (fun r => in_out_ids db (il_item_id (snd r))) (item_locations db);
          item_scans :=
            delete_where (fun r => in_out_barcodes db (scan_barcode (snd r))) (item_scans db);
          item_codes := item_codes db |}).

End Tracker.

Import PyStr Store Tracker.

(** ** Vocabulary of the statements *)

(** A text without the delimiter. *)
Definition no_us (s : string) : Prop := all_chars (fun c => negb (is_us c)) s = true.

(** A text of decimal digits. *)
Definition digits (s : string) : Prop := all_chars is_digit_char s = true.

Definition field_count (barcode : string) : nat := List.length (split barcode).

(** The arity [parse_barcode] expects. *)
Definition arity_ok (barcode : string) (is_batch : bool) : bool :=
  if is_batch then Nat.eqb (field_count barcode) 5
  else Nat.eqb (field_count barcode) 5 || Nat.eqb (field_count barcode) 6.

Definition year_field (barcode : string) : string := nth 3 (split barcode) "".

(** The row [ensure_item_exists] inserts for an unseen barcode. *)
Definition fresh_item (barcode item_type generation created_date : string) : item :=
  {| full_barcode := barcode;
     batch_barcode := join (firstn 5 (split barcode));
     Store.item_type := item_type; Store.generation := generation;
     Store.created_date := created_date; current_status := "IN" |}.

(** The store answers attempt [k] with a lock-busy error. *)
Definition busy_at (store : nat -> option exn) (k : nat) : Prop :=
  exists e, store k = Some e /\ lock_busy e = true.

(** What [count] lock-busy attempts starting at [retries = from] leave
    behind: a notice and a sleep each. *)
Fixpoint retry_events (max_retries : nat) (retry_delay : N) (from count : nat)
    : list event :=
  match count with
  | O => []
  | S count' =>
      RetryNotice (S from) max_retries :: Sleep retry_delay
        :: retry_events max_retries retry_delay (S from) count'
  end.

(** The store after the [INSERT] of [log_scan] went through. *)
Definition logged (db : DB) (p : parsed) (status : string) (now : Z) : DB :=
  set_item_scans db (insert (item_scans db) (scan_of p status now)).

Definition is_location (b : string) (r : Z * location) : bool :=
  String.eqb (barcode (snd r)) b.

(** [str(i)] for [i >= 0] *)
Definition decimal (i : Z) : string := NilEmpty.string_of_uint (N.to_uint (Z.to_N i)).

(** The least number whose decimal text has more than
    [int_max_str_digits] digits. *)
Definition str_bound : Z := 10 ^ Z.of_N int_max_str_digits.

(** Every item barcode of the store is ASCII text. *)
Definition ascii_items (db : DB) : bool :=
  forallb (fun r => isascii (full_barcode (snd r))) (rows (items db)).

Definition four_wide (k : nat) : bool :=
  Nat.eqb (String.length (format_04d (Z.of_nat k))) 4.

(** The item number of a row, as [get_highest_item_number] reads it. *)
Definition number_of (r : Z * item) : option Z := item_number (full_barcode (snd r)).

(** One pass of the loop of [get_highest_item_number]. *)
Definition highest_step (max_num : Z) (r : Z * item) : Z :=
  match number_of r with
  | Some num => if num >? max_num then num else max_num
  | None => max_num
  end.

(** [range(i, i + count)] *)
Fixpoint range_from (i : Z) (count : nat) : list Z :=
  match count with
  | O => []
  | S count' => i :: range_from (i + 1) count'
  end.

(** The item row [create_batch] writes for number [i]. *)
Definition batch_item (plan : batch_plan) (i : Z) : item :=
  {| full_barcode := batch_item_barcode (bp_batch_base plan) i;
     batch_barcode := bp_batch_base plan;
     item_type := pd_item_type (bp_parsed plan);
     generation := pd_generation (bp_parsed plan);
     created_date := pd_created_date (bp_parsed plan);
     current_status := "IN" |}.

(** ** Scenarios *)

Module Scenario.

(** A new store with one registered location, SHELF1. *)
Definition shelf_db : DB := snd (register_location init_database "shelf-1" "Shelf 1").

(** A first scan of [barcode]: decode, then [ensure_item_exists]. *)
Definition scanned (db : DB) (barcode : string) : DB :=
match parse_barcode db barcode false with
| Parsed p =>
    snd (ensure_item_exists db barcode (pd_item_type p) (pd_generation p)
           (pd_created_date p))
| _ => db
end.

(** The check-out of menu entry 2, with a store that never fails. *)
Definition checked_out (db : DB) (barcode : string) (now : Z) : DB :=
match parse_barcode db barcode false with
| Parsed p =>
    let db1 := snd (ensure_item_exists db barcode (pd_item_type p) (pd_generation p)
                      (pd_created_date p)) in
    let db2 := snd (update_item_status db1 barcode "OUT") in
    snd (fst (log_scan (fun _ => None) db2 p "OUT" now default_max_retries
                default_retry_delay))
| _ => db
end.

Definition moved (db : DB) (barcode : string) (now : Z) : DB :=
snd (move_item_scan db "SHELF1" barcode now).

Definition noted (db : DB) (item_id : Z) (text : string) : DB :=
set_notes db (insert (notes db) {| note_item_id := item_id; note_text := text |}).

(** Items numbered 0001, 0007 and 0003. *)
Definition three_items_db : DB :=
scanned (scanned (scanned shelf_db "PIPI_01_02_23_G1_0001") "PIPI_01_02_23_G1_0007")
        "CHNU_03_02_23_G2_0003".

(** One item numbered 9999. *)
Definition full_db : DB := scanned shelf_db "PIPI_01_02_23_G1_9999".

(** One item, checked out. *)
Definition out_db : DB :=
checked_out (moved shelf_db "PIPI_01_02_23_G1_0007" 10) "PIPI_01_02_23_G1_0007" 20.

(** Five items on the shelf with their scans, two of them checked out,
  and a note on one item of each kind. *)
Definition mixed_db : DB :=
let d1 := moved shelf_db "PIPI_01_02_23_G1_0001" 10 in
let d2 := moved d1 "PIPI_01_02_23_G1_0002" 11 in
let d3 := moved d2 "PIPI_01_02_23_G1_0003" 12 in
let d4 := moved d3 "CHNU_03_02_23_G2_0004" 13 in
let d5 := moved d4 "CHNU_03_02_23_G2_0005" 14 in
let d6 := checked_out (checked_out d5 "PIPI_01_02_23_G1_0002" 20)
                      "CHNU_03_02_23_G2_0004" 21 in
noted (noted d6 2 "spent") 3 "keep moist".

Definition pipi_plan : batch_plan :=
{| bp_location_barcode := "SHELF1";
   bp_parsed := {| pd_item_type := "PioPino"; pd_generation := "G1";
                   pd_created_date := "01.02.2023";
                   pd_full_barcode := "PIPI_01_02_23_G1" |};
   bp_batch_base := "PIPI_01_02_23_G1";
   bp_start_num := 8 |}.

(** The store always reports the file as locked. *)
Definition always_locked (k : nat) : option exn :=
Some (OperationalError "database is locked").

(** The store fails with something else on the first attempt. *)
Definition disk_full (k : nat) : option exn :=
Some (OperationalError "database or disk is full").

Definition pipi_scan : parsed :=
{| pd_item_type := "PioPino"; pd_generation := "G1";
   pd_created_date := "01.02.2023"; pd_full_barcode := "PIPI_01_02_23_G1_0007" |}.

End Scenario.

(** ** The program, continued: notes *)

Module Notes.
Import PyStr Store Tracker.

Definition note_of (item_id : Z) (r : Z * note) : bool :=
  Z.eqb (note_item_id (snd r)) item_id.

Definition with_text (text : string) (n : note) : note :=
  {| note_item_id := note_item_id n; note_text := text |}.

(** [add_note] *)
Definition add_note (db : DB) (barcode note : string) : bool * DB :=
  match fetchone (has_barcode barcode) (items db) with
  | None => (false, db)
  | Some item_row =>
      let item_id := fst item_row in
      match fetchone (note_of item_id) (notes db) with
      | Some _ =>
          (true, set_notes db (update_where (note_of item_id) (with_text note) (notes db)))
      | None =>
          (true, set_notes db
                   (insert (notes db) {| note_item_id := item_id; note_text := note |}))
      end
  end.

(** [get_note].  [full_barcode] is [UNIQUE], so the join ranges over the
    notes of at most one item, met in rowid order. *)
Definition get_note (db : DB) (barcode : string) : string :=
  match fetchone (has_barcode barcode) (items db) with
  | None => ""
  | Some item_row =>
      match fetchone (note_of (fst item_row)) (notes db) with
      | Some n => note_text (snd n)
      | None => ""
      end
  end.

End Notes.

(** ** The program, continued: item codes and locations *)

Module Registry.
Import PyStr Store Tracker.

(** [is_alphanumeric] *)
Definition is_alphanumeric (input_str : string) : bool := isalnum input_str.

Definition set_item_codes (db : DB) (t : table item_code) : DB :=
  {| batch_scans := batch_scans db; items := items db; notes := notes db;
     locations := locations db; item_locations := item_locations db;
     item_scans := item_scans db; item_codes := t |}.

Definition has_code (code : string) (r : Z * item_code) : bool :=
  String.eqb (ic_code (snd r)) code.

Definition with_name (name : string) (c : item_code) : item_code :=
  {| ic_code := ic_code c; ic_name := name |}.

(** What [add_or_update_item_code] prints. *)
Inductive code_report : Type :=
| BothFieldsRequired
| CodeNotAlphanumeric
| CodeUpdated
| CodeAdded.

(** [add_or_update_item_code] *)
Definition add_or_update_item_code (db : DB) (code_entry name_entry : string)
    : code_report * DB :=
  let code := upper (strip code_entry) in
  let name := strip name_entry in
  match code, name with
  | EmptyString, _ | _, EmptyString => (BothFieldsRequired, db)
  | _, _ =>
      if negb (is_alphanumeric code) then (CodeNotAlphanumeric, db)
      else
        match fetchone (has_code code) (item_codes db) with
        | Some _ =>
            (CodeUpdated,
             set_item_codes db (update_where (has_code code) (with_name name) (item_codes db)))
        | None =>
            (CodeAdded,
             set_item_codes db (insert (item_codes db) {| ic_code := code; ic_name := name |}))
        end
  end.

(** What [remove_item_code] prints. *)
Inductive remove_code_report : Type :=
| NoCodeProvided
| CodeNotFound
| CodeInUse (code : string) (count : nat)
| CodeRemoved (code : string).

Definition has_item_type (name : string) (r : Z * item) : bool :=
  String.eqb (item_type (snd r)) name.

(** [remove_item_code] *)
Definition remove_item_code (db : DB) (code_entry : string) : remove_code_report * DB :=
  let code := upper (strip code_entry) in
  match code with
  | EmptyString => (NoCodeProvided, db)
  | _ =>
      match fetchone (has_code code) (item_codes db) with
      | None => (CodeNotFound, db)
      | Some result =>
          let name := ic_name (snd result) in
          let count := count_where (has_item_type name) (items db) in
          if Nat.ltb 0 count then (CodeInUse code count, db)
          else (CodeRemoved code,
                set_item_codes db (delete_where (has_code code) (item_codes db)))
      end
  end.

Definition has_location (b : string) (r : Z * location) : bool :=
  String.eqb (barcode (snd r)) b.

Definition assigned_to (b : string) (r : Z * item_location) : bool :=
  String.eqb (il_location_barcode (snd r)) b.

(** What [remove_location] prints. *)
Inductive remove_location_report : Type :=
| NoBarcodeProvided
| LocationNotFound
| LocationInUse (name : string) (count : nat)
| LocationRemoved (name : string).

(** [remove_location] *)
Definition remove_location (db : DB) (barcode_entry : string)
    : remove_location_report * DB :=
  let barcode := upper (strip barcode_entry) in
  match barcode with
  | EmptyString => (NoBarcodeProvided, db)
  | _ =>
      match fetchone (has_location barcode) (locations db) with
      | None => (LocationNotFound, db)
      | Some result =>
          let location_name := Store.location_name (snd result) in
          let count := count_where (assigned_to barcode) (item_locations db) in
          if Nat.ltb 0 count then (LocationInUse location_name count, db)
          else (LocationRemoved location_name,
                set_locations db (delete_where (has_location barcode) (locations db)))
      end
  end.

(** What [register_location_session] prints. *)
Inductive register_report : Type :=
| InvalidInput
| BarcodeNotAlphanumeric
| LocationRegistered (name : string)
| RegistrationError.

(** [register_location_session] *)
Definition register_location_session (db : DB) (barcode_entry name_entry : string)
    : register_report * DB :=
  let location_barcode := upper (strip barcode_entry) in
  let location_name := strip name_entry in
  match location_barcode, location_name with
  | EmptyString, _ | _, EmptyString => (InvalidInput, db)
  | _, _ =>
      if negb (is_alphanumeric location_barcode) then (BarcodeNotAlphanumeric, db)
      else
        let '(ok, db') := register_location db location_barcode location_name in
        if ok then (LocationRegistered location_name, db') else (RegistrationError, db')
  end.

End Registry.

(** ** The program, continued: the scanning loops *)

Module Session.
Import PyStr Store Tracker.

(** What one pass of the check-out loop of [main] prints. *)
Inductive check_out_report : Type :=
| InvalidBarcode
| EnsureFailed
| ScanSaved (status_updated : bool)
| ScanNotSaved (status_updated : bool).

(** The body of the [while True] loop under [choice == "2"] in [main]
    for a scanned [barcode] other than "finish".  [store] is what the
    connection of [log_scan] meets. *)
Definition check_out_scan (store : nat -> option exn) (db : DB) (barcode : string)
    (now : Z) : check_out_report * DB * list event :=
  match parse_barcode db barcode false with
  | Parsed p =>
      let '(ensured, db1) :=
        ensure_item_exists db barcode (pd_item_type p) (pd_generation p)
          (pd_created_date p) in
      if negb ensured then (EnsureFailed, db1, [])
      else
        let '(updated, db2) := update_item_status db1 barcode "OUT" in
        let '(saved, db3, events) :=
          log_scan store db2 p "OUT" now default_max_retries default_retry_delay in
        (if saved then ScanSaved updated else ScanNotSaved updated, db3, events)
  | _ => (InvalidBarcode, db, [])
  end.

(** The [while True] loop of [move_item_session] over the texts typed at
    its prompt, each with the time of the scan; the loop also ends when
    the input does. *)
Fixpoint move_item_loop (db : DB) (target_location : string)
    (entries : list (string * Z)) : list move_report * DB :=
  match entries with
  | [] => ([], db)
  | (entry, now) :: rest =>
      let barcode := strip entry in
      if String.eqb (lower barcode) "finish" then ([], db)
      else
        let '(report, db1) := move_item_scan db target_location barcode now in
        let '(reports, db2) := move_item_loop db1 target_location rest in
        (report :: reports, db2)
  end.

(** What [move_item_session] prints before its loop, or the reports of
    the loop. *)
Inductive session_report : Type :=
| NoTargetLocation
| TargetIsItemBarcode
| TargetNotRegistered
| SessionEnded (location_name : string) (reports : list move_report).

(** [move_item_session] *)
Definition move_item_session (db : DB) (target_entry : string)
    (entries : list (string * Z)) : session_report * DB :=
  let target_location := upper (strip target_entry) in
  match target_location with
  | EmptyString => (NoTargetLocation, db)
  | _ =>
      if looks_like_item_barcode target_location then (TargetIsItemBarcode, db)
      else
        match fetchone (fun r => String.eqb (barcode (snd r)) target_location)
                       (locations db) with
        | None => (TargetNotRegistered, db)
        | Some result =>
            let '(reports, db') := move_item_loop db target_location entries in
            (SessionEnded (location_name (snd result)) reports, db')
        end
  end.

End Session.

(** ** The earlier program: [scanner.py] where it differs *)

Module Scanner.
Import PyStr Store.

(** [ITEM_CODES] *)
Definition ITEM_CODES : list (string * string) :=
  [("PiPi", "PioPino"); ("ChNu", "Chestnut"); ("KiOy", "KingOyster");
   ("BlOy", "BlueOyster"); ("PiOy", "PinkOyster"); ("LiMa", "Lionsmane")].

(** [ITEM_CODES.get(item_code, "Unknown")] *)
Definition item_code_name (item_code : string) : string :=
  match find (fun cn => String.eqb (fst cn) item_code) ITEM_CODES with
  | Some cn => snd cn
  | None => "Unknown"
  end.

(** [parse_barcode] of [scanner.py] *)
Definition parse_barcode (barcode : string) (is_batch : bool) : Tracker.parse_result :=
  let parts := split barcode in
  let n := List.length parts in
  if is_batch && negb (Nat.eqb n 5) then Tracker.InvalidBatchBarcode n
  else if negb is_batch && negb (Nat.eqb n 5 || Nat.eqb n 6) then Tracker.InvalidItemBarcode n
  else
    let item_code := nth 0 parts "" in
    let day := nth 1 parts "" in
    let month := nth 2 parts "" in
    let year := nth 3 parts "" in
    let gen := nth 4 parts "" in
    match int year with
    | None => Tracker.ParsingError
    | Some y =>
        Tracker.Parsed
          {| Tracker.pd_item_type := item_code_name item_code;
             Tracker.pd_generation := gen;
             Tracker.pd_created_date :=
               day ++ "." ++ month ++ "." ++ str_of_Z (Tracker.full_year y);
             Tracker.pd_full_barcode := barcode |}
    end.

(** [register_location] of [scanner.py]: a plain [INSERT]; the [UNIQUE]
    violation is caught by [except Exception]. *)
Definition register_location (db : DB) (barcode location_name : string) : bool * DB :=
  match fetchone (fun r => String.eqb (Store.barcode (snd r)) barcode) (locations db) with
  | Some _ => (false, db)
  | None =>
      (true, set_locations db
               (insert (locations db)
                  {| Store.barcode := barcode; Store.location_name := location_name |}))
  end.

(** One pass of the retry loop of [move_item_to_location] of
    [scanner.py] during which the store raises nothing. *)
Definition move_item_to_location_once (db : DB) (item_barcode location_barcode : string)
    (now : Z) : bool * DB :=
  match fetchone (fun r => String.eqb (Store.barcode (snd r)) location_barcode)
                 (locations db) with
  | None => (false, db)
  | Some _ =>
      let assign (db1 : DB) (item_id : Z) :=
        (true, set_item_locations db1
                 (insert (item_locations db1)
                    {| il_item_id := item_id; il_location_barcode := location_barcode;
                       il_timestamp := now |})) in
      match fetchone (has_barcode item_barcode) (items db) with
      | Some item_row => assign db (fst item_row)
      | None =>
          match parse_barcode item_barcode false with
          | Tracker.Parsed p =>
              let '(ensured, db1) :=
                Tracker.ensure_item_exists db item_barcode (Tracker.pd_item_type p)
                  (Tracker.pd_generation p) (Tracker.pd_created_date p) in
              if negb ensured then (false, db1)
              else
                match fetchone (has_barcode item_barcode) (items db1) with
                | None => (false, db1)
                | Some item_row => assign db1 (fst item_row)
                end
          | _ => (false, db)
          end
      end
  end.

(** What one pass of the loop of [scan_session] prints. *)
Inductive scan_report : Type :=
| InvalidBarcode
| EnsureFailed
| ScanSaved (status_updated moved : bool)
| ScanNotSaved (status_updated moved : bool).

(** The body of the [while True] loop of [scan_session(status)] for a
    scanned [barcode] other than "finish", on a store that raises
    nothing; [location_barcode] is [None] for a check-out. *)
Definition scan_session_scan (db : DB) (status : string)
    (location_barcode : option string) (barcode : string) (now : Z)
    : scan_report * DB :=
  match parse_barcode barcode false with
  | Tracker.Parsed p =>
      let '(ensured, db1) :=
        Tracker.ensure_item_exists db barcode (Tracker.pd_item_type p)
          (Tracker.pd_generation p) (Tracker.pd_created_date p) in
      if negb ensured then (EnsureFailed, db1)
      else
        let '(updated, db2) := Tracker.update_item_status db1 barcode status in
        let '(moved, db3) :=
          match location_barcode with
          | Some (String c l) =>
              if String.eqb status "IN" then
                move_item_to_location_once db2 (Tracker.pd_full_barcode p) (String c l) now
              else (false, db2)
          | _ => (false, db2)
          end in
        let '(saved, db4, _) :=
          Tracker.log_scan (fun _ => None) db3 p status now Tracker.default_max_retries
            Tracker.default_retry_delay in
        (if saved then ScanSaved updated moved else ScanNotSaved updated moved, db4)
  | _ => (InvalidBarcode, db)
  end.

(** The body of the [while True] loop of [move_item_session] of
    [scanner.py]: as the later program, without the scan. *)
Definition move_item_scan (db : DB) (target_location barcode : string) (now : Z)
    : Tracker.move_report * DB :=
  match parse_barcode barcode false with
  | Tracker.Parsed p =>
      let assign (created changed : bool) (db1 : DB) (item_id : Z) :=
        (Tracker.ItemMoved created changed,
         set_item_locations db1
           (insert (item_locations db1)
              {| il_item_id := item_id; il_location_barcode := target_location;
                 il_timestamp := now |})) in
      match fetchone (has_barcode barcode) (items db) with
      | None =>
          let parts := split barcode in
          if Nat.ltb (List.length parts) 5 then (Tracker.InvalidMoveBarcode, db)
          else
            match insert_item (items db)
                    {| Store.full_barcode := barcode;
                       Store.batch_barcode := join (firstn 5 parts);
                       Store.item_type := Tracker.pd_item_type p;
                       Store.generation := Tracker.pd_generation p;
                       Store.created_date := Tracker.pd_created_date p;
                       current_status := "IN" |} with
            | inl e => (Tracker.MoveError e, db)
            | inr t =>
                let db1 := set_items db t in
                match fetchone (has_barcode barcode) (items db1) with
                | None => (Tracker.FailedToCreateItem, db1)
                | Some item_row => assign true false db1 (fst item_row)
                end
            end
      | Some item_row =>
          let item_id := fst item_row in
          if String.eqb (current_status (snd item_row)) "OUT" then
            assign false true
              (set_items db
                 (update_where (Tracker.has_rowid item_id) (Tracker.set_status "IN")
                    (items db)))
              item_id
          else assign false false db item_id
      end
  | _ => (Tracker.NotParsed, db)
  end.

End Scanner.

(** ** Vocabulary of the further statements *)

(** The status of the item carrying [barcode], if there is one. *)
Definition status_of (db : DB) (barcode : string) : option string :=
  option_map (fun r => current_status (snd r)) (fetchone (has_barcode barcode) (items db)).

(** Every location assignment points at a registered location. *)
Definition assignments_registered (db : DB) : Prop :=
  forall r, In r (rows (item_locations db)) ->
            exists l, In l (rows (locations db)) /\
                      barcode (snd l) = il_location_barcode (snd r).

(** The store after the [ensure_item_exists] of a check-out. *)
Definition ensured (db : DB) (barcode : string) (p : parsed) : DB :=
  snd (ensure_item_exists db barcode (pd_item_type p) (pd_generation p) (pd_created_date p)).

(** The store after the [update_item_status] of a check-out. *)
Definition marked_out (db : DB) (barcode : string) (p : parsed) : DB :=
  snd (update_item_status (ensured db barcode p) barcode "OUT").

Definition is_sleep (e : event) : bool :=
  match e with Sleep _ => true | _ => false end.

(** * Properties *)

(** ** Splitting and joining on the delimiter *)

Section SplitJoin.

Lemma split_not_nil s : split s <> [].
Proof.
  destruct s as [|c r]; simpl; [discriminate|].
  destruct (is_us c); [discriminate|].
  destruct (split r); discriminate.
Qed.

Lemma split_no_us s : Forall no_us (split s).
Proof.
  induction s as [|c r IH]; simpl.
  - repeat constructor.
  - destruct (is_us c) eqn:Hc.
    + constructor; [reflexivity | exact IH].
    + destruct (split r) as [|h t].
      * repeat constructor. unfold no_us; simpl. now rewrite Hc.
      * inversion IH; subst. constructor; [|assumption].
        unfold no_us in *; simpl. now rewrite Hc.
Qed.

Lemma split_plain s : no_us s -> split s = [s].
Proof.
  unfold no_us. induction s as [|c r IH]; simpl; [reflexivity|].
  intros H. apply andb_prop in H as [Hc Hr].
  apply negb_true_iff in Hc. rewrite Hc, (IH Hr). reflexivity.
Qed.

Lemma split_app_us a b :
  no_us a -> split (a ++ String "_" b) = a :: split b.
Proof.
  unfold no_us. induction a as [|c r IH]; simpl; [reflexivity|].
  intros H. apply andb_prop in H as [Hc Hr].
  apply negb_true_iff in Hc. rewrite Hc, (IH Hr). reflexivity.
Qed.

Lemma split_join parts :
  parts <> [] -> Forall no_us parts -> split (join parts) = parts.
Proof.
  induction parts as [|p rest IH]; [congruence|].
  intros _ H. inversion H as [|? ? Hp Hrest]; subst.
  destruct rest as [|q rest'].
  - simpl. now apply split_plain.
  - change (join (p :: q :: rest')) with (p ++ String "_" (join (q :: rest'))).
    rewrite split_app_us by assumption.
    rewrite IH; [reflexivity | discriminate | assumption].
Qed.

Lemma join_split s : join (split s) = s.
Proof.
  induction s as [|c r IH]; [reflexivity|].
  simpl. destruct (is_us c) eqn:Hc.
  - apply Ascii.eqb_eq in Hc. subst c.
    pose proof (split_not_nil r) as Hn.
    destruct (split r) as [|h t]; [congruence|].
    change (join ("" :: h :: t)) with ("" ++ String "_" (join (h :: t))).
    now rewrite IH.
  - pose proof (split_not_nil r) as Hn.
    destruct (split r) as [|h t]; [congruence|].
    destruct t as [|h' t'].
    + simpl in *. now rewrite IH.
    + change (join (String c h :: h' :: t'))
        with (String c (h ++ String "_" (join (h' :: t')))).
      change (join (h :: h' :: t')) with (h ++ String "_" (join (h' :: t'))) in IH.
      now rewrite IH.
Qed.

(** Appending one more field to a text adds one field to its split. *)
Lemma split_snoc base suffix :
  no_us suffix -> split (base ++ String "_" suffix) = (split base ++ [suffix])%list.
Proof.
  intros Hs. induction base as [|c r IH]; simpl.
  - now rewrite split_plain.
  - destruct (is_us c); [now rewrite IH|].
    rewrite IH. pose proof (split_not_nil r) as Hn.
    destruct (split r); [congruence | reflexivity].
Qed.

End SplitJoin.

(** ** BarcodeCodec: [parse_barcode] *)

Section Codec.

Variable db : DB.

Lemma parse_barcode_arity_ok barcode is_batch :
  arity_ok barcode is_batch = true ->
  parse_barcode db barcode is_batch =
  match int (year_field barcode) with
  | None => ParsingError
  | Some y =>
      Parsed {| pd_item_type := get_item_name db (nth 0 (split barcode) "");
                pd_generation := nth 4 (split barcode) "";
                pd_created_date :=
                  nth 1 (split barcode) "" ++ "." ++ nth 2 (split barcode) "" ++ "."
                    ++ str_of_Z (full_year y);
                pd_full_barcode := barcode |}
  end.
Proof.
  unfold arity_ok, field_count, parse_barcode, year_field.
  destruct is_batch; simpl; intros H; rewrite H; reflexivity.
Qed.

Lemma parse_barcode_arity_bad barcode is_batch :
  arity_ok barcode is_batch = false ->
  parse_barcode db barcode is_batch =
  if is_batch then InvalidBatchBarcode (field_count barcode)
  else InvalidItemBarcode (field_count barcode).
Proof.
  unfold arity_ok, field_count, parse_barcode.
  destruct is_batch; simpl; intros H; rewrite H; reflexivity.
Qed.

(** C7. Year normalization: when the year field of an ASCII barcode
    of the expected arity reads as the integer [y], decoding succeeds and
    the created date is [day.month.Y] where the year [Y] is [2000 + y]
    for [y < 100] and [y] itself for [y >= 100]. *)
Theorem parse_barcode_year_normalization barcode is_batch y :
  isascii barcode = true ->
  arity_ok barcode is_batch = true ->
  int (year_field barcode) = Some y ->
  exists p,
    parse_barcode db barcode is_batch = Parsed p /\
    (y < 100 ->
     pd_created_date p =
     nth 1 (split barcode) "" ++ "." ++ nth 2 (split barcode) "" ++ "."
       ++ str_of_Z (2000 + y)) /\
    (100 <= y ->
     pd_created_date p =
     nth 1 (split barcode) "" ++ "." ++ nth 2 (split barcode) "" ++ "."
       ++ str_of_Z y).
Proof.
  intros _ Ha Hy. rewrite (parse_barcode_arity_ok _ _ Ha), Hy.
  eexists; split; [reflexivity|]. simpl. unfold full_year.
  split; intros Hc.
  - apply Z.ltb_lt in Hc. now rewrite Hc.
  - apply Z.ltb_ge in Hc. now rewrite Hc.
Qed.

(** C8 (as the code has it). On ASCII text [parse_barcode] returns
    [None] exactly when the field count is not the expected one or the
    year field is not an integer literal.  Its field-count diagnostic
    appears exactly when the field count is wrong: not 5 for a batch,
    neither 5 nor 6 for an item; and every such input is rejected. *)
Theorem parse_barcode_rejects barcode :
  isascii barcode = true ->
  (forall is_batch,
     is_none (parse_barcode db barcode is_batch) = true <->
     arity_ok barcode is_batch = false \/ int (year_field barcode) = None) /\
  (invalid_format (parse_barcode db barcode true) = true <-> field_count barcode <> 5%nat) /\
  (invalid_format (parse_barcode db barcode false) = true <->
     field_count barcode <> 5%nat /\ field_count barcode <> 6%nat) /\
  (field_count barcode <> 5%nat ->
     parse_barcode db barcode true = InvalidBatchBarcode (field_count barcode) /\
     is_none (parse_barcode db barcode true) = true) /\
  (field_count barcode <> 5%nat /\ field_count barcode <> 6%nat ->
     parse_barcode db barcode false = InvalidItemBarcode (field_count barcode) /\
     is_none (parse_barcode db barcode false) = true).
Proof.
  intros _.
  assert (Hb : arity_ok barcode true = false <-> field_count barcode <> 5%nat).
  { unfold arity_ok. now rewrite Nat.eqb_neq. }
  assert (Hi : arity_ok barcode false = false <->
               field_count barcode <> 5%nat /\ field_count barcode <> 6%nat).
  { unfold arity_ok. now rewrite orb_false_iff, !Nat.eqb_neq. }
  assert (Hok : forall b, arity_ok barcode b = true ->
                 invalid_format (parse_barcode db barcode b) = false).
  { intros b Ha. rewrite (parse_barcode_arity_ok _ _ Ha).
    destruct (int (year_field barcode)); reflexivity. }
  split; [|split; [|split; [|split]]].
  - intros is_batch. destruct (arity_ok barcode is_batch) eqn:Ha.
    + rewrite (parse_barcode_arity_ok _ _ Ha).
      destruct (int (year_field barcode)); simpl; split; intros H; trivial.
      * discriminate.
      * destruct H; discriminate.
      * now right.
    + rewrite (parse_barcode_arity_bad _ _ Ha).
      destruct is_batch; simpl; split; intros H; trivial; now left.
  - split.
    + intros H. apply Hb. destruct (arity_ok barcode true) eqn:Ha; [|reflexivity].
      rewrite (Hok _ Ha) in H. discriminate.
    + intros H. apply Hb in H. now rewrite (parse_barcode_arity_bad _ _ H).
  - split.
    + intros H. apply Hi. destruct (arity_ok barcode false) eqn:Ha; [|reflexivity].
      rewrite (Hok _ Ha) in H. discriminate.
    + intros H. apply Hi in H. now rewrite (parse_barcode_arity_bad _ _ H).
  - intros H. apply Hb in H. now rewrite (parse_barcode_arity_bad _ _ H).
  - intros H. apply Hi in H. now rewrite (parse_barcode_arity_bad _ _ H).
Qed.

(** C9. For ASCII fields of the expected arity, [parse_barcode]
    returns [None] exactly when the year field is not an integer literal,
    and then with its parsing diagnostic, not the field-count one; the
    day and month fields may hold any text and are copied into the date
    as they are. *)
Theorem parse_barcode_year_failure (fields : list string) is_batch :
  Forall no_us fields ->
  isascii (join fields) = true ->
  List.length fields = 5%nat \/ (is_batch = false /\ List.length fields = 6%nat) ->
  (is_none (parse_barcode db (join fields) is_batch) = true <->
     int (nth 3 fields "") = None) /\
  (int (nth 3 fields "") = None ->
     parse_barcode db (join fields) is_batch = ParsingError) /\
  (forall y, int (nth 3 fields "") = Some y ->
     exists p, parse_barcode db (join fields) is_batch = Parsed p /\
       pd_created_date p =
       nth 1 fields "" ++ "." ++ nth 2 fields "" ++ "." ++ str_of_Z (full_year y)).
Proof.
  intros Hf _ Hn.
  assert (Hs : split (join fields) = fields).
  { apply split_join; [|assumption]. destruct fields; [|discriminate].
    destruct Hn as [Hn|[_ Hn]]; discriminate. }
  assert (Ha : arity_ok (join fields) is_batch = true).
  { unfold arity_ok, field_count. rewrite Hs.
    destruct Hn as [Hn|[Hb Hn]]; rewrite Hn; [now destruct is_batch|now subst]. }
  rewrite (parse_barcode_arity_ok _ _ Ha). unfold year_field. rewrite Hs.
  destruct (int (nth 3 fields "")) as [y|]; simpl.
  - split; [split; discriminate|]. split; [discriminate|].
    intros y' Hy; injection Hy as <-. eexists; split; reflexivity.
  - split; [split; reflexivity|]. split; [reflexivity|discriminate].
Qed.

End Codec.

(** ** Tables *)

Section Tables.

Context {A : Type}.
Implicit Types (t : table A) (hit : Z * A -> bool).

Lemma count_where_zero hit t :
  count_where hit t = 0%nat <-> fetchone hit t = None.
Proof.
  unfold count_where, fetchone. induction (rows t) as [|r l IH]; simpl.
  - tauto.
  - destruct (hit r); simpl; [split; discriminate | exact IH].
Qed.

Lemma count_where_insert hit t a :
  count_where hit (insert t a) =
  (count_where hit t + if hit (next_rowid t, a) then 1 else 0)%nat.
Proof.
  unfold count_where, insert; simpl. rewrite filter_app, length_app; simpl.
  destruct (hit (next_rowid t, a)); reflexivity.
Qed.

Lemma fetchone_insert_old hit t a r :
  fetchone hit t = Some r -> fetchone hit (insert t a) = Some r.
Proof.
  unfold fetchone, insert; simpl. induction (rows t) as [|x l IH]; simpl; [discriminate|].
  destruct (hit x); [trivial | exact IH].
Qed.

Lemma fetchone_insert_new hit t a :
  fetchone hit t = None -> hit (next_rowid t, a) = true ->
  fetchone hit (insert t a) = Some (next_rowid t, a).
Proof.
  unfold fetchone, insert; simpl. intros Hn Hh.
  induction (rows t) as [|x l IH]; simpl in *; [now rewrite Hh|].
  destruct (hit x); [discriminate | now apply IH].
Qed.

Lemma max_rowid_ge (l : list (Z * A)) r : In r l -> fst r <= max_rowid l.
Proof.
  induction l as [|x l IH]; simpl; [tauto|].
  intros [->|H]; [lia | specialize (IH H); lia].
Qed.

(** An inserted row gets a rowid no row of the table has. *)
Lemma next_rowid_fresh t r : In r (rows t) -> fst r < next_rowid t.
Proof. intros H. apply max_rowid_ge in H. unfold next_rowid. lia. Qed.

Lemma primary_key_insert t a : primary_key t -> primary_key (insert t a).
Proof.
  unfold primary_key, insert; simpl. intros H. rewrite map_app; simpl.
  apply NoDup_app; [assumption | repeat constructor; simpl; tauto |].
  intros i Hi [<-|[]]. apply in_map_iff in Hi as [r [E Hr]].
  apply next_rowid_fresh in Hr. lia.
Qed.

Lemma filter_none (f : Z * A -> bool) (l : list (Z * A)) :
  (forall r, In r l -> f r = false) -> filter f l = [].
Proof.
  induction l as [|x l IH]; simpl; [reflexivity|]. intros H.
  rewrite (H x) by now left. apply IH. intros r Hr. apply H. now right.
Qed.

(** A column with distinct values selects at most one row. *)
Lemma unique_column_count (key : Z * A -> string) (l : list (Z * A)) b :
  NoDup (map key l) ->
  (List.length (filter (fun r => String.eqb (key r) b) l) <= 1)%nat.
Proof.
  induction l as [|x l IH]; simpl; [lia|].
  intros H. inversion H as [|? ? Hx Hl]; subst. specialize (IH Hl).
  destruct (String.eqb (key x) b) eqn:E; [|exact IH].
  apply String.eqb_eq in E. simpl. rewrite filter_none; [simpl; lia|].
  intros r Hr. apply String.eqb_neq. intros E'. apply Hx.
  rewrite E, <- E'. now apply in_map.
Qed.

End Tables.

(** ** ItemStore: [ensure_item_exists] *)

Section EnsureItem.

Variable db : DB.
Variables barcode item_type generation created_date : string.

Lemma unique_barcode_count r :
  unique_barcodes (items db) ->
  fetchone (has_barcode barcode) (items db) = Some r ->
  count_where (has_barcode barcode) (items db) = 1%nat.
Proof.
  intros Hu Hf.
  pose proof (unique_column_count (fun r => full_barcode (snd r)) (rows (items db))
                barcode Hu) as Hle.
  assert (Hz : count_where (has_barcode barcode) (items db) <> 0%nat).
  { rewrite count_where_zero, Hf. discriminate. }
  unfold count_where, has_barcode in *. lia.
Qed.

Lemma ensure_item_exists_present r :
  fetchone (has_barcode barcode) (items db) = Some r ->
  ensure_item_exists db barcode item_type generation created_date = (true, db).
Proof. unfold ensure_item_exists. now intros ->. Qed.

Lemma ensure_item_exists_absent :
  (5 <= field_count barcode)%nat ->
  fetchone (has_barcode barcode) (items db) = None ->
  ensure_item_exists db barcode item_type generation created_date =
  (true, set_items db (insert (items db)
                     (fresh_item barcode item_type generation created_date))).
Proof.
  unfold ensure_item_exists, ensure_item_insert, insert_item, field_count.
  intros Hn Hf. rewrite Hf. apply Nat.ltb_ge in Hn. rewrite Hn. simpl.
  rewrite Hf. reflexivity.
Qed.

(** The [INSERT] of [ensure_item_exists] meeting a row another creator
    put there after the [SELECT]. *)
Lemma ensure_item_insert_conflict r :
  fetchone (has_barcode barcode) (items db) = Some r ->
  ensure_item_insert db barcode item_type generation created_date = (true, db) \/
  ensure_item_insert db barcode item_type generation created_date = (false, db) /\
  (field_count barcode < 5)%nat.
Proof.
  unfold ensure_item_insert, insert_item, field_count. intros Hf.
  destruct (Nat.ltb _ 5) eqn:Hn.
  - right. split; [reflexivity|]. now apply Nat.ltb_lt.
  - left. simpl. now rewrite Hf.
Qed.

End EnsureItem.

(** C1. [ensure_item_exists] is idempotent.  For a 6-field barcode
    that decodes, on a store whose barcodes are distinct: both the first
    and a second call report success, the second changes nothing, and
    exactly one item row carries the barcode afterwards.  A barcode that
    is already there leaves the store as it is; an unseen one appends one
    row with status IN whose batch barcode is the first five fields
    joined by the delimiter; and the insert meeting a row that a racing
    creator committed first reports success and changes nothing. *)
Theorem ensure_item_exists_idempotent (db : DB) (barcode : string) (p : parsed) :
  unique_barcodes (items db) ->
  field_count barcode = 6%nat ->
  parse_barcode db barcode false = Parsed p ->
  let ensure d :=
    ensure_item_exists d barcode (pd_item_type p) (pd_generation p) (pd_created_date p) in
  let db1 := snd (ensure db) in
  let db2 := snd (ensure db1) in
  fst (ensure db) = true /\
  ensure db1 = (true, db1) /\
  count_where (has_barcode barcode) (items db2) = 1%nat /\
  (count_where (has_barcode barcode) (items db) <> 0%nat -> db1 = db) /\
  (count_where (has_barcode barcode) (items db) = 0%nat ->
   db1 = set_items db
           (insert (items db)
              {| full_barcode := barcode;
                 batch_barcode := join (firstn 5 (split barcode));
                 Store.item_type := pd_item_type p;
                 Store.generation := pd_generation p;
                 Store.created_date := pd_created_date p;
                 current_status := "IN" |})) /\
  (forall raced : DB,
     count_where (has_barcode barcode) (items raced) <> 0%nat ->
     ensure_item_insert raced barcode (pd_item_type p) (pd_generation p)
       (pd_created_date p) = (true, raced)).
Proof.
  intros Hu Hn _ ensure db1 db2. subst db2 db1 ensure.
  assert (H5 : (5 <= field_count barcode)%nat) by lia.
  destruct (fetchone (has_barcode barcode) (items db)) as [r|] eqn:Hf.
  - rewrite (@ensure_item_exists_present db barcode _ _ _ r Hf). simpl.
    rewrite (@ensure_item_exists_present db barcode _ _ _ r Hf). simpl.
    repeat split; trivial.
    + now apply (@unique_barcode_count db barcode r).
    + intros Hz. apply count_where_zero in Hz. congruence.
    + intros raced Hr.
      destruct (fetchone (has_barcode barcode) (items raced)) as [r'|] eqn:Hf';
        [|now apply count_where_zero in Hf'].
      destruct (@ensure_item_insert_conflict raced barcode (pd_item_type p)
                  (pd_generation p) (pd_created_date p) r' Hf') as [E|[_ E]];
        [exact E | lia].
  - rewrite (@ensure_item_exists_absent db barcode _ _ _ H5 Hf). simpl.
    assert (Hnew : fetchone (has_barcode barcode)
                     (insert (items db) (fresh_item barcode (pd_item_type p)
                                           (pd_generation p) (pd_created_date p)))
                   = Some (next_rowid (items db),
                           fresh_item barcode (pd_item_type p) (pd_generation p)
                             (pd_created_date p))).
    { apply fetchone_insert_new; [assumption|]. unfold has_barcode; simpl.
      apply String.eqb_refl. }
    unfold ensure_item_exists at 1 2. simpl. rewrite Hnew. simpl.
    repeat split; trivial.
    + rewrite count_where_insert. apply count_where_zero in Hf. rewrite Hf.
      unfold has_barcode; simpl. now rewrite String.eqb_refl.
    + intros Hz. apply count_where_zero in Hf. congruence.
    + intros raced Hr.
      destruct (fetchone (has_barcode barcode) (items raced)) as [r'|] eqn:Hf';
        [|now apply count_where_zero in Hf'].
      destruct (@ensure_item_insert_conflict raced barcode (pd_item_type p)
                  (pd_generation p) (pd_created_date p) r' Hf') as [E|[_ E]];
        [exact E | lia].
Qed.

(** ** ItemStore: moving an item *)

Section UpdateByRowid.

Context {A : Type}.

Lemma find_split (f : Z * A -> bool) (l : list (Z * A)) x :
  find f l = Some x -> exists l1 l2, l = (l1 ++ x :: l2)%list.
Proof.
  induction l as [|y l IH]; simpl; [discriminate|].
  destruct (f y).
  - intros E; injection E as ->. now exists [], l.
  - intros E. destruct (IH E) as (l1 & l2 & ->). now exists (y :: l1), l2.
Qed.

Lemma map_update_other (f : A -> A) id (l : list (Z * A)) :
  ~ In id (map fst l) ->
  map (fun r => if has_rowid id r then (fst r, f (snd r)) else r) l = l.
Proof.
  induction l as [|y l IH]; simpl; [reflexivity|]. intros H.
  unfold has_rowid at 1. destruct (Z.eqb_spec (fst y) id) as [E|E]; [tauto|].
  rewrite IH; tauto.
Qed.

(** [UPDATE ... WHERE id = ?] rewrites the one row with that rowid. *)
Lemma update_where_rowid (f : A -> A) (t : table A) id a l1 l2 :
  primary_key t ->
  rows t = (l1 ++ (id, a) :: l2)%list ->
  rows (update_where (has_rowid id) f t) = (l1 ++ (id, f a) :: l2)%list.
Proof.
  unfold primary_key, update_where; simpl. intros Hk E. rewrite E in *.
  rewrite map_app in Hk; simpl in Hk.
  pose proof (NoDup_remove_2 _ _ _ Hk) as Hn. rewrite in_app_iff in Hn.
  rewrite map_app; simpl. unfold has_rowid at 2; simpl. rewrite Z.eqb_refl.
  rewrite !map_update_other by tauto. reflexivity.
Qed.

End UpdateByRowid.

(** One scan of the move session of [main.py] on an existing item
    whose status is OUT: its status becomes IN, every other item row
    stays as it was, exactly one location assignment (to the target,
    stamped [now]) and exactly one scan with status IN are appended, and
    no other table changes. *)
Lemma move_item_scan_out_row
    (db : DB) (target_location barcode : string) (now : Z)
    (p : parsed) (item_id : Z) (row : item) :
  primary_key (items db) ->
  parse_barcode db barcode false = Parsed p ->
  fetchone (has_barcode barcode) (items db) = Some (item_id, row) ->
  current_status row = "OUT" ->
  let result := move_item_scan db target_location barcode now in
  let db' := snd result in
  fst result = ItemMoved false true /\
  (exists before after,
     rows (items db) = (before ++ (item_id, row) :: after)%list /\
     rows (items db') = (before ++ (item_id, set_status "IN" row) :: after)%list) /\
  current_status (set_status "IN" row) = "IN" /\
  rows (item_locations db') =
    (rows (item_locations db) ++
     [(next_rowid (item_locations db),
       {| il_item_id := item_id; il_location_barcode := target_location;
          il_timestamp := now |})])%list /\
  rows (item_scans db') =
    (rows (item_scans db) ++
     [(next_rowid (item_scans db),
       {| scan_barcode := barcode; scan_item_type := pd_item_type p;
          scan_generation := pd_generation p; scan_created_date := pd_created_date p;
          scan_time := now; scan_status := "IN" |})])%list /\
  notes db' = notes db /\ locations db' = locations db /\
  batch_scans db' = batch_scans db /\ item_codes db' = item_codes db.
Proof.
  intros Hk Hp Hf Hs result db'. subst db' result.
  unfold move_item_scan. rewrite Hp, Hf. simpl. rewrite Hs. simpl.
  split; [reflexivity|]. split.
  - destruct (find_split _ _ Hf) as (l1 & l2 & E).
    exists l1, l2. split; [exact E|]. now apply update_where_rowid.
  - repeat split; reflexivity.
Qed.

(** ** ItemStore: purging the OUT items *)

Section Purge.

Lemma filter_complement {A} (f : A -> bool) (l : list A) :
  List.length l =
  (List.length (filter (fun x => negb (f x)) l) + List.length (filter f l))%nat.
Proof.
  induction l as [|x l IH]; simpl; [reflexivity|].
  destruct (f x); simpl; lia.
Qed.

Lemma filter_filter_weaker {A} (f g : A -> bool) (l : list A) :
  (forall x, In x l -> f x = true -> g x = true) ->
  filter f (filter g l) = filter f l.
Proof.
  induction l as [|x l IH]; simpl; [reflexivity|]. intros H.
  assert (IH' : filter f (filter g l) = filter f l).
  { apply IH. intros y Hy. apply H. now right. }
  destruct (g x) eqn:Hg; simpl.
  - now rewrite IH'.
  - destruct (f x) eqn:Hf; [|exact IH'].
    rewrite (H x) in Hg; [discriminate | now left | assumption].
Qed.

Lemma NoDup_map_injective {A B} (f : A -> B) (l : list A) x y :
  NoDup (map f l) -> In x l -> In y l -> f x = f y -> x = y.
Proof.
  induction l as [|a l IH]; simpl; [tauto|].
  intros H Hx Hy E. inversion H as [|? ? Ha Hl]; subst.
  destruct Hx as [->|Hx], Hy as [->|Hy]; trivial.
  - exfalso. apply Ha. rewrite E. now apply in_map.
  - exfalso. apply Ha. rewrite <- E. now apply in_map.
  - now apply IH.
Qed.

Lemma filter_all {A} (f : A -> bool) (l : list A) :
  (forall x, In x l -> f x = true) -> filter f l = l.
Proof.
  induction l as [|x l IH]; simpl; [reflexivity|]. intros H.
  rewrite (H x) by now left. f_equal. apply IH. intros y Hy. apply H. now right.
Qed.

Variable db : DB.

Lemma in_out_ids_spec item_id :
  in_out_ids db item_id = true <->
  exists r, In r (rows (items db)) /\ current_status (snd r) = "OUT" /\ fst r = item_id.
Proof.
  unfold in_out_ids, out_items. rewrite existsb_exists. split.
  - intros (r & Hr & E). apply filter_In in Hr as [Hr Hs].
    exists r. repeat split; [assumption | now apply String.eqb_eq | now apply Z.eqb_eq].
  - intros (r & Hr & Hs & E). exists r. split; [|now apply Z.eqb_eq].
    apply filter_In. split; [assumption | now apply String.eqb_eq].
Qed.

Lemma in_out_barcodes_spec b :
  in_out_barcodes db b = true <->
  exists r, In r (rows (items db)) /\ current_status (snd r) = "OUT" /\
            full_barcode (snd r) = b.
Proof.
  unfold in_out_barcodes, out_items. rewrite existsb_exists. split.
  - intros (r & Hr & E). apply filter_In in Hr as [Hr Hs].
    exists r. repeat split; [assumption| |]; now apply String.eqb_eq.
  - intros (r & Hr & Hs & E). exists r. split; [|now apply String.eqb_eq].
    apply filter_In. split; [assumption | now apply String.eqb_eq].
Qed.

(** The tables after [delete_all_out_items] got its confirmation,
    whether or not it found an OUT item. *)
Lemma delete_all_out_items_rows confirm_entry :
  filter_chars is_alpha_char (upper (strip confirm_entry)) = "DELETEALL" ->
  let db' := snd (delete_all_out_items db confirm_entry) in
  rows (items db') = filter (fun r => negb (has_status "OUT" r)) (rows (items db)) /\
  rows (notes db') =
    filter (fun x => negb (in_out_ids db (note_item_id (snd x)))) (rows (notes db)) /\
  rows (item_locations db') =
    filter (fun x => negb (in_out_ids db (il_item_id (snd x)))) (rows (item_locations db)) /\
  rows (item_scans db') =
    filter (fun x => negb (in_out_barcodes db (scan_barcode (snd x)))) (rows (item_scans db)) /\
  locations db' = locations db /\ batch_scans db' = batch_scans db /\
  item_codes db' = item_codes db.
Proof.
  intros Hc db'. subst db'. unfold delete_all_out_items. rewrite Hc. simpl.
  destruct (Nat.eqb (count_where (has_status "OUT") (items db)) 0) eqn:Hz; simpl;
    [|repeat split; reflexivity].
  apply Nat.eqb_eq in Hz. unfold count_where in Hz.
  apply length_zero_iff_nil in Hz.
  assert (Hids : forall i, in_out_ids db i = false).
  { intros i. unfold in_out_ids, out_items. now rewrite Hz. }
  assert (Hbs : forall b, in_out_barcodes db b = false).
  { intros b. unfold in_out_barcodes, out_items. now rewrite Hz. }
  repeat split; symmetry; apply filter_all; intros x Hx.
  - destruct (has_status "OUT" x) eqn:E; [|reflexivity].
    assert (Hin : In x (filter (has_status "OUT") (rows (items db))))
      by (apply filter_In; now split).
    rewrite Hz in Hin. destruct Hin.
  - now rewrite Hids.
  - now rewrite Hids.
  - now rewrite Hbs.
Qed.

Hypothesis Hkey : primary_key (items db).
Hypothesis Hunique : unique_barcodes (items db).

(** The rowid and the barcode of an item that is not OUT belong to no
    OUT item. *)
Lemma kept_item_not_out r :
  In r (rows (items db)) -> current_status (snd r) <> "OUT" ->
  in_out_ids db (fst r) = false /\ in_out_barcodes db (full_barcode (snd r)) = false.
Proof.
  intros Hr Hs. split.
  - destruct (in_out_ids db (fst r)) eqn:E; [|reflexivity].
    apply in_out_ids_spec in E as (r' & Hr' & Hs' & E).
    assert (r' = r) by (apply (NoDup_map_injective fst (rows (items db))); assumption).
    now subst.
  - destruct (in_out_barcodes db (full_barcode (snd r))) eqn:E; [|reflexivity].
    apply in_out_barcodes_spec in E as (r' & Hr' & Hs' & E).
    assert (r' = r).
    { apply (NoDup_map_injective (fun r => full_barcode (snd r)) (rows (items db)));
        assumption. }
    now subst.
Qed.

End Purge.

(** C4. [delete_all_out_items], once confirmed, removes exactly the
    items whose status is OUT, with every note and location assignment
    that carries the rowid of one of them and every scan that carries the
    barcode of one of them, and reports how many items went; an item that
    is not OUT stays, with its notes, its location assignments and its
    scans as they were; with no OUT item the store is unchanged and the
    report is "nothing deleted", not an error. *)
Theorem delete_all_out_items_purge (db : DB) (confirm_entry : string) :
  primary_key (items db) ->
  unique_barcodes (items db) ->
  filter_chars is_alpha_char (upper (strip confirm_entry)) = "DELETEALL" ->
  let result := delete_all_out_items db confirm_entry in
  let db' := snd result in
  let out_count := count_where (has_status "OUT") (items db) in
  fst result = (if Nat.eqb out_count 0 then NothingDeleted else Deleted out_count) /\
  (out_count = 0%nat -> db' = db) /\
  List.length (rows (items db)) = (List.length (rows (items db')) + out_count)%nat /\
  (forall r, In r (rows (items db')) <->
             In r (rows (items db)) /\ current_status (snd r) <> "OUT") /\
  (forall x, In x (rows (notes db')) <->
             In x (rows (notes db)) /\
             ~ exists r, In r (rows (items db)) /\ current_status (snd r) = "OUT" /\
                         fst r = note_item_id (snd x)) /\
  (forall x, In x (rows (item_locations db')) <->
             In x (rows (item_locations db)) /\
             ~ exists r, In r (rows (items db)) /\ current_status (snd r) = "OUT" /\
                         fst r = il_item_id (snd x)) /\
  (forall x, In x (rows (item_scans db')) <->
             In x (rows (item_scans db)) /\
             ~ exists r, In r (rows (items db)) /\ current_status (snd r) = "OUT" /\
                         full_barcode (snd r) = scan_barcode (snd x)) /\
  (forall r, In r (rows (items db)) -> current_status (snd r) <> "OUT" ->
     filter (fun x => Z.eqb (note_item_id (snd x)) (fst r)) (rows (notes db')) =
     filter (fun x => Z.eqb (note_item_id (snd x)) (fst r)) (rows (notes db)) /\
     filter (fun x => Z.eqb (il_item_id (snd x)) (fst r)) (rows (item_locations db')) =
     filter (fun x => Z.eqb (il_item_id (snd x)) (fst r)) (rows (item_locations db)) /\
     filter (fun x => String.eqb (scan_barcode (snd x)) (full_barcode (snd r)))
            (rows (item_scans db')) =
     filter (fun x => String.eqb (scan_barcode (snd x)) (full_barcode (snd r)))
            (rows (item_scans db))) /\
  locations db' = locations db /\ batch_scans db' = batch_scans db /\
  item_codes db' = item_codes db.
Proof.
  intros Hk Hu Hc result db' out_count.
  destruct (delete_all_out_items_rows db confirm_entry Hc)
    as (Hi & Hn & Hl & Hs & Hloc & Hb & Hcodes).
  fold result in Hi, Hn, Hl, Hs, Hloc, Hb, Hcodes. fold db' in Hi, Hn, Hl, Hs, Hloc, Hb, Hcodes.
  assert (Hneq : forall s, negb (String.eqb s "OUT") = true <-> s <> "OUT").
  { intros s. rewrite negb_true_iff. apply String.eqb_neq. }
  split; [|split; [|split; [|split; [|split; [|split; [|split; [|split]]]]]]].
  - subst result out_count. unfold delete_all_out_items. rewrite Hc. simpl.
    now destruct (Nat.eqb _ 0).
  - intros Hz. subst db' result out_count. unfold delete_all_out_items.
    rewrite Hc, Hz. reflexivity.
  - rewrite Hi. subst out_count. unfold count_where. apply filter_complement.
  - intros r. rewrite Hi, filter_In. unfold has_status. now rewrite Hneq.
  - intros x. rewrite Hn, filter_In, negb_true_iff, <- not_true_iff_false.
    now rewrite in_out_ids_spec.
  - intros x. rewrite Hl, filter_In, negb_true_iff, <- not_true_iff_false.
    now rewrite in_out_ids_spec.
  - intros x. rewrite Hs, filter_In, negb_true_iff, <- not_true_iff_false.
    now rewrite in_out_barcodes_spec.
  - intros r Hr Hst.
    destruct (kept_item_not_out db Hk Hu r Hr Hst) as [Hid Hbc].
    rewrite Hn, Hl, Hs. repeat split; apply filter_filter_weaker; intros x _ E.
    + apply Z.eqb_eq in E. now rewrite E, Hid.
    + apply Z.eqb_eq in E. now rewrite E, Hid.
    + apply String.eqb_eq in E. now rewrite E, Hbc.
  - auto.
Qed.

(** ** TransactionRunner: the retry loop of [log_scan] *)

Section Retry.

Variable store : nat -> option exn.
Variable db : DB.
Variable p : parsed.
Variable status : string.
Variable now : Z.
Variable max_retries : nat.
Variable retry_delay : N.

Lemma log_scan_loop_busy_prefix k :
  forall remaining retries,
    (k <= remaining)%nat ->
    (forall j, (j < k)%nat -> busy_at store (retries + j)) ->
    log_scan_loop store db p status now max_retries retry_delay remaining retries =
    let '(r, db', evs) :=
      log_scan_loop store db p status now max_retries retry_delay
                    (remaining - k) (retries + k) in
    (r, db', (retry_events max_retries retry_delay retries k ++ evs)%list).
Proof.
  induction k as [|k IH]; intros remaining retries Hle Hbusy.
  - rewrite Nat.sub_0_r, Nat.add_0_r. simpl.
    now destruct (log_scan_loop _ _ _ _ _ _ _ _ _) as [[r d] evs].
  - destruct remaining as [|remaining]; [lia|].
    destruct (Hbusy 0%nat ltac:(lia)) as (e & He & Hb).
    rewrite Nat.add_0_r in He. simpl. rewrite He, Hb.
    rewrite (IH remaining (S retries)); [|lia|].
    + replace (S retries + k)%nat with (retries + S k)%nat by lia.
      now destruct (log_scan_loop _ _ _ _ _ _ _ _ _) as [[r d] evs].
    + intros j Hj. replace (S retries + j)%nat with (retries + S j)%nat by lia.
      apply Hbusy. lia.
Qed.

End Retry.

(** [log_scan] makes at most [max_retries] attempts.  After [k]
    lock-busy attempts, each followed by a notice and a sleep of
    [retry_delay]: if [k] is [max_retries] it gives up and returns
    [False] with the store unchanged; if attempt [k] succeeds it returns
    [True] with the one scan appended; if attempt [k] fails in any other
    way it returns [False] at once, without another attempt or sleep, and
    the store is unchanged. *)
Lemma log_scan_attempts
    (store : nat -> option exn) (db : DB) (p : parsed) (status : string) (now : Z)
    (max_retries : nat) (retry_delay : N) (k : nat) :
  (k <= max_retries)%nat ->
  (forall j, (j < k)%nat -> busy_at store j) ->
  (k = max_retries ->
   log_scan store db p status now max_retries retry_delay =
   (false, db, (retry_events max_retries retry_delay 0 k ++ [GaveUp max_retries])%list)) /\
  ((k < max_retries)%nat -> store k = None ->
   log_scan store db p status now max_retries retry_delay =
   (true, logged db p status now, retry_events max_retries retry_delay 0 k)) /\
  ((k < max_retries)%nat -> forall e, store k = Some e -> lock_busy e = false ->
   log_scan store db p status now max_retries retry_delay =
   (false, db, (retry_events max_retries retry_delay 0 k ++ [ErrorNotice e])%list)).
Proof.
  intros Hle Hbusy. unfold log_scan.
  rewrite (@log_scan_loop_busy_prefix store db p status now max_retries retry_delay k
             max_retries 0%nat Hle Hbusy).
  simpl (0 + k)%nat. repeat split.
  - intros ->. rewrite Nat.sub_diag. reflexivity.
  - intros Hlt Hk. destruct (max_retries - k)%nat as [|m] eqn:E; [lia|].
    simpl. rewrite Hk. now rewrite app_nil_r.
  - intros Hlt e Hk Hb. destruct (max_retries - k)%nat as [|m] eqn:E; [lia|].
    simpl. rewrite Hk, Hb. reflexivity.
Qed.

(** ** Locations: [register_location] *)

Section Normalize.

Lemma upper_char_alnum c :
  is_alnum_char c = true ->
  (is_upper_char (upper_char c) || is_digit_char (upper_char c))%bool = true.
Proof.
  destruct c as [[] [] [] [] [] [] [] []]; vm_compute; (reflexivity || discriminate).
Qed.

Lemma all_chars_filter f s : all_chars f (filter_chars f s) = true.
Proof.
  induction s as [|c r IH]; simpl; [reflexivity|].
  destruct (f c) eqn:E; simpl; [now rewrite E|exact IH].
Qed.

(** The normalized barcode holds capital letters and digits only. *)
Lemma to_upper_alphanumeric_chars s :
  all_chars (fun c => is_upper_char c || is_digit_char c) (to_upper_alphanumeric s) = true.
Proof.
  unfold to_upper_alphanumeric, upper.
  pose proof (all_chars_filter is_alnum_char s) as H.
  induction (filter_chars is_alnum_char s) as [|c r IH]; simpl in *; [reflexivity|].
  apply andb_prop in H as [Hc Hr]. now rewrite (upper_char_alnum _ Hc), IH.
Qed.

Lemma all_chars_rev_onto f s acc :
  all_chars f (rev_onto s acc) = (all_chars f s && all_chars f acc)%bool.
Proof.
  revert acc. induction s as [|c r IH]; intros acc; simpl; [reflexivity|].
  rewrite IH. simpl. destruct (f c), (all_chars f r); reflexivity.
Qed.

Lemma rev_onto_empty s acc : rev_onto s acc = "" -> s = "" /\ acc = "".
Proof.
  revert acc. induction s as [|c r IH]; intros acc; simpl; [tauto|].
  intros H. apply IH in H as [_ H]. discriminate.
Qed.

Lemma lstrip_empty s : lstrip s = "" <-> all_chars is_space_char s = true.
Proof.
  induction s as [|c r IH]; simpl; [tauto|].
  destruct (is_space_char c); simpl; [exact IH|]. split; discriminate.
Qed.

Lemma lstrip_spaces s :
  all_chars is_space_char (lstrip s) = true -> all_chars is_space_char s = true.
Proof.
  induction s as [|c r IH]; simpl; [trivial|].
  destruct (is_space_char c) eqn:E; simpl; [exact IH|]. now rewrite E.
Qed.

(** [not s.strip()] holds exactly for the texts made of whitespace. *)
Lemma strip_empty s : strip s = "" <-> all_chars is_space_char s = true.
Proof.
  unfold strip, rev. split.
  - intros H. apply rev_onto_empty in H as [H _].
    apply lstrip_empty in H. rewrite all_chars_rev_onto in H.
    apply andb_prop in H as [H _]. now apply lstrip_spaces.
  - intros H. apply lstrip_empty in H. now rewrite H.
Qed.

End Normalize.

Section RegisterLocation.

Variable db : DB.
Variables scanned location_name : string.

Lemma register_location_rejected :
  to_upper_alphanumeric scanned = "" \/ strip location_name = "" ->
  register_location db scanned location_name = (false, db).
Proof.
  unfold register_location. intros [->| ->]; [reflexivity|].
  now destruct (to_upper_alphanumeric scanned).
Qed.

Lemma register_location_accepted :
  to_upper_alphanumeric scanned <> "" -> strip location_name <> "" ->
  register_location db scanned location_name =
  (true, set_locations db
           (replace_location (locations db)
              {| barcode := to_upper_alphanumeric scanned;
                 Store.location_name := location_name |})).
Proof.
  unfold register_location. intros Hb Hn.
  destruct (to_upper_alphanumeric scanned); [congruence|].
  destruct (strip location_name); [congruence|reflexivity].
Qed.

Lemma find_app_none {A} (f : A -> bool) (l : list A) x :
  (forall y, In y l -> f y = false) -> f x = true ->
  find f (l ++ [x])%list = Some x.
Proof.
  induction l as [|y l IH]; simpl; intros H Hx; [now rewrite Hx|].
  rewrite (H y) by now left. apply IH; [|assumption]. intros z Hz. apply H. now right.
Qed.

End RegisterLocation.

(** C10 (as the code has it). [register_location] normalizes the
    scanned barcode to its alphanumeric characters in upper case.  It
    refuses, leaving the store unchanged, exactly when that barcode is
    empty or the name is empty or all whitespace.  Otherwise it succeeds
    even when the barcode is already registered: afterwards exactly one
    location row carries the normalized barcode, it holds the new name,
    and the rows of the other locations are as before. *)
Theorem register_location_upsert (db : DB) (scanned location_name : string) :
  let clean := to_upper_alphanumeric scanned in
  let result := register_location db scanned location_name in
  let db' := snd result in
  clean = upper (filter_chars is_alnum_char scanned) /\
  all_chars (fun c => is_upper_char c || is_digit_char c) clean = true /\
  (fst result = false <-> clean = "" \/ all_chars is_space_char location_name = true) /\
  (fst result = false -> db' = db) /\
  (fst result = true ->
   (exists id,
      rows (locations db') =
      (filter (fun r => negb (is_location clean r)) (rows (locations db)) ++
       [(id, {| barcode := clean; Store.location_name := location_name |})])%list /\
      fetchone (is_location clean) (locations db') =
      Some (id, {| barcode := clean; Store.location_name := location_name |})) /\
   count_where (is_location clean) (locations db') = 1%nat /\
   items db' = items db /\ notes db' = notes db /\
   item_locations db' = item_locations db /\ item_scans db' = item_scans db /\
   batch_scans db' = batch_scans db /\ item_codes db' = item_codes db).
Proof.
  intros clean result db'. subst db' result.
  split; [reflexivity|]. split; [apply to_upper_alphanumeric_chars|].
  rewrite <- strip_empty.
  destruct (string_dec clean "") as [Hc|Hc];
    [|destruct (string_dec (strip location_name) "") as [Hn|Hn]].
  - rewrite register_location_rejected by now left. simpl.
    repeat split; try tauto; discriminate.
  - rewrite register_location_rejected by now right. simpl.
    repeat split; try tauto; discriminate.
  - rewrite register_location_accepted by assumption. cbn [fst snd].
    split; [split; [discriminate | tauto]|]. split; [discriminate|]. intros _.
    change (locations (set_locations db ?t)) with t.
    assert (Hkept : forall y,
               In y (filter (fun r => negb (is_location clean r)) (rows (locations db))) ->
               is_location clean y = false).
    { intros y Hy. apply filter_In in Hy as [_ Hy]. now apply negb_true_iff. }
    set (new := {| barcode := clean; Store.location_name := location_name |}).
    set (id := next_rowid (delete_where (is_location clean) (locations db))).
    assert (E : rows (replace_location (locations db) new) =
                (filter (fun r => negb (is_location clean r)) (rows (locations db)) ++
                 [(id, new)])%list) by reflexivity.
    assert (Hnew : is_location clean (id, new) = true) by apply String.eqb_refl.
    fold clean. fold new.
    repeat split.
    + exists id. split; [exact E|]. unfold fetchone. rewrite E.
      now apply find_app_none.
    + unfold count_where. rewrite E, filter_app, length_app.
      rewrite (filter_none _ _ Hkept). simpl. now rewrite Hnew.
Qed.

(** ** Decimal numerals: [int], [isdigit] and the [04d] format *)

Section Numerals.

Lemma digit_char_facts c :
  is_digit_char c = true ->
  is_space_char c = false /\ is_us c = false /\
  Ascii.eqb c "+" = false /\ Ascii.eqb c "-" = false /\
  exists k, forall d, uint_of_char c (Some d) = Some (k d).
Proof.
  destruct c as [[] [] [] [] [] [] [] []]; vm_compute; try discriminate;
    intros _; repeat split; eexists; intros d; reflexivity.
Qed.

Lemma digits_app a b : digits a -> digits b -> digits (a ++ b).
Proof.
  unfold digits. induction a as [|c r IH]; simpl; [trivial|].
  intros Ha Hb. apply andb_prop in Ha as [Hc Hr]. now rewrite Hc, IH.
Qed.

Lemma digits_zeros k : digits (zeros k).
Proof. unfold digits. induction k; simpl; [reflexivity|assumption]. Qed.

Lemma digits_string_of_uint d : digits (NilEmpty.string_of_uint d).
Proof. unfold digits. induction d; simpl; trivial. Qed.

Lemma digits_no_us s : digits s -> no_us s.
Proof.
  unfold digits, no_us. induction s as [|c r IH]; simpl; [trivial|].
  intros H. apply andb_prop in H as [Hc Hr].
  destruct (digit_char_facts c Hc) as (_ & Hu & _). now rewrite Hu, IH.
Qed.

Lemma digits_no_space s : digits s -> all_chars (fun c => negb (is_space_char c)) s = true.
Proof.
  unfold digits. induction s as [|c r IH]; simpl; [trivial|].
  intros H. apply andb_prop in H as [Hc Hr].
  destruct (digit_char_facts c Hc) as (Hs & _). now rewrite Hs, IH.
Qed.

Lemma append_assoc (a b c : string) : (a ++ b) ++ c = a ++ (b ++ c).
Proof. induction a as [|x r IH]; simpl; congruence. Qed.

Lemma append_nil_r (a : string) : a ++ "" = a.
Proof. induction a as [|x r IH]; simpl; congruence. Qed.

Lemma length_append (a b : string) :
  String.length (a ++ b) = (String.length a + String.length b)%nat.
Proof. induction a as [|x r IH]; simpl; congruence. Qed.

Lemma rev_onto_app s acc : rev_onto s acc = rev s ++ acc.
Proof.
  unfold rev. revert acc. induction s as [|c r IH]; intros acc; simpl; [reflexivity|].
  rewrite IH, (IH (String c "")). rewrite append_assoc. reflexivity.
Qed.

Lemma rev_app a b : rev (a ++ b) = rev b ++ rev a.
Proof.
  induction a as [|c r IH]; simpl.
  - unfold rev at 2. simpl. now rewrite append_nil_r.
  - unfold rev at 1 3. simpl. rewrite !(rev_onto_app _ (String c "")), IH.
    apply append_assoc.
Qed.

Lemma rev_involutive s : rev (rev s) = s.
Proof.
  induction s as [|c r IH]; [reflexivity|].
  unfold rev at 2. simpl. rewrite rev_onto_app, rev_app, IH. reflexivity.
Qed.

Lemma lstrip_no_space s :
  all_chars (fun c => negb (is_space_char c)) s = true -> lstrip s = s.
Proof.
  destruct s as [|c r]; simpl; [reflexivity|]. intros H.
  apply andb_prop in H as [Hc _]. apply negb_true_iff in Hc. now rewrite Hc.
Qed.

Lemma strip_no_space s :
  all_chars (fun c => negb (is_space_char c)) s = true -> strip s = s.
Proof.
  intros H. unfold strip. rewrite (lstrip_no_space _ H).
  rewrite lstrip_no_space; [apply rev_involutive|].
  unfold rev. rewrite all_chars_rev_onto, H. reflexivity.
Qed.

Lemma int_space_is_space c : is_int_space_char c = true -> is_space_char c = true.
Proof.
  destruct c as [[] [] [] [] [] [] [] []]; vm_compute; (reflexivity || discriminate).
Qed.

Lemma digits_no_int_space s :
  digits s -> all_chars (fun c => negb (is_int_space_char c)) s = true.
Proof.
  unfold digits. induction s as [|c r IH]; simpl; [trivial|].
  intros H. apply andb_prop in H as [Hc Hr].
  destruct (digit_char_facts c Hc) as (Hs & _).
  destruct (is_int_space_char c) eqn:E; [|now rewrite IH].
  apply int_space_is_space in E. congruence.
Qed.

Lemma int_lstrip_no_space s :
  all_chars (fun c => negb (is_int_space_char c)) s = true -> int_lstrip s = s.
Proof.
  destruct s as [|c r]; simpl; [reflexivity|]. intros H.
  apply andb_prop in H as [Hc _]. apply negb_true_iff in Hc. now rewrite Hc.
Qed.

Lemma int_strip_no_space s :
  all_chars (fun c => negb (is_int_space_char c)) s = true -> int_strip s = s.
Proof.
  intros H. unfold int_strip. rewrite (int_lstrip_no_space _ H).
  rewrite int_lstrip_no_space; [apply rev_involutive|].
  unfold rev. rewrite all_chars_rev_onto, H. reflexivity.
Qed.

Lemma ungroup_digits s : digits s -> ungroup true s = Some s.
Proof.
  unfold digits. induction s as [|c r IH]; simpl; [reflexivity|].
  intros H. apply andb_prop in H as [Hc Hr].
  destruct (digit_char_facts c Hc) as (_ & Hu & _). now rewrite Hu, IH.
Qed.

Lemma uint_of_digits s : digits s -> exists d, NilEmpty.uint_of_string s = Some d.
Proof.
  unfold digits. induction s as [|c r IH]; simpl; [now eexists|].
  intros H. apply andb_prop in H as [Hc Hr]. destruct (IH Hr) as [d ->].
  destruct (digit_char_facts c Hc) as (_ & _ & _ & _ & k & Hk). rewrite Hk. now eexists.
Qed.

(** *** Digit counts and magnitudes *)

Lemma length_string_of_uint u :
  String.length (NilEmpty.string_of_uint u) = Decimal.nb_digits u.
Proof. induction u; simpl; congruence. Qed.

Lemma nb_digits_uint_of_string s : forall d,
  NilEmpty.uint_of_string s = Some d -> Decimal.nb_digits d = String.length s.
Proof.
  induction s as [|c r IH]; intros d; cbn [NilEmpty.uint_of_string].
  - intros [= <-]. reflexivity.
  - destruct (NilEmpty.uint_of_string r) as [d'|];
      [|destruct c as [[] [] [] [] [] [] [] []]; discriminate].
    specialize (IH d' eq_refl).
    destruct c as [[] [] [] [] [] [] [] []]; cbn; try discriminate;
      intros [= <-]; cbn [Decimal.nb_digits]; now rewrite IH.
Qed.

Lemma usize_nb_digits u :
  DecimalPos.Unsigned.usize u = N.of_nat (Decimal.nb_digits u).
Proof.
  induction u; cbn [DecimalPos.Unsigned.usize Decimal.nb_digits];
    [reflexivity|..]; rewrite Nat2N.inj_succ; now f_equal.
Qed.

(** A positive number is written without a leading zero. *)
Lemma to_uint_head p :
  match Pos.to_uint p with
  | Decimal.Nil | Decimal.D0 _ => False
  | _ => True
  end.
Proof.
  pose proof (DecimalPos.Unsigned.to_of (Pos.to_uint p)) as H.
  rewrite DecimalPos.Unsigned.of_to in H. cbn [N.to_uint] in H.
  pose proof (DecimalPos.Unsigned.to_uint_nonzero p) as Hz.
  destruct (Pos.to_uint p) as [|u| | | | | | | | | ] eqn:E; try exact I.
  - discriminate.
  - rewrite DecimalFacts.unorm_D0 in H.
    destruct u as [|u'| | | | | | | | | ] eqn:Eu; [now apply Hz|..];
      (assert (Hn : u <> Decimal.Nil) by (subst u; discriminate);
       pose proof (DecimalFacts.nb_digits_unorm u Hn) as Hle;
       subst u; rewrite <- H in Hle; cbn [Decimal.nb_digits] in Hle; lia).
Qed.

Lemma of_uint_acc_lower l acc :
  (10 ^ N.of_nat (Decimal.nb_digits l) <= Npos (Pos.of_uint_acc l acc))%N.
Proof.
  rewrite DecimalPos.Unsigned.of_uint_acc_rev, usize_nb_digits.
  assert (10 ^ N.of_nat (Decimal.nb_digits l) <> 0)%N by (apply N.pow_nonzero; lia).
  nia.
Qed.

(** A number written with [k + 1] digits is at least [10 ^ k]. *)
Lemma to_uint_lower p :
  (10 ^ N.of_nat (Nat.pred (Decimal.nb_digits (Pos.to_uint p))) <= Npos p)%N.
Proof.
  pose proof (to_uint_head p) as Hh.
  rewrite <- (DecimalPos.Unsigned.of_to p).
  destruct (Pos.to_uint p); try contradiction;
    cbn [Decimal.nb_digits Nat.pred Pos.of_uint]; apply of_uint_acc_lower.
Qed.

Lemma of_lu_upper l :
  (DecimalPos.Unsigned.of_lu l < 10 ^ N.of_nat (Decimal.nb_digits l))%N.
Proof.
  induction l; cbn [DecimalPos.Unsigned.of_lu Decimal.nb_digits];
    rewrite ?Nat2N.inj_succ, ?N.pow_succ_r'; cbn [N.of_nat N.pow]; try lia.
  all: rewrite N.pow_succ_r'; lia.
Qed.

(** A text of [k] digits reads as a number below [10 ^ k]. *)
Lemma of_uint_upper u : (N.of_uint u < 10 ^ N.of_nat (Decimal.nb_digits u))%N.
Proof.
  unfold N.of_uint. rewrite DecimalPos.Unsigned.of_uint_alt.
  rewrite <- (DecimalFacts.nb_digits_rev u). apply of_lu_upper.
Qed.

(** A number below [10 ^ k] is written with at most [k] digits. *)
Lemma nb_digits_below n k :
  (0 < k)%N -> (n < 10 ^ k)%N -> (N.of_nat (Decimal.nb_digits (N.to_uint n)) <= k)%N.
Proof.
  intros Hk Hn. destruct n as [|p]; [cbn; lia|]. cbn [N.to_uint].
  pose proof (to_uint_lower p) as Hl.
  destruct (N.le_gt_cases (N.of_nat (Decimal.nb_digits (Pos.to_uint p))) k) as [|Hgt];
    [assumption|].
  exfalso.
  assert (10 ^ k <= 10 ^ N.of_nat (Nat.pred (Decimal.nb_digits (Pos.to_uint p))))%N.
  { apply N.pow_le_mono_r; lia. }
  lia.
Qed.

Lemma str_bound_N : str_bound = Z.of_N (10 ^ int_max_str_digits)%N.
Proof. unfold str_bound. now rewrite N2Z.inj_pow. Qed.

(** [str_bound] is beyond every 64-bit integer. *)
Lemma str_bound_big : 100000000000000000000 <= str_bound.
Proof.
  change 100000000000000000000 with (10 ^ 20). unfold str_bound.
  apply Z.pow_le_mono_r; [lia|]. unfold int_max_str_digits. lia.
Qed.

(** [str] and the [04d] field succeed for every number of magnitude
    below [str_bound]. *)
Lemma str_fits_below n : - str_bound < n < str_bound -> str_fits n = true.
Proof.
  rewrite str_bound_N. intros H. unfold str_fits. apply N.leb_le.
  rewrite length_string_of_uint. apply nb_digits_below; [reflexivity|].
  set (B := (10 ^ int_max_str_digits)%N) in *. lia.
Qed.

(** They fail from [str_bound] on. *)
Lemma str_fits_bound n : str_fits n = true -> - str_bound < n < str_bound.
Proof.
  rewrite str_bound_N. unfold str_fits. intros H. apply N.leb_le in H.
  rewrite length_string_of_uint in H.
  pose proof (of_uint_upper (N.to_uint (Z.abs_N n))) as Hu.
  rewrite DecimalN.Unsigned.of_to in Hu.
  assert (Hp : (10 ^ N.of_nat (Decimal.nb_digits (N.to_uint (Z.abs_N n)))
                <= 10 ^ int_max_str_digits)%N) by (apply N.pow_le_mono_r; [lia|exact H]).
  set (B := (10 ^ int_max_str_digits)%N) in *.
  set (C := (10 ^ N.of_nat (Decimal.nb_digits (N.to_uint (Z.abs_N n))))%N) in *.
  lia.
Qed.

(** What [int] makes of a text of digits. *)
Lemma int_isdigit s :
  isdigit s = true ->
  int s =
  if N.ltb int_max_str_digits (N.of_nat (String.length s)) then None
  else option_map (fun d => Z.of_N (N.of_uint d)) (NilEmpty.uint_of_string s).
Proof.
  intros H. assert (Hd : digits s) by (destruct s; [discriminate|exact H]).
  unfold int. rewrite (int_strip_no_space _ (digits_no_int_space Hd)).
  destruct s as [|c r]; [discriminate|].
  unfold digits in Hd; simpl in Hd. apply andb_prop in Hd as [Hc Hr].
  destruct (digit_char_facts c Hc) as (_ & Hus & Hplus & Hminus & _).
  assert (Hlit : nat_literal (String c r) =
                 if N.ltb int_max_str_digits (N.of_nat (String.length (String c r)))
                 then None
                 else option_map (fun d => Z.of_N (N.of_uint d))
                                 (NilEmpty.uint_of_string (String c r))).
  { unfold nat_literal. cbn [ungroup]. rewrite Hus, (ungroup_digits Hr).
    cbn [option_map]. reflexivity. }
  rewrite <- Hlit.
  apply Ascii.eqb_neq in Hplus, Hminus.
  destruct c as [[] [] [] [] [] [] [] []]; try reflexivity; congruence.
Qed.

(** On a non-empty all-digit text within the limit [int] is the value
    of its digits. *)
Lemma int_digits s :
  isdigit s = true ->
  (N.of_nat (String.length s) <= int_max_str_digits)%N ->
  exists d, NilEmpty.uint_of_string s = Some d /\ int s = Some (Z.of_N (N.of_uint d)).
Proof.
  intros H Hlen. assert (Hd : digits s) by (destruct s; [discriminate|exact H]).
  destruct (uint_of_digits Hd) as [d Hu]. exists d. split; [assumption|].
  rewrite (int_isdigit _ H), Hu.
  apply N.leb_le in Hlen. rewrite N.leb_antisym in Hlen. apply negb_true_iff in Hlen.
  now rewrite Hlen.
Qed.

Lemma int_digits_nonneg s n : isdigit s = true -> int s = Some n -> 0 <= n.
Proof.
  intros H E. rewrite (int_isdigit _ H) in E.
  destruct (N.ltb _ _); [discriminate|].
  destruct (NilEmpty.uint_of_string s); [|discriminate]. injection E as <-. lia.
Qed.

Lemma nat_literal_bound s v : nat_literal s = Some v -> 0 <= v < str_bound.
Proof.
  unfold nat_literal. destruct (ungroup false s) as [ds|]; [|discriminate].
  destruct (N.ltb_spec int_max_str_digits (N.of_nat (String.length ds))) as [|Hlen];
    [discriminate|].
  destruct (NilEmpty.uint_of_string ds) as [d|] eqn:Hu; [|discriminate].
  intros [= <-]. rewrite str_bound_N.
  pose proof (of_uint_upper d) as Hup.
  rewrite (nb_digits_uint_of_string _ Hu) in Hup.
  assert (Hp : (10 ^ N.of_nat (String.length ds) <= 10 ^ int_max_str_digits)%N)
    by (apply N.pow_le_mono_r; [lia|exact Hlen]).
  set (B := (10 ^ int_max_str_digits)%N) in *.
  set (C := (10 ^ N.of_nat (String.length ds))%N) in *.
  lia.
Qed.

(** Every number [int] returns is of magnitude below [str_bound]. *)
Lemma int_bound s y : int s = Some y -> - str_bound < y < str_bound.
Proof.
  unfold int.
  assert (Hpos : forall t, nat_literal t = Some y -> - str_bound < y < str_bound).
  { intros t Ht. apply nat_literal_bound in Ht. lia. }
  assert (Hneg : forall t, option_map Z.opp (nat_literal t) = Some y ->
                           - str_bound < y < str_bound).
  { intros t Ht. destruct (nat_literal t) as [v|] eqn:Hv; [|discriminate].
    injection Ht as <-. apply nat_literal_bound in Hv. lia. }
  destruct (int_strip s) as [|c r]; [apply Hpos|].
  destruct c as [[] [] [] [] [] [] [] []]; first [apply Hpos | apply Hneg].
Qed.

(** The year that [parse_barcode] formats stays printable. *)
Lemma full_year_fits s y : int s = Some y -> str_fits (full_year y) = true.
Proof.
  intros H. apply int_bound in H. apply str_fits_below.
  pose proof str_bound_big as Hb.
  unfold full_year. destruct (Z.ltb_spec y 100); lia.
Qed.

End Numerals.

Section Format.

Lemma format_04d_nonneg i :
  0 <= i -> format_04d i = zeros (4 - String.length (decimal i)) ++ decimal i.
Proof. destruct i; [reflexivity | reflexivity | lia]. Qed.

Lemma length_zeros k : String.length (zeros k) = k.
Proof. induction k; simpl; congruence. Qed.

(** The format pads, it never truncates. *)
Lemma format_04d_length_ge i : 0 <= i -> (4 <= String.length (format_04d i))%nat.
Proof.
  intros H. rewrite (format_04d_nonneg H), length_append, length_zeros. lia.
Qed.

Lemma format_04d_digits i : 0 <= i -> digits (format_04d i).
Proof.
  intros H. rewrite (format_04d_nonneg H).
  apply digits_app; [apply digits_zeros | apply digits_string_of_uint].
Qed.

Lemma format_04d_isdigit i : 0 <= i -> isdigit (format_04d i) = true.
Proof.
  intros H. pose proof (format_04d_length_ge H) as Hl.
  pose proof (format_04d_digits H) as Hd.
  destruct (format_04d i); [simpl in Hl; lia | exact Hd].
Qed.

Lemma uint_of_zeros k s d :
  NilEmpty.uint_of_string s = Some d ->
  exists d', NilEmpty.uint_of_string (zeros k ++ s) = Some d' /\ N.of_uint d' = N.of_uint d.
Proof.
  intros H. induction k as [|k (d' & E & Hd)]; simpl; [now exists d|].
  rewrite E. exists (Decimal.D0 d'). split; [reflexivity|exact Hd].
Qed.

Lemma format_04d_length_le i :
  0 <= i -> str_fits i = true ->
  (N.of_nat (String.length (format_04d i)) <= int_max_str_digits)%N.
Proof.
  intros H Hfit. rewrite (format_04d_nonneg H), length_append, length_zeros.
  unfold str_fits in Hfit. apply N.leb_le in Hfit.
  replace (Z.abs_N i) with (Z.to_N i) in Hfit by lia.
  fold (decimal i) in Hfit. unfold int_max_str_digits in *. lia.
Qed.

(** The suffix written by [create_batch] reads back as the number it
    was made from. *)
Lemma int_format_04d i : 0 <= i -> str_fits i = true -> int (format_04d i) = Some i.
Proof.
  intros H Hfit.
  destruct (@int_digits _ (format_04d_isdigit H) (format_04d_length_le H Hfit))
    as (d & Hu & ->).
  rewrite (format_04d_nonneg H) in Hu.
  destruct (@uint_of_zeros (4 - String.length (decimal i)) (decimal i) _
              (NilEmpty.usu (N.to_uint (Z.to_N i)))) as (d' & Hu' & Hd).
  rewrite Hu in Hu'. injection Hu' as <-.
  rewrite Hd, DecimalN.Unsigned.of_to. f_equal. lia.
Qed.

Lemma four_wide_below_10000 : forallb four_wide (List.seq 0 (Z.to_nat 10000)) = true.
Proof. vm_compute. reflexivity. Qed.

(** Up to 9999 the suffix has exactly four characters. *)
Lemma format_04d_length_4 i : 0 <= i < 10000 -> String.length (format_04d i) = 4%nat.
Proof.
  intros H. pose proof four_wide_below_10000 as Hall.
  rewrite forallb_forall in Hall. specialize (Hall (Z.to_nat i)).
  unfold four_wide in Hall. rewrite Z2Nat.id in Hall by lia.
  apply Nat.eqb_eq, Hall, in_seq. lia.
Qed.

End Format.

(** ** SequentialAllocator: [get_highest_item_number] *)

Section Allocator.

Lemma get_highest_item_number_fold db :
  get_highest_item_number db = fold_left highest_step (rows (items db)) 0.
Proof. reflexivity. Qed.

Lemma highest_fold (l : list (Z * item)) :
  forall m0,
    let h := fold_left highest_step l m0 in
    m0 <= h /\
    (forall r n, In r l -> number_of r = Some n -> n <= h) /\
    (h = m0 \/ exists r, In r l /\ number_of r = Some h).
Proof.
  induction l as [|x l IH]; intros m0; simpl.
  - repeat split; [lia | tauto | now left].
  - destruct (IH (highest_step m0 x)) as (Hge & Hub & Hatt).
    assert (Hstep : m0 <= highest_step m0 x /\
                    (forall n, number_of x = Some n -> n <= highest_step m0 x) /\
                    (highest_step m0 x = m0 \/ number_of x = Some (highest_step m0 x))).
    { unfold highest_step. destruct (number_of x) as [num|];
        [destruct (Z.gtb_spec num m0)|];
        (split; [lia|split; [intros n E; inversion E; subst; lia|]]);
        [now right | now left | now left]. }
    destruct Hstep as (H1 & H2 & H3).
    repeat split.
    + lia.
    + intros r n [<-|Hr] Hn; [specialize (H2 n Hn); lia | now apply (Hub r)].
    + destruct Hatt as [E|(r & Hr & Hn)].
      * destruct H3 as [E'|E']; [left; congruence|].
        right. exists x. split; [now left | now rewrite E].
      * right. exists r. split; [now right | assumption].
Qed.

(** The number read by [get_highest_item_number] is the largest item
    number in the table, and 0 when the table has none. *)
Lemma get_highest_item_number_max db :
  let h := get_highest_item_number db in
  0 <= h /\
  (forall r n, In r (rows (items db)) -> number_of r = Some n -> 0 <= n <= h) /\
  (h = 0 \/ exists r, In r (rows (items db)) /\ number_of r = Some h) /\
  ((forall r, In r (rows (items db)) -> number_of r = None) -> h = 0).
Proof.
  intros h. subst h. rewrite get_highest_item_number_fold.
  destruct (highest_fold (rows (items db)) 0) as (Hge & Hub & Hatt).
  repeat split; trivial.
  - unfold number_of, item_number in H0.
    destruct (Nat.eqb _ 6); [|discriminate].
    destruct (isdigit _) eqn:Hd; [|discriminate].
    now apply (int_digits_nonneg _ Hd).
  - now apply (Hub r).
  - intros Hnone. destruct Hatt as [E|(r & Hr & Hn)]; [exact E|].
    rewrite (Hnone r Hr) in Hn. discriminate.
Qed.

(** Any bound that is attained is the number read. *)
Lemma get_highest_item_number_unique db m :
  0 <= m ->
  (forall r n, In r (rows (items db)) -> number_of r = Some n -> n <= m) ->
  (exists r, In r (rows (items db)) /\ number_of r = Some m) ->
  get_highest_item_number db = m.
Proof.
  intros H0 Hub (r & Hr & Hn).
  destruct (get_highest_item_number_max db) as (_ & Hub' & Hatt & _).
  pose proof (Hub' r m Hr Hn) as [_ Hle].
  destruct Hatt as [E|(r' & Hr' & Hn')]; [lia|].
  specialize (Hub r' _ Hr' Hn'). lia.
Qed.

Lemma item_number_not_six b : field_count b <> 6%nat -> item_number b = None.
Proof.
  unfold item_number, field_count. intros H. apply Nat.eqb_neq in H. now rewrite H.
Qed.

(** The barcode [create_batch] builds for number [i] carries [i]. *)
Lemma item_number_batch_item base i :
  field_count base = 5%nat -> 0 <= i ->
  field_count (batch_item_barcode base i) = 6%nat /\
  nth 5 (split (batch_item_barcode base i)) "" = format_04d i /\
  firstn 5 (split (batch_item_barcode base i)) = split base /\
  (str_fits i = true -> item_number (batch_item_barcode base i) = Some i).
Proof.
  unfold field_count. intros Hb Hi.
  assert (Hs : split (batch_item_barcode base i) = (split base ++ [format_04d i])%list).
  { unfold batch_item_barcode. change ("_" ++ format_04d i) with (String "_" (format_04d i)).
    apply split_snoc, digits_no_us, format_04d_digits, Hi. }
  assert (Hn : nth 5 (split base ++ [format_04d i]) "" = format_04d i).
  { rewrite app_nth2 by lia. now rewrite Hb. }
  assert (Hf : firstn 5 (split base ++ [format_04d i]) = split base).
  { rewrite firstn_app, Hb, Nat.sub_diag, firstn_O, app_nil_r.
    rewrite <- Hb. apply firstn_all. }
  unfold item_number. rewrite Hs, length_app, Hb, Hn, Hf. simpl.
  rewrite (format_04d_isdigit Hi). repeat split.
  intros Hfit. now rewrite (int_format_04d Hi Hfit).
Qed.

End Allocator.

(** ** ItemStore: [create_batch] *)

Section Batch.

Lemma in_range_from count : forall i x,
  In x (range_from i count) <-> i <= x < i + Z.of_nat count.
Proof.
  induction count as [|c IH]; intros i x; simpl; [lia|].
  rewrite IH. lia.
Qed.

Lemma length_range_from count : forall i, List.length (range_from i count) = count.
Proof. induction count as [|c IH]; intros i; simpl; [reflexivity|now rewrite IH]. Qed.

Variable plan : batch_plan.
Variable now : Z.

Hypothesis Hbase : field_count (bp_batch_base plan) = 5%nat.

Lemma batch_item_unseen db i :
  0 <= i -> str_fits i = true ->
  (forall r n, In r (rows (items db)) -> number_of r = Some n -> n < i) ->
  fetchone (has_barcode (batch_item_barcode (bp_batch_base plan) i)) (items db) = None.
Proof.
  intros Hi Hfit Hlt.
  destruct (fetchone _ (items db)) as [r|] eqn:Hf; [exfalso|reflexivity].
  apply find_some in Hf as [Hr Hb]. apply String.eqb_eq in Hb.
  destruct (item_number_batch_item _ Hbase Hi) as (_ & _ & _ & Hn).
  specialize (Hlt r i Hr). unfold number_of in Hlt. rewrite Hb in Hlt.
  specialize (Hlt (Hn Hfit)). lia.
Qed.

(** The loop of [create_batch] never meets a taken barcode when it
    starts above every item number of the table. *)
Lemma create_batch_items_ok count : forall i db,
  0 <= i -> i + Z.of_nat count <= str_bound ->
  (forall r n, In r (rows (items db)) -> number_of r = Some n -> n < i) ->
  exists db',
    create_batch_items plan now count i db = inr db' /\
    map snd (rows (items db')) =
      (map snd (rows (items db)) ++ map (batch_item plan) (range_from i count))%list /\
    List.length (rows (item_locations db')) =
      (List.length (rows (item_locations db)) + count)%nat /\
    List.length (rows (item_scans db')) =
      (List.length (rows (item_scans db)) + count)%nat /\
    batch_scans db' = batch_scans db /\ notes db' = notes db /\
    locations db' = locations db /\ item_codes db' = item_codes db.
Proof.
  induction count as [|c IH]; intros i db Hi Hend Hlt.
  - exists db. simpl. rewrite app_nil_r, !Nat.add_0_r. repeat split.
  - assert (Hfit : str_fits i = true) by (apply str_fits_below; lia).
    cbn [create_batch_items]. rewrite Hfit. cbn [negb].
    unfold insert_item. cbn [full_barcode].
    rewrite (batch_item_unseen db Hi Hfit Hlt).
    match goal with
    | |- exists db', create_batch_items _ _ _ _ ?d = _ /\ _ => set (db3 := d)
    end.
    assert (Hrows : rows (items db3) =
                    (rows (items db) ++ [(next_rowid (items db), batch_item plan i)])%list)
      by reflexivity.
    destruct (IH (i + 1) db3) as (db' & E & Hitems & Hlocs & Hscans & Hrest); [lia|lia| |].
    + intros r n Hr Hn. rewrite Hrows in Hr. apply in_app_or in Hr as [Hr|[<-|[]]].
      * specialize (Hlt r n Hr Hn). lia.
      * destruct (item_number_batch_item _ Hbase Hi) as (_ & _ & _ & Hn').
        unfold number_of in Hn. simpl in Hn. rewrite (Hn' Hfit) in Hn.
        injection Hn as <-. lia.
    + exists db'. split; [exact E|]. rewrite Hitems, Hlocs, Hscans, Hrows.
      split; [|split; [|split]].
      * rewrite map_app. simpl. now rewrite <- app_assoc.
      * subst db3. simpl. rewrite length_app. simpl. lia.
      * subst db3. simpl. rewrite length_app. simpl. lia.
      * exact Hrest.
Qed.

End Batch.

Lemma field_count_batch_prefix s :
  List.length (split s) = 6%nat -> field_count (join (firstn 5 (split s))) = 5%nat.
Proof.
  intros H6. unfold field_count. rewrite split_join.
  - now rewrite length_firstn, H6.
  - destruct (split s); discriminate.
  - apply Forall_forall. intros x Hx.
    pose proof (split_no_us s) as Hall. rewrite Forall_forall in Hall. apply Hall.
    rewrite <- (firstn_skipn 5). apply in_or_app. now left.
Qed.

Section BatchPlan.

Variable db : DB.
Variables location_entry barcode_entry : string.
Variable plan : batch_plan.
Hypothesis Hplan : create_batch_prepare db location_entry barcode_entry = inr plan.

(** What a plan that reached the quantity prompt holds. *)
Lemma create_batch_prepare_plan :
  field_count (bp_batch_base plan) = 5%nat /\
  bp_start_num plan = get_highest_item_number db + 1 /\
  bp_location_barcode plan = upper (strip location_entry) /\
  parse_barcode db (strip barcode_entry) false = Parsed (bp_parsed plan) /\
  (bp_batch_base plan = strip barcode_entry \/
   bp_batch_base plan = join (firstn 5 (split (strip barcode_entry)))).
Proof.
  unfold create_batch_prepare in Hplan.
  destruct (upper (strip location_entry)) as [|c l] eqn:Hl; [discriminate|].
  destruct (fetchone _ (locations db)) as [registered|]; [|discriminate].
  destruct (parse_barcode db (strip barcode_entry) false) as [p| | |]; try discriminate.
  destruct (Nat.eqb (List.length (split (strip barcode_entry))) 6) eqn:H6.
  - injection Hplan as <-.
    cbn [bp_batch_base bp_start_num bp_location_barcode bp_parsed]. repeat split; [|now right].
    apply Nat.eqb_eq in H6. now apply field_count_batch_prefix.
  - destruct (Nat.eqb (List.length (split (strip barcode_entry))) 5) eqn:H5;
      [|discriminate].
    injection Hplan as <-.
    cbn [bp_batch_base bp_start_num bp_location_barcode bp_parsed]. repeat split; [|now left].
    now apply Nat.eqb_eq in H5.
Qed.

End BatchPlan.

Section BatchRun.

Variable db : DB.
Variables location_entry barcode_entry quantity_entry : string.
Variable now : Z.
Variable plan : batch_plan.
Variable quantity : Z.
Hypothesis Hplan : create_batch_prepare db location_entry barcode_entry = inr plan.
Hypothesis Hquantity : int quantity_entry = Some quantity.
Hypothesis Hpositive : 0 < quantity.
Hypothesis Hstored : quantity <= sqlite_max_int.
Hypothesis Hprintable : get_highest_item_number db + quantity < str_bound.

(** With no other writer, [create_batch] commits: the items it adds
    are the rows for [range(start_num, start_num + quantity)]. *)
Lemma create_batch_commits :
  exists db',
    create_batch db location_entry barcode_entry quantity_entry now =
    (BatchCreated quantity (bp_batch_base plan) (bp_location_barcode plan)
                  (get_highest_item_number db + 1), db') /\
    map snd (rows (items db')) =
      (map snd (rows (items db)) ++
       map (batch_item plan)
           (range_from (get_highest_item_number db + 1) (Z.to_nat quantity)))%list /\
    List.length (rows (item_locations db')) =
      (List.length (rows (item_locations db)) + Z.to_nat quantity)%nat /\
    List.length (rows (item_scans db')) =
      (List.length (rows (item_scans db)) + Z.to_nat quantity)%nat /\
    List.length (rows (batch_scans db')) = S (List.length (rows (batch_scans db))) /\
    notes db' = notes db /\ locations db' = locations db /\
    item_codes db' = item_codes db.
Proof.
  destruct (create_batch_prepare_plan _ _ _ Hplan) as (Hbase & Hstart & _).
  destruct (get_highest_item_number_max db) as (H0 & Hub & _).
  unfold create_batch, create_batch_commit. rewrite Hplan.
  rewrite (@str_fits_below (bp_start_num plan)) by lia. cbn [negb]. rewrite Hquantity.
  destruct (Z.leb_spec quantity 0) as [|_]; [lia|].
  destruct (Z.ltb_spec sqlite_max_int quantity) as [|_]; [lia|].
  match goal with
  | |- context [create_batch_items _ _ _ _ ?d] => set (db1 := d)
  end.
  destruct (@create_batch_items_ok plan now Hbase (Z.to_nat quantity)
              (bp_start_num plan) db1) as (db' & E & Hitems & Hlocs & Hscans & Hrest).
  - lia.
  - lia.
  - intros r n Hr Hn. destruct (Hub r n Hr Hn). lia.
  - rewrite E, Hstart. exists db'. split; [reflexivity|].
    rewrite Hitems, Hlocs, Hscans, Hstart.
    destruct Hrest as (Hb & Hnotes & Hlocations & Hcodes).
    rewrite Hb, Hnotes, Hlocations, Hcodes. subst db1. simpl.
    rewrite length_app. simpl. repeat split. lia.
Qed.

End BatchRun.

(** C2 (as the code has it). On ASCII text, the next number is one
    more than the largest number carried by a 6-field item barcode with
    an all-digit sixth field, and 1 when there is none.  [create_batch]
    with a positive quantity [q] that SQLite can store, and numbers that
    [04d] can print, then adds exactly [q] items, whose barcodes end in
    the numbers [highest + 1 .. highest + q] in order, each written with
    [04d]: zero-padded to four characters up to 9999, and never
    shortened beyond. *)
Theorem create_batch_sequential_allocation
    (db : DB) (location_entry barcode_entry quantity_entry : string) (now : Z)
    (plan : batch_plan) (quantity : Z) :
  ascii_items db = true ->
  isascii location_entry = true ->
  isascii barcode_entry = true ->
  isascii quantity_entry = true ->
  create_batch_prepare db location_entry barcode_entry = inr plan ->
  int quantity_entry = Some quantity ->
  0 < quantity ->
  quantity <= sqlite_max_int ->
  get_highest_item_number db + quantity < str_bound ->
  let highest := get_highest_item_number db in
  (forall r n, In r (rows (items db)) -> number_of r = Some n -> 0 <= n <= highest) /\
  (highest = 0 \/ exists r, In r (rows (items db)) /\ number_of r = Some highest) /\
  ((forall r, In r (rows (items db)) -> field_count (full_barcode (snd r)) <> 6%nat) ->
   highest = 0) /\
  bp_start_num plan = highest + 1 /\
  (exists db',
     create_batch db location_entry barcode_entry quantity_entry now =
     (BatchCreated quantity (bp_batch_base plan) (bp_location_barcode plan) (highest + 1),
      db') /\
     map snd (rows (items db')) =
       (map snd (rows (items db)) ++
        map (batch_item plan) (range_from (highest + 1) (Z.to_nat quantity)))%list /\
     List.length (rows (items db')) =
       (List.length (rows (items db)) + Z.to_nat quantity)%nat) /\
  (forall i, In i (range_from (highest + 1) (Z.to_nat quantity)) <->
             highest + 1 <= i <= highest + quantity) /\
  (forall i, highest + 1 <= i <= highest + quantity ->
     full_barcode (batch_item plan i) = bp_batch_base plan ++ "_" ++ format_04d i /\
     current_status (batch_item plan i) = "IN" /\
     nth 5 (split (full_barcode (batch_item plan i))) "" = format_04d i /\
     int (format_04d i) = Some i /\
     (4 <= String.length (format_04d i))%nat /\
     (i <= 9999 -> String.length (format_04d i) = 4%nat)).
Proof.
  intros _ _ _ _ Hplan Hq Hpos Hmax Hfit highest.
  destruct (get_highest_item_number_max db) as (H0 & Hub & Hatt & Hnone).
  fold highest in H0, Hub, Hatt, Hnone, Hfit.
  destruct (create_batch_prepare_plan _ _ _ Hplan) as (Hbase & Hstart & _).
  split; [exact Hub|]. split; [exact Hatt|]. split.
  { intros H6. apply Hnone. intros r Hr. apply item_number_not_six. now apply H6. }
  split; [exact Hstart|]. split.
  { destruct (@create_batch_commits db location_entry barcode_entry quantity_entry now
                plan quantity Hplan Hq Hpos Hmax Hfit) as (db' & E & Hitems & _).
    exists db'. split; [exact E|]. split; [exact Hitems|].
    rewrite <- (length_map snd), Hitems, length_app, !length_map, length_range_from.
    reflexivity. }
  split.
  { intros i. rewrite in_range_from. lia. }
  intros i Hi. assert (Hi0 : 0 <= i) by lia.
  destruct (item_number_batch_item _ Hbase Hi0) as (_ & Hnth & _ & _).
  repeat split.
  - exact Hnth.
  - apply int_format_04d; [exact Hi0|]. apply str_fits_below. lia.
  - now apply format_04d_length_ge.
  - intros Hle. apply format_04d_length_4. lia.
Qed.

(** C5 (as the code has it). [create_batch] reads the highest item
    number before its transaction begins.  When nothing else is committed
    between that read and the transaction, the numbers are consumed in
    order: after a batch of [q1] items (a quantity SQLite can store,
    numbers [04d] can print, ASCII text) the highest number has grown by
    [q1], so the next [create_batch] starts right after the first one
    ended and the two ranges do not meet. *)
Theorem create_batch_consecutive_ranges
    (db : DB) (location1 barcode1 quantity_entry1 : string) (now1 : Z)
    (plan1 : batch_plan) (q1 : Z)
    (location2 barcode2 : string) (plan2 : batch_plan) :
  ascii_items db = true ->
  isascii location1 = true -> isascii barcode1 = true ->
  isascii quantity_entry1 = true ->
  isascii location2 = true -> isascii barcode2 = true ->
  create_batch_prepare db location1 barcode1 = inr plan1 ->
  int quantity_entry1 = Some q1 ->
  0 < q1 ->
  q1 <= sqlite_max_int ->
  get_highest_item_number db + q1 < str_bound ->
  create_batch_prepare
    (snd (create_batch db location1 barcode1 quantity_entry1 now1))
    location2 barcode2 = inr plan2 ->
  bp_start_num plan1 = get_highest_item_number db + 1 /\
  get_highest_item_number (snd (create_batch db location1 barcode1 quantity_entry1 now1)) =
    get_highest_item_number db + q1 /\
  bp_start_num plan2 = bp_start_num plan1 + q1 /\
  (forall count i j,
     In i (range_from (bp_start_num plan1) (Z.to_nat q1)) ->
     In j (range_from (bp_start_num plan2) count) -> i < j).
Proof.
  intros _ _ _ _ _ _ Hplan1 Hq Hpos Hmax Hfit Hplan2.
  destruct (create_batch_prepare_plan _ _ _ Hplan1) as (Hbase & Hstart1 & _).
  destruct (create_batch_prepare_plan _ _ _ Hplan2) as (_ & Hstart2 & _).
  destruct (@create_batch_commits db location1 barcode1 quantity_entry1 now1
              plan1 q1 Hplan1 Hq Hpos Hmax Hfit) as (db' & E & Hitems & _).
  rewrite E in *. cbn [snd] in *.
  destruct (get_highest_item_number_max db) as (H0 & Hub & _).
  set (h := get_highest_item_number db) in *.
  assert (Hnum : forall i, 0 <= i <= h + q1 ->
                           item_number (full_barcode (batch_item plan1 i)) = Some i).
  { intros i Hi. destruct (@item_number_batch_item _ i Hbase) as (_ & _ & _ & Hn); [lia|].
    apply Hn, str_fits_below. lia. }
  assert (Hnew : get_highest_item_number db' = h + q1).
  { apply get_highest_item_number_unique; [lia| |].
    - intros r n Hr Hn.
      assert (Hin : In (snd r) (map snd (rows (items db')))) by now apply in_map.
      rewrite Hitems in Hin. apply in_app_or in Hin as [Hin|Hin].
      + apply in_map_iff in Hin as (r0 & E0 & Hr0).
        unfold number_of in Hn. rewrite <- E0 in Hn.
        destruct (Hub r0 n Hr0 Hn). lia.
      + apply in_map_iff in Hin as (i & E0 & Hi). apply in_range_from in Hi.
        unfold number_of in Hn. rewrite <- E0, Hnum in Hn by lia.
        injection Hn as <-. lia.
    - assert (Hin : In (batch_item plan1 (h + q1)) (map snd (rows (items db')))).
      { rewrite Hitems. apply in_or_app. right. apply in_map, in_range_from. lia. }
      apply in_map_iff in Hin as (r & E0 & Hr). exists r. split; [exact Hr|].
      unfold number_of. rewrite E0. apply Hnum. lia. }
  split; [exact Hstart1|]. split; [exact Hnew|]. split; [lia|].
  intros count i j Hi Hj. apply in_range_from in Hi, Hj. lia.
Qed.

(** * The scenarios, run *)

Import Scenario.

Example split_item :
  split "PIPI_01_02_23_G1_0007" = ["PIPI"; "01"; "02"; "23"; "G1"; "0007"].
Proof. reflexivity. Qed.

Example split_empty : split "" = [""].
Proof. reflexivity. Qed.

Example int_examples :
  int "23" = Some 23 /\ int " -5 " = Some (-5) /\ int "XX" = None /\
  int "" = None /\ int "0007" = Some 7 /\ int "+" = None /\
  int "1_0" = Some 10 /\ int "1__0" = None.
Proof. repeat split; reflexivity. Qed.

(** [strip] removes the separators FS..US, [int] does not skip them. *)
Example int_whitespace :
  strip (String "029" "23") = "23" /\ int (String "029" "23") = None /\
  int (String "030" "23") = None /\ int ("23" ++ String "031" "") = None /\
  int (String "009" "23 ") = Some 23 /\ int (String "011" "+23") = Some 23.
Proof.
  do 5 (split; [vm_compute; reflexivity|]). vm_compute. reflexivity.
Qed.

Example format_examples :
  format_04d 8 = "0008" /\ format_04d 10000 = "10000" /\
  format_04d (-1) = "-001" /\ str_of_Z 2023 = "2023".
Proof. repeat split; reflexivity. Qed.

Example year_examples :
  parse_barcode shelf_db "PIPI_01_02_23_G1" true =
    Parsed {| pd_item_type := "PioPino"; pd_generation := "G1";
              pd_created_date := "01.02.2023"; pd_full_barcode := "PIPI_01_02_23_G1" |} /\
  parse_barcode shelf_db "XXXX_01_02_2023_G1" true =
    Parsed {| pd_item_type := "Unknown"; pd_generation := "G1";
              pd_created_date := "01.02.2023"; pd_full_barcode := "XXXX_01_02_2023_G1" |} /\
  parse_barcode shelf_db "PIPI_01_02_23_G1_0007_9" false = InvalidItemBarcode 7 /\
  parse_barcode shelf_db "PIPI_01_02_23_G1_0007" true = InvalidBatchBarcode 6.
Proof. repeat split; reflexivity. Qed.

(** The example of the specification: with items 0001, 0007 and 0003 a
    batch of two receives 0008 and 0009. *)
Example batch_after_three_items :
  map (fun r => full_barcode (snd r))
      (rows (items (snd (create_batch three_items_db "shelf1" "PIPI_01_02_23_G1" "2" 0)))) =
  ["PIPI_01_02_23_G1_0001"; "PIPI_01_02_23_G1_0007"; "CHNU_03_02_23_G2_0003";
   "PIPI_01_02_23_G1_0008"; "PIPI_01_02_23_G1_0009"].
Proof. vm_compute. reflexivity. Qed.

(** The example of the specification: of three IN and two OUT items the
    purge removes the two. *)
Example purge_mixed_store :
  fst (delete_all_out_items mixed_db "delete all") = Deleted 2 /\
  map fst (rows (items (snd (delete_all_out_items mixed_db "delete all")))) = [1; 3; 5] /\
  map (fun r => note_item_id (snd r))
      (rows (notes (snd (delete_all_out_items mixed_db "delete all")))) = [3] /\
  map (fun r => il_item_id (snd r))
      (rows (item_locations (snd (delete_all_out_items mixed_db "delete all")))) = [1; 3; 5] /\
  List.length (rows (item_scans (snd (delete_all_out_items mixed_db "delete all")))) = 3%nat /\
  fst (delete_all_out_items mixed_db "no") = Cancelled /\
  delete_all_out_items three_items_db "DELETE ALL" = (NothingDeleted, three_items_db).
Proof. vm_compute. repeat split; reflexivity. Qed.

Lemma ensure_item_exists_idempotent_witness :
  unique_barcodes (items shelf_db) /\
  field_count "PIPI_01_02_23_G1_0007" = 6%nat /\
  parse_barcode shelf_db "PIPI_01_02_23_G1_0007" false = Parsed pipi_scan /\
  count_where (has_barcode "PIPI_01_02_23_G1_0007")
    (items (scanned (scanned shelf_db "PIPI_01_02_23_G1_0007") "PIPI_01_02_23_G1_0007")) =
  1%nat.
Proof.
  assert (H1 : unique_barcodes (items shelf_db)) by constructor.
  assert (H2 : field_count "PIPI_01_02_23_G1_0007" = 6%nat) by reflexivity.
  assert (H3 : parse_barcode shelf_db "PIPI_01_02_23_G1_0007" false = Parsed pipi_scan)
    by reflexivity.
  split; [exact H1|]. split; [exact H2|]. split; [exact H3|].
  exact (proj1 (proj2 (proj2
           (ensure_item_exists_idempotent shelf_db "PIPI_01_02_23_G1_0007" H1 H2 H3)))).
Defined.

Lemma create_batch_sequential_allocation_witness :
  ascii_items three_items_db = true /\
  isascii "shelf1" = true /\ isascii "PIPI_01_02_23_G1" = true /\ isascii "2" = true /\
  create_batch_prepare three_items_db "shelf1" "PIPI_01_02_23_G1" = inr pipi_plan /\
  int "2" = Some 2 /\ 0 < 2 /\ 2 <= sqlite_max_int /\
  get_highest_item_number three_items_db + 2 < str_bound /\
  bp_start_num pipi_plan = get_highest_item_number three_items_db + 1.
Proof.
  assert (A1 : ascii_items three_items_db = true) by (vm_compute; reflexivity).
  assert (A2 : isascii "shelf1" = true) by reflexivity.
  assert (A3 : isascii "PIPI_01_02_23_G1" = true) by reflexivity.
  assert (A4 : isascii "2" = true) by reflexivity.
  assert (H1 : create_batch_prepare three_items_db "shelf1" "PIPI_01_02_23_G1" =
               inr pipi_plan) by (vm_compute; reflexivity).
  assert (H2 : int "2" = Some 2) by reflexivity.
  assert (H3 : 0 < 2) by lia.
  assert (H4 : 2 <= sqlite_max_int) by (vm_compute; discriminate).
  assert (H5 : get_highest_item_number three_items_db + 2 < str_bound).
  { assert (E : get_highest_item_number three_items_db = 7) by (vm_compute; reflexivity).
    pose proof str_bound_big. rewrite E. lia. }
  split; [exact A1|]. split; [exact A2|]. split; [exact A3|]. split; [exact A4|].
  split; [exact H1|]. split; [exact H2|]. split; [exact H3|]. split; [exact H4|].
  split; [exact H5|].
  exact (proj1 (proj2 (proj2 (proj2
           (@create_batch_sequential_allocation three_items_db "shelf1" "PIPI_01_02_23_G1"
              "2" 0 pipi_plan 2 A1 A2 A3 A4 H1 H2 H3 H4 H5))))).
Defined.

(** A quantity beyond what SQLite stores aborts the batch at its first
    [INSERT], and nothing is written. *)
Example create_batch_quantity_overflow :
  int "9223372036854775808" = Some (sqlite_max_int + 1) /\
  create_batch three_items_db "shelf1" "PIPI_01_02_23_G1" "9223372036854775808" 0 =
  (BatchAborted sqlite_int_overflow, three_items_db).
Proof. split; vm_compute; reflexivity. Qed.

(** C2 as the specification words it: the item after 9999 gets a suffix of five
    characters, not four. *)
Lemma create_batch_five_digit_suffix :
  get_highest_item_number full_db = 9999 /\
  map (fun r => nth 5 (split (full_barcode (snd r))) "")
      (rows (items (snd (create_batch full_db "shelf1" "PIPI_01_02_23_G1" "1" 0)))) =
  ["9999"; "10000"] /\
  String.length "10000" <> 4%nat.
Proof. vm_compute. repeat split; discriminate. Qed.

Lemma delete_all_out_items_purge_witness :
  primary_key (items mixed_db) /\
  unique_barcodes (items mixed_db) /\
  filter_chars is_alpha_char (upper (strip "delete all")) = "DELETEALL" /\
  fst (delete_all_out_items mixed_db "delete all") = Deleted 2.
Proof.
  assert (H1 : primary_key (items mixed_db)).
  { unfold primary_key. vm_compute.
    repeat (constructor; [simpl; intuition discriminate|]). constructor. }
  assert (H2 : unique_barcodes (items mixed_db)).
  { unfold unique_barcodes. vm_compute.
    repeat (constructor; [simpl; intuition discriminate|]). constructor. }
  assert (H3 : filter_chars is_alpha_char (upper (strip "delete all")) = "DELETEALL")
    by reflexivity.
  split; [exact H1|]. split; [exact H2|]. split; [exact H3|].
  exact (proj1 (delete_all_out_items_purge mixed_db "delete all" H1 H2 H3)).
Defined.

Lemma create_batch_consecutive_ranges_witness :
  create_batch_prepare shelf_db "shelf1" "PIPI_01_02_23_G1" =
    inr {| bp_location_barcode := "SHELF1"; bp_parsed := bp_parsed pipi_plan;
           bp_batch_base := "PIPI_01_02_23_G1"; bp_start_num := 1 |} /\
  int "2" = Some 2 /\ 0 < 2 /\ 2 <= sqlite_max_int /\
  get_highest_item_number shelf_db + 2 < str_bound /\
  ascii_items shelf_db = true /\
  isascii "shelf1" = true /\ isascii "PIPI_01_02_23_G1" = true /\ isascii "2" = true /\
  isascii "CHNU_03_02_23_G2" = true /\
  get_highest_item_number
    (snd (create_batch shelf_db "shelf1" "PIPI_01_02_23_G1" "2" 0)) =
  get_highest_item_number shelf_db + 2.
Proof.
  assert (A1 : ascii_items shelf_db = true) by (vm_compute; reflexivity).
  assert (A2 : isascii "shelf1" = true) by reflexivity.
  assert (A3 : isascii "PIPI_01_02_23_G1" = true) by reflexivity.
  assert (A4 : isascii "2" = true) by reflexivity.
  assert (A5 : isascii "CHNU_03_02_23_G2" = true) by reflexivity.
  assert (H5 : 2 <= sqlite_max_int) by (vm_compute; discriminate).
  assert (H6 : get_highest_item_number shelf_db + 2 < str_bound).
  { assert (E : get_highest_item_number shelf_db = 0) by (vm_compute; reflexivity).
    pose proof str_bound_big. rewrite E. lia. }
  assert (H1 : create_batch_prepare shelf_db "shelf1" "PIPI_01_02_23_G1" =
               inr {| bp_location_barcode := "SHELF1"; bp_parsed := bp_parsed pipi_plan;
                      bp_batch_base := "PIPI_01_02_23_G1"; bp_start_num := 1 |})
    by (vm_compute; reflexivity).
  assert (H2 : int "2" = Some 2) by reflexivity.
  assert (H3 : 0 < 2) by lia.
  assert (H4 : create_batch_prepare
                 (snd (create_batch shelf_db "shelf1" "PIPI_01_02_23_G1" "2" 0))
                 "shelf1" "CHNU_03_02_23_G2" =
               inr {| bp_location_barcode := "SHELF1";
                      bp_parsed := {| pd_item_type := "Chestnut"; pd_generation := "G2";
                                      pd_created_date := "03.02.2023";
                                      pd_full_barcode := "CHNU_03_02_23_G2" |};
                      bp_batch_base := "CHNU_03_02_23_G2"; bp_start_num := 3 |})
    by (vm_compute; reflexivity).
  split; [exact H1|]. split; [exact H2|]. split; [exact H3|]. split; [exact H5|].
  split; [exact H6|]. split; [exact A1|]. split; [exact A2|]. split; [exact A3|].
  split; [exact A4|]. split; [exact A5|].
  exact (proj1 (proj2 (@create_batch_consecutive_ranges shelf_db "shelf1"
                         "PIPI_01_02_23_G1" "2" 0 _ 2 "shelf1" "CHNU_03_02_23_G2" _
                         A1 A2 A3 A4 A2 A5 H1 H2 H3 H5 H6 H4))).
Defined.

(** C5 as the specification words it: two [create_batch] runs that both read
    the highest number before either commits are both committed and both
    hand out the numbers 1 and 2. *)
Lemma create_batch_interleaved_overlap :
  exists plan_a plan_b,
    create_batch_prepare shelf_db "shelf1" "PIPI_01_02_23_G1" = inr plan_a /\
    create_batch_prepare shelf_db "shelf1" "CHNU_03_02_23_G2" = inr plan_b /\
    fst (create_batch_commit shelf_db plan_a "2" 0) =
      BatchCreated 2 "PIPI_01_02_23_G1" "SHELF1" 1 /\
    fst (create_batch_commit (snd (create_batch_commit shelf_db plan_a "2" 0)) plan_b "2" 1) =
      BatchCreated 2 "CHNU_03_02_23_G2" "SHELF1" 1 /\
    map (fun r => full_barcode (snd r))
        (rows (items (snd (create_batch_commit
                             (snd (create_batch_commit shelf_db plan_a "2" 0))
                             plan_b "2" 1)))) =
    ["PIPI_01_02_23_G1_0001"; "PIPI_01_02_23_G1_0002";
     "CHNU_03_02_23_G2_0001"; "CHNU_03_02_23_G2_0002"] /\
    map number_of
        (rows (items (snd (create_batch_commit
                             (snd (create_batch_commit shelf_db plan_a "2" 0))
                             plan_b "2" 1)))) =
    [Some 1; Some 2; Some 1; Some 2].
Proof.
  eexists. eexists. split; [vm_compute; reflexivity|].
  split; [vm_compute; reflexivity|]. vm_compute. repeat split; reflexivity.
Qed.

Lemma parse_barcode_year_normalization_witness :
  isascii "PIPI_01_02_23_G1_0007" = true /\
  arity_ok "PIPI_01_02_23_G1_0007" false = true /\
  int (year_field "PIPI_01_02_23_G1_0007") = Some 23 /\
  exists p,
    parse_barcode shelf_db "PIPI_01_02_23_G1_0007" false = Parsed p /\
    (23 < 100 -> pd_created_date p = "01.02.2023") /\
    (100 <= 23 -> pd_created_date p = "01.02.23").
Proof.
  assert (H0 : isascii "PIPI_01_02_23_G1_0007" = true) by reflexivity.
  assert (H1 : arity_ok "PIPI_01_02_23_G1_0007" false = true) by reflexivity.
  assert (H2 : int (year_field "PIPI_01_02_23_G1_0007") = Some 23) by reflexivity.
  split; [exact H0|]. split; [exact H1|]. split; [exact H2|].
  exact (@parse_barcode_year_normalization shelf_db "PIPI_01_02_23_G1_0007" false 23
           H0 H1 H2).
Defined.

Lemma parse_barcode_rejects_witness :
  isascii "PIPI_01_02_XX_G1" = true /\
  (is_none (parse_barcode shelf_db "PIPI_01_02_XX_G1" true) = true <->
   arity_ok "PIPI_01_02_XX_G1" true = false \/
   int (year_field "PIPI_01_02_XX_G1") = None).
Proof.
  assert (H0 : isascii "PIPI_01_02_XX_G1" = true) by reflexivity.
  split; [exact H0|].
  exact (proj1 (@parse_barcode_rejects shelf_db "PIPI_01_02_XX_G1" H0) true).
Defined.

(** C8 as the specification words it: five fields for a batch, six for an item,
    and [parse_barcode] still returns [None]. *)
Lemma parse_barcode_rejects_right_arity :
  field_count "PIPI_01_02_XX_G1" = 5%nat /\
  is_none (parse_barcode shelf_db "PIPI_01_02_XX_G1" true) = true /\
  field_count "PIPI_01_02_XX_G1_0007" = 6%nat /\
  is_none (parse_barcode shelf_db "PIPI_01_02_XX_G1_0007" false) = true.
Proof. repeat split; reflexivity. Qed.

Lemma parse_barcode_year_failure_witness :
  Forall no_us ["PIPI"; "ab"; "??"; "XX"; "G1"] /\
  isascii (join ["PIPI"; "ab"; "??"; "XX"; "G1"]) = true /\
  parse_barcode shelf_db "PIPI_ab_??_XX_G1" false = ParsingError.
Proof.
  assert (H1 : Forall no_us ["PIPI"; "ab"; "??"; "XX"; "G1"])
    by (repeat constructor).
  assert (H2 : isascii (join ["PIPI"; "ab"; "??"; "XX"; "G1"]) = true) by reflexivity.
  split; [exact H1|]. split; [exact H2|].
  exact (proj1 (proj2 (@parse_barcode_year_failure shelf_db
                         ["PIPI"; "ab"; "??"; "XX"; "G1"] false H1 H2
                         (or_introl eq_refl)))
           eq_refl).
Defined.

(** C10 as the specification words it: a name of one space is not empty, the
    normalized barcode is not empty either, and the registration is
    refused. *)
Lemma register_location_blank_name_rejected :
  to_upper_alphanumeric "shelf-2" = "SHELF2" /\
  " " <> "" /\
  register_location shelf_db "shelf-2" " " = (false, shelf_db).
Proof. split; [reflexivity|]. split; [discriminate|reflexivity]. Qed.

(** * Further properties of the program *)

(** ** Normalized barcodes and the item-barcode heuristic *)

Section Canonical.

Lemma capital_or_digit_facts c :
  (is_upper_char c || is_digit_char c)%bool = true ->
  is_alnum_char c = true /\ upper_char c = c /\ is_us c = false.
Proof.
  destruct c as [[] [] [] [] [] [] [] []]; vm_compute; try discriminate;
    intros _; repeat split.
Qed.

Lemma alnum_not_us c : is_alnum_char c = true -> is_us c = false.
Proof.
  destruct c as [[] [] [] [] [] [] [] []]; vm_compute; (reflexivity || discriminate).
Qed.

Lemma filter_chars_all f s : all_chars f s = true -> filter_chars f s = s.
Proof.
  induction s as [|c r IH]; simpl; [reflexivity|]. intros H.
  apply andb_prop in H as [Hc Hr]. now rewrite Hc, IH.
Qed.

Lemma all_chars_weaken (f g : ascii -> bool) s :
  (forall c, f c = true -> g c = true) -> all_chars f s = true -> all_chars g s = true.
Proof.
  intros Hfg. induction s as [|c r IH]; simpl; [reflexivity|]. intros H.
  apply andb_prop in H as [Hc Hr]. now rewrite (Hfg c Hc), IH.
Qed.

Lemma upper_capitals s :
  all_chars (fun c => is_upper_char c || is_digit_char c) s = true -> upper s = s.
Proof.
  unfold upper. induction s as [|c r IH]; simpl; [reflexivity|]. intros H.
  apply andb_prop in H as [Hc Hr].
  destruct (@capital_or_digit_facts c Hc) as (_ & -> & _). now rewrite IH.
Qed.

Lemma looks_like_item_barcode_plain s : no_us s -> looks_like_item_barcode s = false.
Proof.
  intros H. unfold looks_like_item_barcode. rewrite (@split_plain s H).
  now destruct s.
Qed.

End Canonical.

(** X1. On ASCII text the normal form of a location barcode is
    stable: normalizing twice is normalizing once, an alphanumeric text
    only changes case, and a normalized text never looks like an item
    barcode. *)
Theorem to_upper_alphanumeric_canonical (s : string) :
  isascii s = true ->
  to_upper_alphanumeric (to_upper_alphanumeric s) = to_upper_alphanumeric s /\
  looks_like_item_barcode (to_upper_alphanumeric s) = false /\
  (isalnum s = true -> to_upper_alphanumeric s = upper s).
Proof.
  intros _. pose proof (to_upper_alphanumeric_chars s) as Hc.
  split; [|split].
  - unfold to_upper_alphanumeric at 1.
    rewrite filter_chars_all.
    + now apply upper_capitals.
    + revert Hc. apply all_chars_weaken. intros c H.
      now destruct (@capital_or_digit_facts c H).
  - apply looks_like_item_barcode_plain. unfold no_us. revert Hc.
    apply all_chars_weaken. intros c H.
    destruct (@capital_or_digit_facts c H) as (_ & _ & ->). reflexivity.
  - intros H. unfold to_upper_alphanumeric. rewrite filter_chars_all; [reflexivity|].
    destruct s; [discriminate|exact H].
Qed.

(** X2. [looks_like_item_barcode] accepts exactly the non-empty texts
    whose field count [parse_barcode] accepts for an item, so on a
    non-empty text it fails exactly when decoding gives the field-count
    diagnostic. *)
Theorem looks_like_item_barcode_arity (db : DB) (barcode : string) :
  (looks_like_item_barcode barcode = true <->
   barcode <> "" /\ (field_count barcode = 5%nat \/ field_count barcode = 6%nat)) /\
  (barcode <> "" ->
   looks_like_item_barcode barcode =
   negb (invalid_format (parse_barcode db barcode false))) /\
  looks_like_item_barcode "" = false /\
  parse_barcode db "" false = InvalidItemBarcode 1.
Proof.
  assert (Hl : barcode <> "" ->
               looks_like_item_barcode barcode = arity_ok barcode false).
  { intros H. destruct barcode; [congruence|reflexivity]. }
  split; [|split; [|split; reflexivity]].
  - destruct barcode as [|c r]; [simpl; split; [discriminate|intros [H _]; congruence]|].
    rewrite Hl by discriminate. unfold arity_ok.
    rewrite orb_true_iff, !Nat.eqb_eq. split; [intros H; split; [discriminate|exact H]|tauto].
  - intros H. rewrite (Hl H). destruct (arity_ok barcode false) eqn:Ha.
    + rewrite (@parse_barcode_arity_ok db barcode false Ha).
      now destruct (int (year_field barcode)).
    + now rewrite (@parse_barcode_arity_bad db barcode false Ha).
Qed.

(** ** The batch barcode derived from a full barcode *)

Section BatchPrefix.

Lemma join_app (l1 l2 : list string) :
  l1 <> [] -> l2 <> [] -> join (l1 ++ l2) = join l1 ++ "_" ++ join l2.
Proof.
  induction l1 as [|a l1 IH]; [congruence|]. intros _ H2.
  destruct l1 as [|b l1].
  - destruct l2 as [|c l2]; [congruence|]. reflexivity.
  - change (join ((a :: b :: l1) ++ l2)) with (a ++ String "_" (join ((b :: l1) ++ l2))).
    rewrite IH by (discriminate || assumption).
    change (join (a :: b :: l1)) with (a ++ String "_" (join (b :: l1))).
    rewrite !append_assoc. reflexivity.
Qed.

Lemma firstn_split_no_us n s : Forall no_us (firstn n (split s)).
Proof.
  apply Forall_forall. intros x Hx.
  pose proof (split_no_us s) as Hall. rewrite Forall_forall in Hall. apply Hall.
  rewrite <- (firstn_skipn n). apply in_or_app. now left.
Qed.

End BatchPrefix.

(** The batch barcode computed for a new item is a prefix of the full
    barcode. *)
Lemma fresh_item_batch_barcode (barcode item_type generation created_date : string) :
  let batch := batch_barcode (fresh_item barcode item_type generation created_date) in
  ((field_count barcode <= 5)%nat -> batch = barcode) /\
  ((5 < field_count barcode)%nat ->
   barcode = batch ++ "_" ++ join (skipn 5 (split barcode))) /\
  (field_count barcode = 6%nat -> barcode = batch ++ "_" ++ nth 5 (split barcode) "") /\
  ((5 <= field_count barcode)%nat -> field_count batch = 5%nat).
Proof.
  cbn [batch_barcode fresh_item]. unfold field_count.
  assert (Hlong : (5 < List.length (split barcode))%nat ->
                  barcode = join (firstn 5 (split barcode)) ++ "_"
                              ++ join (skipn 5 (split barcode))).
  { intros H. rewrite <- join_app.
    - now rewrite firstn_skipn, join_split.
    - intros E. apply (f_equal (@List.length string)) in E.
      rewrite length_firstn in E. cbn [List.length] in E. lia.
    - intros E. apply (f_equal (@List.length string)) in E.
      rewrite length_skipn in E. cbn [List.length] in E. lia. }
  split; [|split; [|split]].
  - intros H. rewrite firstn_all2 by exact H. apply join_split.
  - exact Hlong.
  - intros H. rewrite Hlong at 1 by lia. do 2 f_equal.
    destruct (split barcode) as [|a [|b [|c [|d [|e [|f [|g l]]]]]]]; try discriminate.
    reflexivity.
  - intros H. rewrite split_join.
    + rewrite length_firstn. lia.
    + intros E. apply (f_equal (@List.length string)) in E.
      rewrite length_firstn in E. cbn [List.length] in E. lia.
    + apply firstn_split_no_us.
Qed.

(** X3. The row [ensure_item_exists] stores for an unseen barcode
    carries that barcode with status IN, and its batch barcode is a
    prefix of it with exactly 5 fields: the barcode itself when it has 5
    fields, and otherwise the barcode is the batch barcode, the
    delimiter and the remaining fields (for 6 fields: the sequence
    suffix).  A row is stored only for a barcode of at least 5 fields. *)
Theorem derived_batch_barcode
    (db : DB) (barcode item_type generation created_date : string) (row : Z * item) :
  fetchone (has_barcode barcode) (items db) = None ->
  fetchone (has_barcode barcode)
    (items (snd (ensure_item_exists db barcode item_type generation created_date))) =
    Some row ->
  let batch := batch_barcode (snd row) in
  (5 <= field_count barcode)%nat /\
  full_barcode (snd row) = barcode /\ current_status (snd row) = "IN" /\
  field_count batch = 5%nat /\
  (field_count barcode = 5%nat -> batch = barcode) /\
  ((5 < field_count barcode)%nat ->
   barcode = batch ++ "_" ++ join (skipn 5 (split barcode))) /\
  (field_count barcode = 6%nat -> barcode = batch ++ "_" ++ nth 5 (split barcode) "").
Proof.
  intros Hnew Hrow.
  destruct (Nat.ltb_spec (field_count barcode) 5) as [Hlt|Hge].
  - exfalso. revert Hrow. unfold ensure_item_exists, ensure_item_insert. rewrite Hnew.
    fold (field_count barcode). apply Nat.ltb_lt in Hlt. rewrite Hlt. cbn [snd].
    now rewrite Hnew.
  - rewrite (@ensure_item_exists_absent db barcode item_type generation created_date
               Hge Hnew) in Hrow.
    cbn [snd] in Hrow. change (items (set_items db ?t)) with t in Hrow.
    rewrite (@fetchone_insert_new _ (has_barcode barcode) (items db)
               (fresh_item barcode item_type generation created_date) Hnew
               (String.eqb_refl _)) in Hrow.
    injection Hrow as <-. cbn [snd].
    destruct (fresh_item_batch_barcode barcode item_type generation created_date)
      as (H5 & Hlong & H6 & Hcount).
    split; [exact Hge|]. split; [reflexivity|]. split; [reflexivity|].
    split; [now apply Hcount|]. split; [intros E; apply H5; lia|].
    split; [exact Hlong|exact H6].
Qed.

(** ** Lazily created items and status updates *)

Section ItemRows.

Lemma parse_barcode_parsed_arity db barcode is_batch p :
  parse_barcode db barcode is_batch = Parsed p -> arity_ok barcode is_batch = true.
Proof.
  intros H. destruct (arity_ok barcode is_batch) eqn:Ha; [reflexivity|].
  rewrite (@parse_barcode_arity_bad db barcode is_batch Ha) in H.
  destruct is_batch; discriminate.
Qed.

Lemma arity_ok_at_least_5 barcode is_batch :
  arity_ok barcode is_batch = true -> (5 <= field_count barcode)%nat.
Proof.
  unfold arity_ok. destruct is_batch.
  - intros H. apply Nat.eqb_eq in H. lia.
  - intros H. apply orb_prop in H as [H|H]; apply Nat.eqb_eq in H; lia.
Qed.

Lemma find_map_keyed {A} (hit : A -> bool) (f : A -> A) (l : list A) :
  (forall x, hit (f x) = hit x) ->
  find hit (map f l) = option_map f (find hit l).
Proof.
  intros H. induction l as [|x l IH]; simpl; [reflexivity|].
  rewrite H. destruct (hit x); [reflexivity|exact IH].
Qed.

Lemma status_update_keeps_barcode (hit : Z * item -> bool) s b (x : Z * item) :
  has_barcode b (if hit x then (fst x, set_status s (snd x)) else x) = has_barcode b x.
Proof. now destruct (hit x). Qed.

Lemma update_item_status_rows db barcode new_status :
  rows (items (snd (update_item_status db barcode new_status))) =
  map (fun r => if has_barcode barcode r then (fst r, set_status new_status (snd r)) else r)
      (rows (items db)).
Proof. reflexivity. Qed.

Lemma status_of_update_item_status db barcode new_status b :
  status_of (snd (update_item_status db barcode new_status)) b =
  if String.eqb b barcode then option_map (fun _ => new_status) (status_of db b)
  else status_of db b.
Proof.
  unfold status_of, fetchone. rewrite update_item_status_rows.
  rewrite (find_map_keyed _ _ _ (status_update_keeps_barcode (has_barcode barcode)
                                   new_status b)).
  destruct (find (has_barcode b) (rows (items db))) as [x|] eqn:Hx;
    [|now destruct (String.eqb b barcode)].
  apply find_some in Hx as [_ Hx]. cbn [option_map].
  destruct (String.eqb_spec b barcode) as [->|Hne].
  - now rewrite Hx.
  - unfold has_barcode in *. apply String.eqb_eq in Hx.
    destruct (String.eqb_spec (full_barcode (snd x)) barcode); [congruence|reflexivity].
Qed.

End ItemRows.

(** X4. [ensure_item_exists] fails only for an unseen barcode of fewer
    than 5 fields, and then changes nothing; it never fails on a barcode
    that [parse_barcode] accepted.  It never touches an existing row: the
    item table afterwards is the old one, or the old one with the new row
    appended; after a success the barcode can be looked up. *)
Theorem ensure_item_exists_outcome
    (db : DB) (barcode item_type generation created_date : string) :
  let result := ensure_item_exists db barcode item_type generation created_date in
  (fst result = false <->
   fetchone (has_barcode barcode) (items db) = None /\ (field_count barcode < 5)%nat) /\
  (fst result = false -> snd result = db) /\
  (forall is_batch p, parse_barcode db barcode is_batch = Parsed p -> fst result = true) /\
  (rows (items (snd result)) = rows (items db) \/
   rows (items (snd result)) =
   (rows (items db) ++
    [(next_rowid (items db), fresh_item barcode item_type generation created_date)])%list) /\
  (fst result = true ->
   exists row, fetchone (has_barcode barcode) (items (snd result)) = Some row) /\
  notes (snd result) = notes db /\ locations (snd result) = locations db /\
  item_locations (snd result) = item_locations db /\
  item_scans (snd result) = item_scans db /\
  batch_scans (snd result) = batch_scans db /\ item_codes (snd result) = item_codes db.
Proof.
  intros result. subst result.
  destruct (fetchone (has_barcode barcode) (items db)) as [row|] eqn:Hf.
  - rewrite (@ensure_item_exists_present db barcode item_type generation created_date row Hf).
    cbn [fst snd].
    split; [|split; [|split; [|split; [|split; [|repeat split]]]]].
    + split; [discriminate | intros [H _]; discriminate].
    + discriminate.
    + reflexivity.
    + now left.
    + intros _. now exists row.
  - destruct (Nat.ltb_spec (field_count barcode) 5) as [Hlt|Hge].
    + assert (E : ensure_item_exists db barcode item_type generation created_date =
                  (false, db)).
      { unfold ensure_item_exists, ensure_item_insert. rewrite Hf.
        fold (field_count barcode). apply Nat.ltb_lt in Hlt. now rewrite Hlt. }
      rewrite E. cbn [fst snd].
      split; [|split; [|split; [|split; [|split; [|repeat split]]]]].
      * tauto.
      * reflexivity.
      * intros is_batch p Hp. apply parse_barcode_parsed_arity in Hp.
        apply arity_ok_at_least_5 in Hp. lia.
      * now left.
      * discriminate.
    + rewrite (@ensure_item_exists_absent db barcode item_type generation created_date
                 Hge Hf).
      cbn [fst snd].
      split; [|split; [|split; [|split; [|split; [|repeat split]]]]].
      * split; [discriminate | intros [_ H]; lia].
      * discriminate.
      * reflexivity.
      * right. reflexivity.
      * intros _. eexists. apply fetchone_insert_new; [exact Hf|].
        unfold has_barcode. cbn [snd full_barcode fresh_item]. apply String.eqb_refl.
Qed.

(** X5. [update_item_status] answers whether the barcode is known.
    Afterwards a lookup of that barcode shows the new status, every other
    lookup is as before, and the rowids and barcodes of the table are
    unchanged; for an unknown barcode the rows are unchanged. *)
Theorem update_item_status_lookup (db : DB) (barcode new_status : string) :
  let result := update_item_status db barcode new_status in
  (fst result = true <-> fetchone (has_barcode barcode) (items db) <> None) /\
  (forall b,
     status_of (snd result) b =
     if String.eqb b barcode then option_map (fun _ => new_status) (status_of db b)
     else status_of db b) /\
  map fst (rows (items (snd result))) = map fst (rows (items db)) /\
  map (fun r => full_barcode (snd r)) (rows (items (snd result))) =
  map (fun r => full_barcode (snd r)) (rows (items db)) /\
  (fetchone (has_barcode barcode) (items db) = None ->
   rows (items (snd result)) = rows (items db)).
Proof.
  intros result. subst result. unfold update_item_status. cbn [fst snd].
  change (items (set_items db ?t)) with t.
  set (upd := fun r : Z * item =>
                if has_barcode barcode r then (fst r, set_status new_status (snd r)) else r).
  assert (Hrows : rows (update_where (has_barcode barcode) (set_status new_status) (items db))
                  = map upd (rows (items db))) by reflexivity.
  assert (Hkey : forall b x, has_barcode b (upd x) = has_barcode b x).
  { intros b x. unfold upd. now destruct (has_barcode barcode x). }
  split; [|split; [|split; [|split]]].
  - rewrite negb_true_iff, Nat.eqb_neq, count_where_zero. tauto.
  - intros b. apply status_of_update_item_status.
  - rewrite Hrows, map_map. apply map_ext. intros x. unfold upd.
    now destruct (has_barcode barcode x).
  - rewrite Hrows, map_map. apply map_ext. intros x. unfold upd.
    now destruct (has_barcode barcode x).
  - intros Hn. rewrite Hrows. rewrite <- (map_id (rows (items db))) at 2.
    apply map_ext_in. intros x Hx. unfold upd.
    destruct (has_barcode barcode x) eqn:E; [|reflexivity].
    pose proof (find_none _ _ Hn x Hx) as Hc. congruence.
Qed.

(** ** The declared constraints are kept *)

Section Constraints.

Lemma NoDup_map_filter {A B} (g : A -> B) (f : A -> bool) (l : list A) :
  NoDup (map g l) -> NoDup (map g (filter f l)).
Proof.
  induction l as [|x l IH]; simpl; [trivial|]. intros H.
  inversion H as [|? ? Hx Hl]; subst. specialize (IH Hl).
  destruct (f x); [|exact IH]. simpl. constructor; [|exact IH].
  intros Hin. apply Hx. apply in_map_iff in Hin as (y & E & Hy).
  apply filter_In in Hy as [Hy _]. rewrite <- E. now apply in_map.
Qed.

Lemma primary_key_delete {A} (f : Z * A -> bool) (t : table A) :
  primary_key t -> primary_key (delete_where f t).
Proof. unfold primary_key, delete_where. cbn [rows]. apply NoDup_map_filter. Qed.

Lemma primary_key_update {A} (hit : Z * A -> bool) (f : A -> A) (t : table A) :
  primary_key t -> primary_key (update_where hit f t).
Proof.
  unfold primary_key, update_where. cbn [rows]. intros H. rewrite map_map.
  rewrite (map_ext _ fst); [exact H|]. intros x. now destruct (hit x).
Qed.

Lemma unique_barcodes_delete f t : unique_barcodes t -> unique_barcodes (delete_where f t).
Proof. unfold unique_barcodes, delete_where. cbn [rows]. apply NoDup_map_filter. Qed.

Lemma unique_barcodes_set_status hit s t :
  unique_barcodes t -> unique_barcodes (update_where hit (set_status s) t).
Proof.
  unfold unique_barcodes, update_where. cbn [rows]. intros H. rewrite map_map.
  rewrite (map_ext _ (fun r => full_barcode (snd r))); [exact H|].
  intros x. now destruct (hit x).
Qed.

Lemma unique_barcodes_insert t r :
  unique_barcodes t -> fetchone (has_barcode (full_barcode r)) t = None ->
  unique_barcodes (insert t r).
Proof.
  unfold unique_barcodes, insert, fetchone. cbn [rows]. intros Hu Hf.
  rewrite map_app. cbn [map snd]. apply NoDup_app; [exact Hu | repeat constructor; simpl; tauto|].
  intros b Hb [<-|[]]. apply in_map_iff in Hb as (x & E & Hx).
  pose proof (find_none _ _ Hf x Hx) as Hc. unfold has_barcode in Hc.
  rewrite E, String.eqb_refl in Hc. discriminate.
Qed.

(** A successful [INSERT INTO items] keeps the key and the [UNIQUE]
    column. *)
Lemma insert_item_constraints t r t' :
  insert_item t r = inr t' ->
  primary_key t -> unique_barcodes t -> primary_key t' /\ unique_barcodes t'.
Proof.
  unfold insert_item.
  destruct (fetchone (has_barcode (full_barcode r)) t) eqn:Hf; [discriminate|].
  intros [= <-] Hk Hu. split; [now apply primary_key_insert | now apply unique_barcodes_insert].
Qed.

Lemma unique_locations_replace t r :
  unique_locations t -> unique_locations (replace_location t r).
Proof.
  unfold unique_locations, replace_location, insert, delete_where. cbn [rows]. intros Hu.
  rewrite map_app. cbn [map snd].
  apply NoDup_app; [now apply NoDup_map_filter | repeat constructor; simpl; tauto|].
  intros b Hb [<-|[]]. apply in_map_iff in Hb as (x & E & Hx).
  apply filter_In in Hx as [_ Hx]. rewrite E, String.eqb_refl in Hx. discriminate.
Qed.

Lemma unique_locations_delete f t : unique_locations t -> unique_locations (delete_where f t).
Proof. unfold unique_locations, delete_where. cbn [rows]. apply NoDup_map_filter. Qed.

Lemma schema_ok_same_tables db db' :
  items db' = items db -> locations db' = locations db -> schema_ok db -> schema_ok db'.
Proof. unfold schema_ok. now intros -> ->. Qed.

Lemma schema_ok_ensure db b t g d :
  schema_ok db -> schema_ok (snd (ensure_item_exists db b t g d)).
Proof.
  intros (Hk & Hu & Hl). unfold ensure_item_exists, ensure_item_insert.
  destruct (fetchone (has_barcode b) (items db)); [now repeat split|].
  destruct (Nat.ltb _ 5); [now repeat split|].
  destruct (insert_item _ _) as [e|t'] eqn:E; [destruct e; now repeat split|].
  destruct (@insert_item_constraints _ _ _ E Hk Hu). now repeat split.
Qed.

Lemma schema_ok_update_status db b s :
  schema_ok db -> schema_ok (snd (update_item_status db b s)).
Proof.
  intros (Hk & Hu & Hl). unfold update_item_status. cbn [snd]. repeat split; trivial.
  - now apply primary_key_update.
  - now apply unique_barcodes_set_status.
Qed.

Lemma schema_ok_move_item_scan db target b now :
  schema_ok db -> schema_ok (snd (move_item_scan db target b now)).
Proof.
  intros (Hk & Hu & Hl). unfold move_item_scan.
  destruct (parse_barcode db b false); try now repeat split.
  destruct (fetchone (has_barcode b) (items db)) as [row|].
  - destruct (String.eqb _ "OUT"); cbn [snd]; repeat split; trivial.
    + now apply primary_key_update.
    + now apply unique_barcodes_set_status.
  - destruct (Nat.ltb _ 5); [now repeat split|].
    destruct (insert_item _ _) as [e|t'] eqn:E; [now repeat split|].
    destruct (@insert_item_constraints _ _ _ E Hk Hu).
    cbn [items set_items]. destruct (fetchone (has_barcode b) t'); now repeat split.
Qed.

Lemma schema_ok_create_batch_items plan now count : forall i db db',
  create_batch_items plan now count i db = inr db' -> schema_ok db -> schema_ok db'.
Proof.
  induction count as [|c IH]; intros i db db'; cbn [create_batch_items].
  - now intros [= <-].
  - destruct (str_fits i); cbn [negb]; [|discriminate].
    destruct (insert_item _ _) as [e|t'] eqn:E; [discriminate|].
    intros Hrun (Hk & Hu & Hl). apply IH in Hrun; [exact Hrun|].
    destruct (@insert_item_constraints _ _ _ E Hk Hu). now repeat split.
Qed.

Lemma schema_ok_create_batch db location_entry barcode_entry quantity_entry now :
  schema_ok db ->
  schema_ok (snd (create_batch db location_entry barcode_entry quantity_entry now)).
Proof.
  intros H. unfold create_batch.
  destruct (create_batch_prepare _ _ _) as [report|plan]; [exact H|].
  unfold create_batch_commit.
  destruct (str_fits (bp_start_num plan)); cbn [negb]; [|exact H].
  destruct (int quantity_entry) as [q|]; [|exact H].
  destruct (q <=? 0); [exact H|].
  destruct (sqlite_max_int <? q); [exact H|].
  destruct (create_batch_items _ _ _ _ _) as [e|db2] eqn:E; [exact H|].
  cbn [snd]. apply (@schema_ok_create_batch_items _ _ _ _ _ _ E).
  now apply (@schema_ok_same_tables db).
Qed.

Lemma schema_ok_purge db confirm_entry :
  schema_ok db -> schema_ok (snd (delete_all_out_items db confirm_entry)).
Proof.
  intros (Hk & Hu & Hl). unfold delete_all_out_items.
  destruct (negb _); [now repeat split|]. destruct (Nat.eqb _ 0); [now repeat split|].
  cbn [snd]. repeat split; trivial.
  - now apply primary_key_delete.
  - now apply unique_barcodes_delete.
Qed.

Lemma schema_ok_register_location db b n :
  schema_ok db -> schema_ok (snd (register_location db b n)).
Proof.
  intros (Hk & Hu & Hl). unfold register_location.
  destruct (to_upper_alphanumeric b); [now repeat split|].
  destruct (strip n); [now repeat split|]. cbn [snd]. repeat split; trivial.
  now apply unique_locations_replace.
Qed.

Lemma schema_ok_remove_location db entry :
  schema_ok db -> schema_ok (snd (Registry.remove_location db entry)).
Proof.
  intros (Hk & Hu & Hl). unfold Registry.remove_location.
  destruct (upper (strip entry)); [now repeat split|].
  destruct (fetchone _ (locations db)); [|now repeat split].
  destruct (Nat.ltb 0 _); [now repeat split|]. cbn [snd]. repeat split; trivial.
  now apply unique_locations_delete.
Qed.

Lemma schema_ok_log_scan store db p status now max_retries retry_delay :
  schema_ok db ->
  schema_ok (snd (fst (log_scan store db p status now max_retries retry_delay))).
Proof.
  intros H. unfold log_scan. generalize 0%nat.
  induction max_retries as [|m IH] at 2; intros k; cbn [log_scan_loop]; [exact H|].
  destruct (store k) as [e|]; [|exact H].
  destruct (lock_busy e); [|exact H]. specialize (IH (S k)).
  destruct (log_scan_loop _ _ _ _ _ _ _ _ _) as [[r d] evs]. exact IH.
Qed.

Lemma schema_ok_check_out store db b now :
  schema_ok db -> schema_ok (snd (fst (Session.check_out_scan store db b now))).
Proof.
  intros H. unfold Session.check_out_scan.
  destruct (parse_barcode db b false) as [p| | |]; try exact H.
  pose proof (@schema_ok_ensure db b (pd_item_type p) (pd_generation p) (pd_created_date p) H)
    as H1.
  destruct (ensure_item_exists _ _ _ _ _) as [ensured db1]. cbn [snd] in H1.
  destruct ensured; [|exact H1]. cbn [negb].
  pose proof (@schema_ok_update_status _ b "OUT" H1) as H2.
  destruct (update_item_status db1 b "OUT") as [updated db2]. cbn [snd] in H2.
  pose proof (@schema_ok_log_scan store _ p "OUT" now default_max_retries
                default_retry_delay H2) as H3.
  destruct (log_scan _ _ _ _ _ _ _) as [[saved db3] events]. exact H3.
Qed.

Lemma schema_ok_move_item_loop target entries : forall db,
  schema_ok db -> schema_ok (snd (Session.move_item_loop db target entries)).
Proof.
  induction entries as [|[entry now] rest IH]; intros db H; cbn [Session.move_item_loop];
    [exact H|].
  destruct (String.eqb _ "finish"); [exact H|].
  pose proof (@schema_ok_move_item_scan db target (strip entry) now H) as H1.
  destruct (move_item_scan _ _ _ _) as [report db1]. cbn [snd] in H1.
  specialize (IH db1 H1).
  destruct (Session.move_item_loop db1 target rest) as [reports db2]. exact IH.
Qed.

Lemma schema_ok_move_item_session db target_entry entries :
  schema_ok db -> schema_ok (snd (Session.move_item_session db target_entry entries)).
Proof.
  intros H. unfold Session.move_item_session.
  destruct (upper (strip target_entry)) as [|c l]; [exact H|].
  destruct (looks_like_item_barcode _); [exact H|].
  destruct (fetchone _ (locations db)); [|exact H].
  pose proof (@schema_ok_move_item_loop (String c l) entries db H) as H1.
  destruct (Session.move_item_loop _ _ _). exact H1.
Qed.

End Constraints.

(** X6. Every operation that writes items or locations keeps the
    declared constraints: rowids of items stay distinct, no two items
    share a full barcode and no two locations share a barcode. *)
Theorem schema_ok_preserved (db : DB) :
  schema_ok db ->
  (forall b t g d, schema_ok (snd (ensure_item_exists db b t g d))) /\
  (forall b s, schema_ok (snd (update_item_status db b s))) /\
  (forall target b now, schema_ok (snd (move_item_scan db target b now))) /\
  (forall l b q now, schema_ok (snd (create_batch db l b q now))) /\
  (forall confirm, schema_ok (snd (delete_all_out_items db confirm))) /\
  (forall b n, schema_ok (snd (register_location db b n))) /\
  (forall entry, schema_ok (snd (Registry.remove_location db entry))) /\
  (forall store b now, schema_ok (snd (fst (Session.check_out_scan store db b now)))) /\
  (forall target entries,
     schema_ok (snd (Session.move_item_session db target entries))).
Proof.
  intros H. repeat split; intros.
  all: first [ now apply schema_ok_ensure
             | now apply schema_ok_update_status
             | now apply schema_ok_move_item_scan
             | now apply schema_ok_create_batch
             | now apply schema_ok_purge
             | now apply schema_ok_register_location
             | now apply schema_ok_remove_location
             | now apply schema_ok_check_out
             | now apply schema_ok_move_item_session ].
Qed.

(** ** Notes *)

Section NoteRows.

Lemma filter_map_keyed {A} (hit : A -> bool) (f : A -> A) (l : list A) :
  (forall x, hit (f x) = hit x) ->
  filter hit (map f l) = map f (filter hit l).
Proof.
  intros H. induction l as [|x l IH]; simpl; [reflexivity|].
  rewrite H. destruct (hit x); simpl; now rewrite IH.
Qed.

Lemma note_of_with_text id text n :
  Notes.note_of id (fst n, Notes.with_text text (snd n)) = Notes.note_of id n.
Proof. reflexivity. Qed.

Lemma note_update_keeps_key id id' text (x : Z * note) :
  Notes.note_of id'
    (if Notes.note_of id x then (fst x, Notes.with_text text (snd x)) else x) =
  Notes.note_of id' x.
Proof. now destruct (Notes.note_of id x). Qed.

End NoteRows.

(** X7. A note written with [add_note] for a known barcode is the note
    [get_note] returns afterwards, whether the item had a note before or
    not; the item table is not touched. *)
Theorem add_note_get_note (db : DB) (barcode text : string) (row : Z * item) :
  fetchone (has_barcode barcode) (items db) = Some row ->
  fst (Notes.add_note db barcode text) = true /\
  Notes.get_note (snd (Notes.add_note db barcode text)) barcode = text /\
  items (snd (Notes.add_note db barcode text)) = items db.
Proof.
  intros Hf. unfold Notes.add_note. rewrite Hf.
  destruct (fetchone (Notes.note_of (fst row)) (notes db)) as [n|] eqn:Hn; cbn [fst snd].
  - split; [reflexivity|]. split; [|reflexivity].
    unfold Notes.get_note. change (items (set_notes db ?t)) with (items db). rewrite Hf.
    change (notes (set_notes db ?t)) with t.
    unfold fetchone, update_where. cbn [rows].
    rewrite (find_map_keyed _ _ _ (note_update_keeps_key (fst row) (fst row) text)).
    unfold fetchone in Hn. rewrite Hn. cbn [option_map].
    apply find_some in Hn as [_ Hn]. now rewrite Hn.
  - split; [reflexivity|]. split; [|reflexivity].
    unfold Notes.get_note. change (items (set_notes db ?t)) with (items db). rewrite Hf.
    change (notes (set_notes db ?t)) with t.
    rewrite (fetchone_insert_new _ _ _ Hn); [reflexivity|].
    unfold Notes.note_of. cbn [snd note_item_id]. apply Z.eqb_refl.
Qed.

(** X8. [add_note] refuses an unknown barcode and changes nothing, and
    [get_note] then answers with the empty text.  For a known barcode it
    never adds a second note: the item has one note afterwards if it had
    none, and as many as before otherwise; the notes of every other item
    and all other tables are as before. *)
Theorem add_note_frame (db : DB) (barcode text : string) :
  (fetchone (has_barcode barcode) (items db) = None ->
   Notes.add_note db barcode text = (false, db) /\ Notes.get_note db barcode = "") /\
  (forall row,
     fetchone (has_barcode barcode) (items db) = Some row ->
     count_where (Notes.note_of (fst row)) (notes (snd (Notes.add_note db barcode text))) =
     Nat.max 1 (count_where (Notes.note_of (fst row)) (notes db)) /\
     forall other,
       other <> fst row ->
       filter (Notes.note_of other) (rows (notes (snd (Notes.add_note db barcode text)))) =
       filter (Notes.note_of other) (rows (notes db))) /\
  items (snd (Notes.add_note db barcode text)) = items db /\
  locations (snd (Notes.add_note db barcode text)) = locations db /\
  item_locations (snd (Notes.add_note db barcode text)) = item_locations db /\
  item_scans (snd (Notes.add_note db barcode text)) = item_scans db /\
  batch_scans (snd (Notes.add_note db barcode text)) = batch_scans db /\
  item_codes (snd (Notes.add_note db barcode text)) = item_codes db.
Proof.
  split; [|split].
  - intros Hf. unfold Notes.add_note, Notes.get_note. now rewrite Hf.
  - intros row Hf. unfold Notes.add_note. rewrite Hf.
    destruct (fetchone (Notes.note_of (fst row)) (notes db)) as [n|] eqn:Hn; cbn [snd];
      change (notes (set_notes db ?t)) with t.
    + split.
      * unfold count_where, update_where. cbn [rows].
        rewrite (filter_map_keyed _ _ _ (note_update_keeps_key (fst row) (fst row) text)).
        rewrite length_map.
        assert (Hz : count_where (Notes.note_of (fst row)) (notes db) <> 0%nat).
        { rewrite count_where_zero, Hn. discriminate. }
        unfold count_where in Hz. lia.
      * intros other Hne. unfold update_where. cbn [rows].
        rewrite (filter_map_keyed _ _ _ (note_update_keeps_key (fst row) other text)).
        rewrite <- (map_id (filter (Notes.note_of other) (rows (notes db)))) at 2.
        apply map_ext_in. intros x Hx. apply filter_In in Hx as [_ Hx].
        destruct (Notes.note_of (fst row) x) eqn:E; [|reflexivity].
        unfold Notes.note_of in *. apply Z.eqb_eq in Hx, E. congruence.
    + split.
      * rewrite count_where_insert. apply count_where_zero in Hn. rewrite Hn.
        unfold Notes.note_of. cbn [snd note_item_id]. now rewrite Z.eqb_refl.
      * intros other Hne. unfold insert. cbn [rows]. rewrite filter_app. cbn [filter].
        unfold Notes.note_of at 2. cbn [snd note_item_id].
        destruct (Z.eqb_spec (fst row) other); [congruence|]. apply app_nil_r.
  - unfold Notes.add_note.
    destruct (fetchone (has_barcode barcode) (items db)) as [row|]; [|now repeat split].
    destruct (fetchone (Notes.note_of (fst row)) (notes db)); now repeat split.
Qed.

(** ** The item code registry *)

Section CodeRows.

Lemma fetchone_insert_miss {A} (hit : Z * A -> bool) (t : table A) a :
  fetchone hit t = None -> hit (next_rowid t, a) = false ->
  fetchone hit (insert t a) = None.
Proof.
  unfold fetchone, insert. cbn [rows]. intros Hn Hm.
  induction (rows t) as [|x l IH]; simpl in *; [now rewrite Hm|].
  destruct (hit x); [discriminate|now apply IH].
Qed.

Lemma code_update_keeps_key code code' name (x : Z * item_code) :
  Registry.has_code code'
    (if Registry.has_code code x then (fst x, Registry.with_name name (snd x)) else x) =
  Registry.has_code code' x.
Proof. now destruct (Registry.has_code code x). Qed.

Lemma get_item_name_fetch db code :
  get_item_name db code =
  match fetchone (Registry.has_code code) (item_codes db) with
  | Some r => ic_name (snd r)
  | None => "Unknown"
  end.
Proof. reflexivity. Qed.

(** The lookups after the [UPDATE] or [INSERT] of
    [add_or_update_item_code]. *)
Lemma get_item_name_after_write db code name :
  let t' :=
    match fetchone (Registry.has_code code) (item_codes db) with
    | Some _ => update_where (Registry.has_code code) (Registry.with_name name) (item_codes db)
    | None => insert (item_codes db) {| ic_code := code; ic_name := name |}
    end in
  get_item_name (Registry.set_item_codes db t') code = name /\
  forall other, other <> code ->
    get_item_name (Registry.set_item_codes db t') other = get_item_name db other.
Proof.
  intros t'. subst t'. rewrite !get_item_name_fetch.
  destruct (fetchone (Registry.has_code code) (item_codes db)) as [r|] eqn:Hf.
  - change (item_codes (Registry.set_item_codes db ?t)) with t. split.
    + unfold fetchone, update_where in *. cbn [rows].
      rewrite (find_map_keyed _ _ _ (code_update_keeps_key code code name)), Hf.
      cbn [option_map]. apply find_some in Hf as [_ Hf]. now rewrite Hf.
    + intros other Hne. rewrite !get_item_name_fetch.
      change (item_codes (Registry.set_item_codes db ?t)) with t.
      unfold fetchone, update_where. cbn [rows].
      rewrite (find_map_keyed _ _ _ (code_update_keeps_key code other name)).
      destruct (find (Registry.has_code other) (rows (item_codes db))) as [x|] eqn:Hx;
        [|reflexivity].
      cbn [option_map]. apply find_some in Hx as [_ Hx].
      destruct (Registry.has_code code x) eqn:E; [|reflexivity].
      unfold Registry.has_code in *. apply String.eqb_eq in Hx, E. congruence.
  - change (item_codes (Registry.set_item_codes db ?t)) with t. split.
    + rewrite (fetchone_insert_new _ _ _ Hf); [reflexivity|].
      unfold Registry.has_code. cbn [snd ic_code]. apply String.eqb_refl.
    + intros other Hne. rewrite !get_item_name_fetch.
      change (item_codes (Registry.set_item_codes db ?t)) with t.
      destruct (fetchone (Registry.has_code other) (item_codes db)) as [x|] eqn:Hx.
      * now rewrite (fetchone_insert_old _ _ _ Hx).
      * rewrite (fetchone_insert_miss _ _ _ Hx); [reflexivity|].
        unfold Registry.has_code. cbn [snd ic_code]. now apply String.eqb_neq.
Qed.

End CodeRows.

(** X9. [add_or_update_item_code] refuses an empty code or name and a
    code that is not alphanumeric, changing nothing.  Otherwise the code,
    in upper case, resolves to the new name afterwards, every other code
    resolves as before, and a barcode with that code decodes to the new
    name. *)
Theorem add_or_update_item_code_lookup (db : DB) (code_entry name_entry : string) :
  let code := upper (strip code_entry) in
  let name := strip name_entry in
  let result := Registry.add_or_update_item_code db code_entry name_entry in
  (fst result = Registry.BothFieldsRequired <-> code = "" \/ name = "") /\
  (fst result = Registry.CodeNotAlphanumeric <->
   code <> "" /\ name <> "" /\ isalnum code = false) /\
  (fst result = Registry.BothFieldsRequired \/ fst result = Registry.CodeNotAlphanumeric ->
   snd result = db) /\
  (fst result = Registry.CodeAdded \/ fst result = Registry.CodeUpdated ->
   get_item_name (snd result) code = name /\
   (forall other, other <> code ->
      get_item_name (snd result) other = get_item_name db other) /\
   (forall barcode is_batch p,
      parse_barcode (snd result) barcode is_batch = Parsed p ->
      nth 0 (split barcode) "" = code -> pd_item_type p = name)) /\
  items (snd result) = items db /\ locations (snd result) = locations db.
Proof.
  intros code name result. subst result. unfold Registry.add_or_update_item_code.
  fold code. fold name.
  destruct code as [|c0 l0] eqn:Hc.
  { cbn [fst snd]. split; [|split; [|split; [|split; [|split]]]].
    - split; [intros _; now left | reflexivity].
    - split; [discriminate | intros (H & _); congruence].
    - reflexivity.
    - intros [H|H]; discriminate.
    - reflexivity.
    - reflexivity. }
  destruct name as [|c1 l1] eqn:Hn.
  { cbn [fst snd]. split; [|split; [|split; [|split; [|split]]]].
    - split; [intros _; now right | reflexivity].
    - split; [discriminate | intros (_ & H & _); congruence].
    - reflexivity.
    - intros [H|H]; discriminate.
    - reflexivity.
    - reflexivity. }
  unfold Registry.is_alphanumeric.
  destruct (isalnum (String c0 l0)) eqn:Ha; cbn [negb].
  2:{ cbn [fst snd]. split; [|split; [|split; [|split; [|split]]]].
      - split; [discriminate | intros [H|H]; discriminate].
      - split; [intros _; repeat split; (discriminate || assumption) | reflexivity].
      - reflexivity.
      - intros [H|H]; discriminate.
      - reflexivity.
      - reflexivity. }
  pose proof (get_item_name_after_write db (String c0 l0) (String c1 l1)) as Hw.
  cbv zeta in Hw.
  destruct (fetchone (Registry.has_code (String c0 l0)) (item_codes db)) as [r|];
    cbn [fst snd]; destruct Hw as [Hw1 Hw2].
  all: split; [split; [discriminate | intros [H|H]; discriminate]|].
  all: split; [split; [discriminate | intros (_ & _ & H); discriminate]|].
  all: split; [intros [H|H]; discriminate|].
  all: split; [intros _|split; reflexivity].
  all: split; [exact Hw1|split; [exact Hw2|]].
  all: intros barcode is_batch p Hp H0;
       pose proof (parse_barcode_parsed_arity _ _ _ Hp) as Har;
       rewrite (@parse_barcode_arity_ok _ barcode is_batch Har) in Hp;
       destruct (int (year_field barcode)); [|discriminate];
       injection Hp as <-; cbn [pd_item_type]; rewrite H0; exact Hw1.
Qed.

Section RemoveRows.

Lemma fetchone_delete_same {A} (hit : Z * A -> bool) (t : table A) :
  fetchone hit (delete_where hit t) = None.
Proof.
  unfold fetchone, delete_where. cbn [rows].
  destruct (find hit _) as [x|] eqn:Hx; [|reflexivity].
  apply find_some in Hx as [Hin Hh]. apply filter_In in Hin as [_ Hn].
  rewrite Hh in Hn. discriminate.
Qed.

Lemma fetchone_delete_other {A} (hit doomed : Z * A -> bool) (t : table A) :
  (forall x, hit x = true -> doomed x = false) ->
  fetchone hit (delete_where doomed t) = fetchone hit t.
Proof.
  intros H. unfold fetchone, delete_where. cbn [rows].
  induction (rows t) as [|x l IH]; simpl; [reflexivity|].
  destruct (doomed x) eqn:Hd; simpl.
  - destruct (hit x) eqn:Hh; [|exact IH]. rewrite (H x Hh) in Hd. discriminate.
  - destruct (hit x); [reflexivity|exact IH].
Qed.

End RemoveRows.

(** X10. [remove_item_code] removes a code only while no item shows its
    name: a code whose name is on some item is kept and nothing changes.
    After a removal the code resolves to "Unknown", every other code
    resolves as before, and the item table is never touched. *)
Theorem remove_item_code_guard (db : DB) (code_entry : string) :
  let code := upper (strip code_entry) in
  let result := Registry.remove_item_code db code_entry in
  (forall c, fst result = Registry.CodeRemoved c ->
     c = code /\
     get_item_name (snd result) code = "Unknown" /\
     (forall other, other <> code ->
        get_item_name (snd result) other = get_item_name db other) /\
     (forall r, In r (rows (items db)) -> item_type (snd r) <> get_item_name db code)) /\
  (forall c n, fst result = Registry.CodeInUse c n ->
     snd result = db /\ n <> 0%nat /\
     n = count_where (Registry.has_item_type (get_item_name db code)) (items db)) /\
  (fst result = Registry.NoCodeProvided \/ fst result = Registry.CodeNotFound ->
   snd result = db) /\
  (fst result = Registry.CodeNotFound -> get_item_name db code = "Unknown") /\
  items (snd result) = items db.
Proof.
  intros code result. subst result. unfold Registry.remove_item_code. fold code.
  destruct code as [|c0 l0] eqn:Hc.
  { cbn [fst snd]. split; [intros; discriminate|]. split; [intros; discriminate|].
    split; [reflexivity|]. split; [discriminate|reflexivity]. }
  rewrite (get_item_name_fetch db (String c0 l0)).
  destruct (fetchone (Registry.has_code (String c0 l0)) (item_codes db)) as [r|] eqn:Hf.
  2:{ cbn [fst snd]. split; [intros; discriminate|]. split; [intros; discriminate|].
      split; [reflexivity|]. split; reflexivity. }
  destruct (Nat.ltb_spec 0 (count_where (Registry.has_item_type (ic_name (snd r)))
                              (items db))) as [Hpos|Hzero]; cbn [fst snd].
  - split; [intros; discriminate|]. split.
    + intros c n [= <- <-]. repeat split. lia.
    + split; [intros [H|H]; discriminate|]. split; [discriminate|reflexivity].
  - split.
    + intros c [= <-]. split; [reflexivity|]. rewrite !get_item_name_fetch.
      change (item_codes (Registry.set_item_codes db ?t)) with t.
      split; [now rewrite fetchone_delete_same|]. split.
      * intros other Hne. rewrite !get_item_name_fetch.
        change (item_codes (Registry.set_item_codes db ?t)) with t.
        rewrite fetchone_delete_other; [reflexivity|].
        intros x Hx. unfold Registry.has_code in *. apply String.eqb_eq in Hx.
        apply String.eqb_neq. congruence.
      * intros x Hx E.
        assert (Hz : count_where (Registry.has_item_type (ic_name (snd r))) (items db)
                     = 0%nat) by lia.
        unfold count_where in Hz. apply length_zero_iff_nil in Hz.
        assert (Hin : In x (filter (Registry.has_item_type (ic_name (snd r)))
                              (rows (items db)))).
        { apply filter_In. split; [exact Hx|]. unfold Registry.has_item_type.
          now apply String.eqb_eq. }
        rewrite Hz in Hin. destruct Hin.
    + split; [intros; discriminate|].
      split; [intros [H|H]; discriminate|]. split; [discriminate|reflexivity].
Qed.

(** ** Locations and their assignments *)

Section AssignmentRows.

Lemma assignments_registered_same db db' :
  item_locations db' = item_locations db -> locations db' = locations db ->
  assignments_registered db -> assignments_registered db'.
Proof. unfold assignments_registered. now intros -> ->. Qed.

(** Appending an assignment to a registered location. *)
Lemma assignments_registered_assign db db' target item_id now result :
  fetchone (Registry.has_location target) (locations db) = Some result ->
  locations db' = locations db ->
  rows (item_locations db') =
    (rows (item_locations db) ++
     [(next_rowid (item_locations db),
       {| il_item_id := item_id; il_location_barcode := target; il_timestamp := now |})])%list ->
  assignments_registered db -> assignments_registered db'.
Proof.
  unfold assignments_registered. intros Hf Hl Hr H r Hin.
  rewrite Hl. rewrite Hr in Hin. apply in_app_or in Hin as [Hin|[<-|[]]]; [now apply H|].
  apply find_some in Hf as [Hin Hb]. exists result. split; [exact Hin|].
  now apply String.eqb_eq in Hb.
Qed.

Lemma move_item_scan_assignment db target b now :
  locations (snd (move_item_scan db target b now)) = locations db /\
  (item_locations (snd (move_item_scan db target b now)) = item_locations db \/
   exists item_id,
     rows (item_locations (snd (move_item_scan db target b now))) =
     (rows (item_locations db) ++
      [(next_rowid (item_locations db),
        {| il_item_id := item_id; il_location_barcode := target;
           il_timestamp := now |})])%list).
Proof.
  unfold move_item_scan.
  destruct (parse_barcode db b false); try (split; [reflexivity|now left]).
  destruct (fetchone (has_barcode b) (items db)) as [row|].
  - destruct (String.eqb _ "OUT"); cbn [snd]; (split; [reflexivity|right; eexists; reflexivity]).
  - destruct (Nat.ltb _ 5); [split; [reflexivity|now left]|].
    destruct (insert_item _ _) as [e|t']; [split; [reflexivity|now left]|].
    cbn [items set_items]. destruct (fetchone (has_barcode b) t');
      cbn [snd]; [split; [reflexivity|right; eexists; reflexivity]|split; [reflexivity|now left]].
Qed.

Lemma assignments_registered_move_item_scan db target b now result :
  fetchone (Registry.has_location target) (locations db) = Some result ->
  assignments_registered db ->
  assignments_registered (snd (move_item_scan db target b now)).
Proof.
  intros Hf H. destruct (move_item_scan_assignment db target b now) as [Hl [Hsame|[id Hr]]].
  - now apply (@assignments_registered_same db).
  - now apply (@assignments_registered_assign db _ target id now result).
Qed.

Lemma assignments_registered_move_item_loop target entries : forall db result,
  fetchone (Registry.has_location target) (locations db) = Some result ->
  assignments_registered db ->
  assignments_registered (snd (Session.move_item_loop db target entries)).
Proof.
  induction entries as [|[entry now] rest IH]; intros db result Hf H;
    cbn [Session.move_item_loop]; [exact H|].
  destruct (String.eqb _ "finish"); [exact H|].
  pose proof (@assignments_registered_move_item_scan db target (strip entry) now result Hf H)
    as H1.
  destruct (move_item_scan_assignment db target (strip entry) now) as [Hl _].
  destruct (move_item_scan _ _ _ _) as [report db1]. cbn [snd] in *.
  rewrite <- Hl in Hf. specialize (IH db1 result Hf H1).
  destruct (Session.move_item_loop db1 target rest) as [reports db2]. exact IH.
Qed.

Lemma create_batch_items_assignments plan now count : forall i db db',
  create_batch_items plan now count i db = inr db' ->
  locations db' = locations db /\
  forall r, In r (rows (item_locations db')) ->
            In r (rows (item_locations db)) \/
            il_location_barcode (snd r) = bp_location_barcode plan.
Proof.
  induction count as [|c IH]; intros i db db'; cbn [create_batch_items].
  - intros [= <-]. split; [reflexivity|]. intros r Hr. now left.
  - destruct (str_fits i); cbn [negb]; [|discriminate].
    destruct (insert_item _ _) as [e|t']; [discriminate|]. intros Hrun.
    apply IH in Hrun as [Hl Hr]. split; [exact Hl|]. intros r Hin.
    destruct (Hr r Hin) as [Hold|Hnew]; [|now right].
    cbn [item_locations set_item_scans set_item_locations insert rows] in Hold.
    apply in_app_or in Hold as [Hold|[<-|[]]]; [now left|now right].
Qed.

End AssignmentRows.

Section AssignmentsKept.

Lemma create_batch_prepare_location db location_entry barcode_entry plan :
  create_batch_prepare db location_entry barcode_entry = inr plan ->
  exists result,
    fetchone (Registry.has_location (bp_location_barcode plan)) (locations db) = Some result.
Proof.
  unfold create_batch_prepare.
  destruct (upper (strip location_entry)) as [|c l]; [discriminate|].
  destruct (fetchone _ (locations db)) as [result|] eqn:Hf; [|discriminate].
  destruct (parse_barcode db (strip barcode_entry) false) as [p| | |]; try discriminate.
  destruct (Nat.eqb _ 6); [intros [= <-]; now exists result|].
  destruct (Nat.eqb _ 5); [intros [= <-]; now exists result|discriminate].
Qed.

Lemma assignments_registered_create_batch db location_entry barcode_entry quantity_entry now :
  assignments_registered db ->
  assignments_registered
    (snd (create_batch db location_entry barcode_entry quantity_entry now)).
Proof.
  intros H. unfold create_batch.
  destruct (create_batch_prepare _ _ _) as [report|plan] eqn:Hplan; [exact H|].
  destruct (create_batch_prepare_location _ _ _ Hplan) as [result Hf].
  unfold create_batch_commit.
  destruct (str_fits (bp_start_num plan)); cbn [negb]; [|exact H].
  destruct (int quantity_entry) as [q|]; [|exact H].
  destruct (q <=? 0); [exact H|].
  destruct (sqlite_max_int <? q); [exact H|].
  destruct (create_batch_items _ _ _ _ _) as [e|db2] eqn:E; [exact H|].
  cbn [snd]. apply create_batch_items_assignments in E as [Hl Hr].
  intros r Hin. rewrite Hl. cbn [locations set_batch_scans].
  destruct (Hr r Hin) as [Hold|Hnew].
  - now apply H.
  - apply find_some in Hf as [Hin' Hb]. exists result. split; [exact Hin'|].
    apply String.eqb_eq in Hb. congruence.
Qed.

Lemma assignments_registered_purge db confirm_entry :
  assignments_registered db ->
  assignments_registered (snd (delete_all_out_items db confirm_entry)).
Proof.
  intros H. unfold delete_all_out_items.
  destruct (negb _); [exact H|]. destruct (Nat.eqb _ 0); [exact H|].
  cbn [snd]. intros r Hin. cbn [item_locations locations delete_where rows] in *.
  apply filter_In in Hin as [Hin _]. now apply H.
Qed.

Lemma assignments_registered_register db b n :
  assignments_registered db -> assignments_registered (snd (register_location db b n)).
Proof.
  intros H. unfold register_location.
  destruct (to_upper_alphanumeric b) as [|c l] eqn:Hb; [exact H|].
  destruct (strip n); [exact H|]. cbn [snd]. intros r Hin.
  destruct (H r Hin) as (loc & Hloc & E).
  cbn [locations set_locations replace_location insert delete_where rows barcode].
  destruct (String.eqb_spec (barcode (snd loc)) (String c l)) as [Heq|Hne].
  - eexists. split; [apply in_or_app; right; left; reflexivity|].
    cbn [snd barcode]. congruence.
  - exists loc. split; [|exact E]. apply in_or_app. left. apply filter_In.
    split; [exact Hloc|]. apply negb_true_iff. now apply String.eqb_neq.
Qed.

Lemma assignments_registered_remove db entry :
  assignments_registered db ->
  assignments_registered (snd (Registry.remove_location db entry)).
Proof.
  intros H. unfold Registry.remove_location.
  destruct (upper (strip entry)) as [|c l]; [exact H|].
  destruct (fetchone _ (locations db)); [|exact H].
  destruct (Nat.ltb_spec 0 (count_where (Registry.assigned_to (String c l))
                              (item_locations db))) as [Hpos|Hzero]; [exact H|].
  cbn [snd]. intros r Hin. cbn [item_locations set_locations] in Hin.
  destruct (H r Hin) as (loc & Hloc & E). exists loc. split; [|exact E].
  cbn [locations set_locations delete_where rows]. apply filter_In. split; [exact Hloc|].
  apply negb_true_iff. unfold Registry.has_location. apply String.eqb_neq. intros Heq.
  assert (Hz : count_where (Registry.assigned_to (String c l)) (item_locations db) = 0%nat)
    by lia.
  unfold count_where in Hz. apply length_zero_iff_nil in Hz.
  assert (Hr : In r (filter (Registry.assigned_to (String c l)) (rows (item_locations db)))).
  { apply filter_In. split; [exact Hin|]. unfold Registry.assigned_to.
    apply String.eqb_eq. congruence. }
  rewrite Hz in Hr. destruct Hr.
Qed.

Lemma assignments_registered_move_item_session db target_entry entries :
  assignments_registered db ->
  assignments_registered (snd (Session.move_item_session db target_entry entries)).
Proof.
  intros H. unfold Session.move_item_session.
  destruct (upper (strip target_entry)) as [|c l]; [exact H|].
  destruct (looks_like_item_barcode _); [exact H|].
  destruct (fetchone _ (locations db)) as [result|] eqn:Hf; [|exact H].
  pose proof (@assignments_registered_move_item_loop (String c l) entries db result Hf H)
    as H1.
  destruct (Session.move_item_loop _ _ _). exact H1.
Qed.

End AssignmentsKept.

(** X11. [remove_location] removes a location only while no assignment
    names it: a location with assignments is kept and nothing changes.
    After a removal the barcode is no longer registered, the other
    locations are as before, and no assignment named it. *)
Theorem remove_location_guard (db : DB) (barcode_entry : string) :
  let b := upper (strip barcode_entry) in
  let result := Registry.remove_location db barcode_entry in
  (forall name, fst result = Registry.LocationRemoved name ->
     fetchone (Registry.has_location b) (locations (snd result)) = None /\
     (forall other, other <> b ->
        fetchone (Registry.has_location other) (locations (snd result)) =
        fetchone (Registry.has_location other) (locations db)) /\
     (forall r, In r (rows (item_locations db)) -> il_location_barcode (snd r) <> b)) /\
  (forall name n, fst result = Registry.LocationInUse name n ->
     snd result = db /\ n <> 0%nat /\
     n = count_where (Registry.assigned_to b) (item_locations db)) /\
  (fst result = Registry.NoBarcodeProvided \/ fst result = Registry.LocationNotFound ->
   snd result = db) /\
  item_locations (snd result) = item_locations db /\ items (snd result) = items db.
Proof.
  intros b result. subst result. unfold Registry.remove_location. fold b.
  destruct b as [|c0 l0] eqn:Hb.
  { cbn [fst snd]. split; [intros; discriminate|]. split; [intros; discriminate|].
    split; [reflexivity|]. split; reflexivity. }
  destruct (fetchone (Registry.has_location (String c0 l0)) (locations db)) as [r|] eqn:Hf.
  2:{ cbn [fst snd]. split; [intros; discriminate|]. split; [intros; discriminate|].
      split; [reflexivity|]. split; reflexivity. }
  destruct (Nat.ltb_spec 0 (count_where (Registry.assigned_to (String c0 l0))
                              (item_locations db))) as [Hpos|Hzero]; cbn [fst snd].
  - split; [intros; discriminate|]. split.
    + intros name n [= <- <-]. repeat split. lia.
    + split; [reflexivity|]. split; reflexivity.
  - split.
    + intros name _. change (locations (set_locations db ?t)) with t.
      split; [apply fetchone_delete_same|]. split.
      * intros other Hne. apply fetchone_delete_other.
        intros x Hx. unfold Registry.has_location in *. apply String.eqb_eq in Hx.
        apply String.eqb_neq. congruence.
      * intros x Hx E.
        assert (Hz : count_where (Registry.assigned_to (String c0 l0)) (item_locations db)
                     = 0%nat) by lia.
        unfold count_where in Hz. apply length_zero_iff_nil in Hz.
        assert (Hin : In x (filter (Registry.assigned_to (String c0 l0))
                              (rows (item_locations db)))).
        { apply filter_In. split; [exact Hx|]. unfold Registry.assigned_to.
          now apply String.eqb_eq. }
        rewrite Hz in Hin. destruct Hin.
    + split; [intros; discriminate|]. split; [intros [H|H]; discriminate|].
      split; reflexivity.
Qed.

(** X12. Once every location assignment names a registered location,
    it stays so: registering and removing locations, a move session, a
    batch creation and the purge never leave an assignment that names an
    unregistered location. *)
Theorem assignments_registered_preserved (db : DB) :
  assignments_registered db ->
  (forall b n, assignments_registered (snd (register_location db b n))) /\
  (forall entry, assignments_registered (snd (Registry.remove_location db entry))) /\
  (forall target entries,
     assignments_registered (snd (Session.move_item_session db target entries))) /\
  (forall l b q now, assignments_registered (snd (create_batch db l b q now))) /\
  (forall confirm, assignments_registered (snd (delete_all_out_items db confirm))).
Proof.
  intros H. repeat split; intros.
  all: first [ now apply assignments_registered_register
             | now apply assignments_registered_remove
             | now apply assignments_registered_move_item_session
             | now apply assignments_registered_create_batch
             | now apply assignments_registered_purge ].
Qed.

Section SessionRegistration.

Lemma upper_char_idempotent c : upper_char (upper_char c) = upper_char c.
Proof. destruct c as [[] [] [] [] [] [] [] []]; vm_compute; reflexivity. Qed.

Lemma upper_idempotent s : upper (upper s) = upper s.
Proof.
  unfold upper. induction s as [|c r IH]; simpl; [reflexivity|].
  now rewrite upper_char_idempotent, IH.
Qed.

Lemma lstrip_head s :
  lstrip s = "" \/ exists c r, lstrip s = String c r /\ is_space_char c = false.
Proof.
  induction s as [|c r IH]; simpl; [now left|].
  destruct (is_space_char c) eqn:E; [exact IH|]. right. now exists c, r.
Qed.

(** A stripped text is empty or has a character that is not whitespace. *)
Lemma strip_strip_empty s : strip (strip s) = "" -> strip s = "".
Proof.
  intros H. apply strip_empty in H. unfold strip, rev in *.
  rewrite all_chars_rev_onto in H. apply andb_prop in H as [H _].
  destruct (lstrip_head (rev_onto (lstrip s) "")) as [E|(c & r & E & Hc)].
  - now rewrite E.
  - rewrite E in H. simpl in H. rewrite Hc in H. discriminate.
Qed.

Lemma replace_location_lookup t r :
  fetchone (is_location (barcode r)) (replace_location t r) =
  Some (next_rowid (delete_where (is_location (barcode r)) t), r).
Proof.
  unfold fetchone, replace_location, insert. cbn [rows].
  apply find_app_none.
  - intros y Hy. apply filter_In in Hy as [_ Hy]. now apply negb_true_iff.
  - apply String.eqb_refl.
Qed.

End SessionRegistration.

(** X13. [register_location_session] registers a location under the
    text typed, stripped and in upper case, exactly as it is: such a
    barcode is alphanumeric, so the normalization of [register_location]
    leaves it alone and a later lookup of the same text finds it.  The
    session refuses an empty barcode or name and a barcode that is not
    alphanumeric, and the registration it starts never fails. *)
Theorem register_location_session_registers (db : DB) (barcode_entry name_entry : string) :
  let b := upper (strip barcode_entry) in
  let n := strip name_entry in
  let result := Registry.register_location_session db barcode_entry name_entry in
  (fst result = Registry.InvalidInput <-> b = "" \/ n = "") /\
  (fst result = Registry.BarcodeNotAlphanumeric <->
   b <> "" /\ n <> "" /\ isalnum b = false) /\
  fst result <> Registry.RegistrationError /\
  (fst result = Registry.InvalidInput \/ fst result = Registry.BarcodeNotAlphanumeric ->
   snd result = db) /\
  (forall name, fst result = Registry.LocationRegistered name ->
     name = n /\ to_upper_alphanumeric b = b /\
     looks_like_item_barcode b = false /\
     exists id,
       fetchone (Registry.has_location b) (locations (snd result)) =
       Some (id, {| barcode := b; location_name := n |})).
Proof.
  intros b n result. subst result. unfold Registry.register_location_session.
  fold b. fold n.
  destruct b as [|c0 l0] eqn:Hb.
  { cbn [fst snd]. split; [|split; [|split; [|split]]].
    - split; [intros _; now left | reflexivity].
    - split; [discriminate | intros (H & _); congruence].
    - discriminate.
    - reflexivity.
    - intros; discriminate. }
  destruct n as [|c1 l1] eqn:Hn.
  { cbn [fst snd]. split; [|split; [|split; [|split]]].
    - split; [intros _; now right | reflexivity].
    - split; [discriminate | intros (_ & H & _); congruence].
    - discriminate.
    - reflexivity.
    - intros; discriminate. }
  unfold Registry.is_alphanumeric.
  destruct (isalnum (String c0 l0)) eqn:Ha; cbn [negb].
  2:{ cbn [fst snd]. split; [|split; [|split; [|split]]].
      - split; [discriminate | intros [H|H]; discriminate].
      - split; [intros _; repeat split; (discriminate || assumption) | reflexivity].
      - discriminate.
      - reflexivity.
      - intros; discriminate. }
  assert (Hnorm : to_upper_alphanumeric (String c0 l0) = String c0 l0).
  { unfold to_upper_alphanumeric. rewrite filter_chars_all by exact Ha.
    rewrite <- Hb. unfold b. apply upper_idempotent. }
  assert (Hname : strip (String c1 l1) <> "").
  { rewrite <- Hn. unfold n. intros H. apply strip_strip_empty in H.
    fold n in H. congruence. }
  rewrite (@register_location_accepted db (String c0 l0) (String c1 l1)) by
    (rewrite ?Hnorm; (discriminate || assumption)).
  rewrite Hnorm. cbn [fst snd]. split; [|split; [|split; [|split]]].
  - split; [discriminate | intros [H|H]; discriminate].
  - split; [discriminate | intros (_ & _ & H); congruence].
  - discriminate.
  - intros [H|H]; discriminate.
  - intros name [= <-]. split; [reflexivity|]. split; [reflexivity|]. split.
    + apply looks_like_item_barcode_plain. unfold no_us.
      assert (Hal : all_chars is_alnum_char (String c0 l0) = true) by exact Ha.
      revert Hal. apply all_chars_weaken. intros c H. now rewrite (alnum_not_us c H).
    + eexists. change (locations (set_locations db ?t)) with t.
      exact (replace_location_lookup (locations db)
               {| barcode := String c0 l0; location_name := String c1 l1 |}).
Qed.

(** ** Scanning loops *)

Section LogScan.

Lemma log_scan_loop_result store db p status now max_retries retry_delay remaining :
  forall retries,
    let result :=
      log_scan_loop store db p status now max_retries retry_delay remaining retries in
    (fst (fst result) = true -> snd (fst result) = logged db p status now) /\
    (fst (fst result) = false -> snd (fst result) = db).
Proof.
  induction remaining as [|m IH]; intros k; cbn [log_scan_loop].
  - cbn [fst snd]. split; [discriminate|reflexivity].
  - destruct (store k) as [e|]; [|cbn [fst snd]; split; [reflexivity|discriminate]].
    destruct (lock_busy e); [|cbn [fst snd]; split; [discriminate|reflexivity]].
    specialize (IH (S k)). cbv zeta in IH.
    destruct (log_scan_loop _ _ _ _ _ _ _ _ _) as [[r d] evs]. exact IH.
Qed.

(** [log_scan] either appends the one scan or leaves the store alone. *)
Lemma log_scan_result store db p status now max_retries retry_delay :
  let result := log_scan store db p status now max_retries retry_delay in
  (fst (fst result) = true -> snd (fst result) = logged db p status now) /\
  (fst (fst result) = false -> snd (fst result) = db).
Proof. apply log_scan_loop_result. Qed.

End LogScan.

Section StatusLookups.

Lemma status_of_insert db r b :
  fetchone (has_barcode (full_barcode r)) (items db) = None ->
  status_of (set_items db (insert (items db) r)) b =
  if String.eqb b (full_barcode r) then Some (current_status r) else status_of db b.
Proof.
  intros Hn. unfold status_of. change (items (set_items db ?t)) with t.
  destruct (String.eqb_spec b (full_barcode r)) as [->|Hne].
  - rewrite (fetchone_insert_new _ _ _ Hn); [reflexivity|].
    unfold has_barcode. cbn [snd]. apply String.eqb_refl.
  - destruct (fetchone (has_barcode b) (items db)) as [x|] eqn:Hx.
    + now rewrite (fetchone_insert_old _ _ _ Hx).
    + rewrite (fetchone_insert_miss _ _ _ Hx); [reflexivity|].
      unfold has_barcode. cbn [snd]. apply String.eqb_neq. congruence.
Qed.

(** The lookups after [UPDATE items SET current_status = s WHERE id = ?]
    for the rowid of the row that carries [barcode]. *)
Lemma status_of_update_rowid db barcode row s :
  fetchone (has_barcode barcode) (items db) = Some row ->
  status_of (set_items db (update_where (has_rowid (fst row)) (set_status s) (items db)))
            barcode = Some s /\
  (primary_key (items db) ->
   forall other, other <> barcode ->
     status_of (set_items db (update_where (has_rowid (fst row)) (set_status s) (items db)))
               other = status_of db other).
Proof.
  intros Hf. unfold status_of. change (items (set_items db ?t)) with t.
  unfold fetchone, update_where in *. cbn [rows]. split.
  - rewrite (find_map_keyed _ _ _ (status_update_keeps_barcode (has_rowid (fst row)) s barcode)).
    rewrite Hf. cbn [option_map]. unfold has_rowid. now rewrite Z.eqb_refl.
  - intros Hk other Hne.
    rewrite (find_map_keyed _ _ _ (status_update_keeps_barcode (has_rowid (fst row)) s other)).
    destruct (find (has_barcode other) (rows (items db))) as [x|] eqn:Hx; [|reflexivity].
    cbn [option_map]. destruct (has_rowid (fst row) x) eqn:E; [|reflexivity].
    apply find_some in Hx as [Hin Hb]. apply find_some in Hf as [Hin' Hb'].
    unfold has_rowid in E. apply Z.eqb_eq in E.
    assert (x = row) by (apply (NoDup_map_injective fst (rows (items db))); assumption).
    subst x. unfold has_barcode in *. apply String.eqb_eq in Hb, Hb'. congruence.
Qed.

Lemma fetchone_update_rowid (t : table item) barcode row s :
  fetchone (has_barcode barcode) t = Some row ->
  fetchone (has_barcode barcode) (update_where (has_rowid (fst row)) (set_status s) t) =
  Some (fst row, set_status s (snd row)).
Proof.
  intros Hf. unfold fetchone, update_where in *. cbn [rows].
  rewrite (find_map_keyed _ _ _ (status_update_keeps_barcode (has_rowid (fst row)) s barcode)).
  rewrite Hf. cbn [option_map]. unfold has_rowid. now rewrite Z.eqb_refl.
Qed.

End StatusLookups.

(** X14. Moving any item whose barcode decodes leaves it in stock at
    the target: an unseen barcode is created with status IN, an OUT item
    becomes IN, any other status is kept; exactly one assignment, for the
    row that carries the barcode, and one IN scan are appended; and under
    the primary key no other barcode changes status. *)
Theorem move_item_scan_outcome
    (db : DB) (target_location barcode : string) (now : Z) (p : parsed) :
  parse_barcode db barcode false = Parsed p ->
  let result := move_item_scan db target_location barcode now in
  let db' := snd result in
  fst result =
    ItemMoved (match status_of db barcode with None => true | Some _ => false end)
              (match status_of db barcode with
               | Some s => String.eqb s "OUT"
               | None => false
               end) /\
  status_of db' barcode =
    Some (match status_of db barcode with
          | Some s => if String.eqb s "OUT" then "IN" else s
          | None => "IN"
          end) /\
  (primary_key (items db) ->
   forall other, other <> barcode -> status_of db' other = status_of db other) /\
  (exists row,
     fetchone (has_barcode barcode) (items db') = Some row /\
     rows (item_locations db') =
     (rows (item_locations db) ++
      [(next_rowid (item_locations db),
        {| il_item_id := fst row; il_location_barcode := target_location;
           il_timestamp := now |})])%list) /\
  rows (item_scans db') =
    (rows (item_scans db) ++
     [(next_rowid (item_scans db),
       {| scan_barcode := barcode; scan_item_type := pd_item_type p;
          scan_generation := pd_generation p; scan_created_date := pd_created_date p;
          scan_time := now; scan_status := "IN" |})])%list /\
  notes db' = notes db /\ locations db' = locations db /\
  batch_scans db' = batch_scans db /\ item_codes db' = item_codes db.
Proof.
  intros Hp result db'. subst db' result. unfold move_item_scan. rewrite Hp.
  pose proof (arity_ok_at_least_5 _ _ (parse_barcode_parsed_arity _ _ _ Hp)) as H5.
  unfold status_of at 1 2 4.
  destruct (fetchone (has_barcode barcode) (items db)) as [row|] eqn:Hf; cbn [option_map].
  - destruct (String.eqb (current_status (snd row)) "OUT") eqn:Hs; cbn [fst snd].
    + destruct (status_of_update_rowid db barcode "IN" Hf) as [Hst Hother].
      split; [reflexivity|]. split; [exact Hst|]. split; [exact Hother|]. split.
      * exists (fst row, set_status "IN" (snd row)). split; [|reflexivity].
        cbn [items set_item_scans set_item_locations set_items].
        now apply fetchone_update_rowid.
      * repeat split.
    + split; [reflexivity|]. split.
      { unfold status_of. cbn [items set_item_scans set_item_locations]. now rewrite Hf. }
      split; [reflexivity|]. split; [|repeat split].
      exists row. split; [exact Hf|reflexivity].
  - apply Nat.ltb_ge in H5. unfold field_count in H5. rewrite H5.
    unfold insert_item. cbn [full_barcode]. rewrite Hf.
    set (new := {| full_barcode := barcode;
                   batch_barcode := join (firstn 5 (split barcode));
                   item_type := pd_item_type p; generation := pd_generation p;
                   created_date := pd_created_date p; current_status := "IN" |}).
    assert (Hnew : fetchone (has_barcode barcode) (items (set_items db (insert (items db) new)))
                   = Some (next_rowid (items db), new)).
    { apply fetchone_insert_new; [exact Hf|]. apply String.eqb_refl. }
    rewrite Hnew. cbn [fst snd].
    split; [reflexivity|]. split; [|split; [|split; [|repeat split]]].
    + change (status_of (set_items db (insert (items db) new)) barcode = Some "IN").
      rewrite (status_of_insert db new barcode Hf). cbn [full_barcode new].
      now rewrite String.eqb_refl.
    + intros _ other Hne.
      change (status_of (set_items db (insert (items db) new)) other = status_of db other).
      rewrite (status_of_insert db new other Hf). cbn [full_barcode new].
      apply String.eqb_neq in Hne. now rewrite Hne.
    + exists (next_rowid (items db), new). split; [exact Hnew|reflexivity].
Qed.

Section CheckOut.

Variable store : nat -> option exn.
Variable db : DB.
Variable barcode : string.
Variable now : Z.
Variable p : parsed.
Hypothesis Hp : parse_barcode db barcode false = Parsed p.

Lemma check_out_ensured :
  ensure_item_exists db barcode (pd_item_type p) (pd_generation p) (pd_created_date p) =
    (true, (ensured db barcode p)) /\
  (exists s, status_of (ensured db barcode p) barcode = Some s) /\
  (forall other, other <> barcode -> status_of (ensured db barcode p) other = status_of db other) /\
  item_scans (ensured db barcode p) = item_scans db /\ item_locations (ensured db barcode p) = item_locations db /\
  notes (ensured db barcode p) = notes db /\ locations (ensured db barcode p) = locations db.
Proof.
  pose proof (arity_ok_at_least_5 _ _ (parse_barcode_parsed_arity _ _ _ Hp)) as H5.
  unfold ensured.
  destruct (fetchone (has_barcode barcode) (items db)) as [row|] eqn:Hf.
  - rewrite (@ensure_item_exists_present db barcode _ _ _ row Hf). cbn [snd].
    split; [reflexivity|]. split; [|repeat split].
    unfold status_of. rewrite Hf. now eexists.
  - rewrite (@ensure_item_exists_absent db barcode _ _ _ H5 Hf). cbn [snd].
    split; [reflexivity|]. split; [|split; [|repeat split]].
    + rewrite (@status_of_insert db (fresh_item barcode (pd_item_type p) (pd_generation p)
                                     (pd_created_date p)) barcode Hf). cbn [full_barcode fresh_item].
      rewrite String.eqb_refl. now eexists.
    + intros other Hne. rewrite (@status_of_insert db (fresh_item barcode (pd_item_type p) (pd_generation p)
                                     (pd_created_date p)) other Hf).
      cbn [full_barcode fresh_item]. apply String.eqb_neq in Hne. now rewrite Hne.
Qed.

Lemma check_out_marked :
  update_item_status (ensured db barcode p) barcode "OUT" = (true, (marked_out db barcode p)) /\
  status_of (marked_out db barcode p) barcode = Some "OUT" /\
  (forall other, other <> barcode -> status_of (marked_out db barcode p) other = status_of db other) /\
  (forall r, In r (rows (items (marked_out db barcode p))) -> has_barcode barcode r = true ->
             current_status (snd r) = "OUT") /\
  item_scans (marked_out db barcode p) = item_scans db /\ item_locations (marked_out db barcode p) = item_locations db /\
  notes (marked_out db barcode p) = notes db /\ locations (marked_out db barcode p) = locations db.
Proof.
  destruct check_out_ensured as (_ & [s Hs] & Hother & Hsc & Hil & Hn & Hl).
  unfold marked_out. split; [|split; [|split; [|split]]].
  - unfold update_item_status. f_equal. cbn [snd].
    apply negb_true_iff, Nat.eqb_neq. rewrite count_where_zero.
    unfold status_of in Hs. destruct (fetchone _ (items (ensured db barcode p))); discriminate.
  - rewrite status_of_update_item_status, String.eqb_refl, Hs. reflexivity.
  - intros other Hne. rewrite status_of_update_item_status.
    apply String.eqb_neq in Hne. rewrite Hne. apply String.eqb_neq in Hne. now apply Hother.
  - intros r Hr Hb. rewrite update_item_status_rows in Hr.
    apply in_map_iff in Hr as (x & <- & Hx).
    destruct (has_barcode barcode x) eqn:E; [reflexivity|]. congruence.
  - unfold update_item_status. cbn [snd]. now repeat split.
Qed.

Lemma check_out_scan_unfold :
  Session.check_out_scan store db barcode now =
  let '(saved, db3, events) :=
    log_scan store (marked_out db barcode p) p "OUT" now default_max_retries default_retry_delay in
  (if saved then Session.ScanSaved true else Session.ScanNotSaved true, db3, events).
Proof.
  unfold Session.check_out_scan. rewrite Hp.
  destruct check_out_ensured as (-> & _). cbn [negb].
  destruct check_out_marked as (-> & _). reflexivity.
Qed.

End CheckOut.

(** X15. A check-out of a barcode that decodes always leaves the item
    with status OUT, created first if it was unseen, and leaves the
    status of every other barcode alone, whatever happens to the scan
    log: the OUT scan is appended when [log_scan] gets through and is
    missing when it gives up, the status being OUT in both cases. *)
Theorem check_out_scan_outcome
    (store : nat -> option exn) (db : DB) (barcode : string) (now : Z) (p : parsed) :
  parse_barcode db barcode false = Parsed p ->
  let result := Session.check_out_scan store db barcode now in
  let db' := snd (fst result) in
  status_of db' barcode = Some "OUT" /\
  (forall other, other <> barcode -> status_of db' other = status_of db other) /\
  (exists saved : bool,
     fst (fst result) = (if saved then Session.ScanSaved true else Session.ScanNotSaved true) /\
     rows (item_scans db') =
     if saved then
       (rows (item_scans db) ++
        [(next_rowid (item_scans db), scan_of p "OUT" now)])%list
     else rows (item_scans db)) /\
  (store 0%nat = None -> fst (fst result) = Session.ScanSaved true) /\
  item_locations db' = item_locations db /\ notes db' = notes db /\
  locations db' = locations db.
Proof.
  intros Hp result db'. subst db' result.
  rewrite (@check_out_scan_unfold store db barcode now p Hp).
  destruct (@check_out_marked db barcode p Hp)
    as (_ & Hst & Hother & _ & Hsc & Hil & Hn & Hl).
  pose proof (log_scan_result store (marked_out db barcode p) p "OUT" now
                default_max_retries default_retry_delay) as Hlog.
  cbv zeta in Hlog.
  assert (Hquiet : store 0%nat = None ->
                   fst (fst (log_scan store (marked_out db barcode p) p "OUT" now
                               default_max_retries default_retry_delay)) = true).
  { intros H0. unfold log_scan, default_max_retries. cbn [log_scan_loop]. now rewrite H0. }
  destruct (log_scan store _ p "OUT" now _ _) as [[saved db3] events].
  cbn [fst snd] in *. destruct Hlog as [Hyes Hno].
  destruct saved.
  - rewrite (Hyes eq_refl). unfold logged.
    split; [exact Hst|]. split; [exact Hother|]. split.
    + exists true. split; [reflexivity|].
      cbn [item_scans set_item_scans insert rows]. now rewrite Hsc.
    + split; [reflexivity|]. now repeat split.
  - rewrite (Hno eq_refl).
    split; [exact Hst|]. split; [exact Hother|]. split.
    + exists false. split; [reflexivity|]. now rewrite Hsc.
    + split; [intros H0; specialize (Hquiet H0); discriminate|]. now repeat split.
Qed.

(** X16. A check-out followed by the purge erases the item: the purge
    deletes at least one item, the barcode is unknown afterwards, no scan
    carries it any more (not even the one the check-out logged) and it
    has no note. *)
Theorem check_out_then_purge
    (store : nat -> option exn) (db : DB) (barcode : string) (now : Z) (p : parsed)
    (confirm_entry : string) :
  parse_barcode db barcode false = Parsed p ->
  filter_chars is_alpha_char (upper (strip confirm_entry)) = "DELETEALL" ->
  let db1 := snd (fst (Session.check_out_scan store db barcode now)) in
  let result := delete_all_out_items db1 confirm_entry in
  (exists n, fst result = Deleted (S n)) /\
  status_of (snd result) barcode = None /\
  (forall x, In x (rows (item_scans (snd result))) -> scan_barcode (snd x) <> barcode) /\
  Notes.get_note (snd result) barcode = "".
Proof.
  intros Hp Hc db1 result.
  assert (Hitems : items db1 = items (marked_out db barcode p)).
  { subst db1. rewrite (@check_out_scan_unfold store db barcode now p Hp).
    pose proof (log_scan_result store (marked_out db barcode p) p "OUT" now
                  default_max_retries default_retry_delay) as Hlog.
    cbv zeta in Hlog.
    destruct (log_scan store _ p "OUT" now _ _) as [[saved db3] events].
    cbn [fst snd] in *. destruct Hlog as [Hyes Hno].
    destruct saved; [now rewrite (Hyes eq_refl)|now rewrite (Hno eq_refl)]. }
  destruct (@check_out_marked db barcode p Hp) as (_ & Hst & _ & Hall & _).
  rewrite <- Hitems in Hall.
  assert (Hfound : exists r, In r (rows (items db1)) /\ has_barcode barcode r = true /\
                             current_status (snd r) = "OUT").
  { unfold status_of in Hst. rewrite <- Hitems in Hst.
    destruct (fetchone (has_barcode barcode) (items db1)) as [r|] eqn:Hf; [|discriminate].
    apply find_some in Hf as [Hin Hb]. exists r. repeat split; trivial. now apply Hall. }
  destruct Hfound as (r & Hin & Hb & Hs).
  assert (Hout : In r (filter (has_status "OUT") (rows (items db1)))).
  { apply filter_In. split; [exact Hin|]. unfold has_status. now apply String.eqb_eq. }
  assert (Hcount : count_where (has_status "OUT") (items db1) <> 0%nat).
  { unfold count_where. destruct (filter _ _); [destruct Hout|discriminate]. }
  assert (Hgone : fetchone (has_barcode barcode)
                    (delete_where (has_status "OUT") (items db1)) = None).
  { destruct (fetchone _ _) as [x|] eqn:Hx; [exfalso|reflexivity].
    apply find_some in Hx as [Hx Hxb]. cbn [delete_where rows] in Hx.
    apply filter_In in Hx as [Hx Hns]. apply negb_true_iff in Hns.
    unfold has_status in Hns. apply String.eqb_neq in Hns. now apply Hns, Hall. }
  subst result. unfold delete_all_out_items. rewrite Hc, String.eqb_refl. cbn [negb].
  destruct (Nat.eqb_spec (count_where (has_status "OUT") (items db1)) 0) as [E|_];
    [congruence|].
  cbn [fst snd]. split; [|split; [|split]].
  - destruct (count_where _ _); [congruence|]. now eexists.
  - unfold status_of. cbn [items]. now rewrite Hgone.
  - intros x Hx. cbn [item_scans delete_where rows] in Hx.
    apply filter_In in Hx as [_ Hx]. apply negb_true_iff in Hx. intros E.
    assert (Hyes : in_out_barcodes db1 (scan_barcode (snd x)) = true).
    { unfold in_out_barcodes, out_items. apply existsb_exists. exists r.
      split; [exact Hout|]. unfold has_barcode in Hb. now rewrite E. }
    congruence.
  - unfold Notes.get_note. cbn [items]. now rewrite Hgone.
Qed.

(** ** Batches and the allocator, continued *)

Section BatchDecode.

Lemma parse_barcode_item_codes db db' barcode is_batch :
  item_codes db' = item_codes db ->
  parse_barcode db' barcode is_batch = parse_barcode db barcode is_batch.
Proof.
  intros H. unfold parse_barcode, get_item_name. now rewrite H.
Qed.

Lemma nth_firstn_below {A} (l : list A) k n d :
  (k < n)%nat -> nth k (firstn n l) d = nth k l d.
Proof.
  revert k n. induction l as [|x l IH]; intros k n H.
  - now rewrite firstn_nil.
  - destruct n; [lia|]. destruct k; [reflexivity|]. simpl. apply IH. lia.
Qed.

End BatchDecode.

(** X17. The barcodes [create_batch] writes decode to the batch's own
    data: scanning an item of the batch later yields the item type,
    generation and created date stored with the batch, as long as the
    item codes are unchanged, and the batch barcode derived from the item
    barcode is the batch's. *)
Theorem batch_item_decodes
    (db : DB) (location_entry barcode_entry : string) (plan : batch_plan) (i : Z)
    (db' : DB) :
  create_batch_prepare db location_entry barcode_entry = inr plan ->
  0 <= i ->
  item_codes db' = item_codes db ->
  parse_barcode db' (batch_item_barcode (bp_batch_base plan) i) false =
    Parsed {| pd_item_type := pd_item_type (bp_parsed plan);
              pd_generation := pd_generation (bp_parsed plan);
              pd_created_date := pd_created_date (bp_parsed plan);
              pd_full_barcode := batch_item_barcode (bp_batch_base plan) i |} /\
  join (firstn 5 (split (batch_item_barcode (bp_batch_base plan) i))) = bp_batch_base plan.
Proof.
  intros Hplan Hi Hcodes.
  destruct (create_batch_prepare_plan _ _ _ Hplan) as (Hbase & _ & _ & Hparse & Hshape).
  destruct (item_number_batch_item _ Hbase Hi) as (H6 & _ & Hfirst & _).
  split; [|now rewrite Hfirst, join_split].
  rewrite (@parse_barcode_item_codes db db' _ false Hcodes).
  set (input := strip barcode_entry) in *.
  pose proof (parse_barcode_parsed_arity _ _ _ Hparse) as Har.
  rewrite (@parse_barcode_arity_ok db input false Har) in Hparse.
  assert (Hsplit : split (bp_batch_base plan) = firstn 5 (split input)).
  { destruct Hshape as [E|E]; rewrite E.
    - rewrite E in Hbase. unfold field_count in Hbase. symmetry. apply firstn_all2. lia.
    - apply split_join; [|apply firstn_split_no_us].
      intros E'. rewrite E, E' in Hbase. discriminate. }
  assert (Hnth : forall k, (k < 5)%nat ->
                   nth k (split (batch_item_barcode (bp_batch_base plan) i)) "" =
                   nth k (split input) "").
  { intros k Hk.
    rewrite <- (@nth_firstn_below string (split (batch_item_barcode (bp_batch_base plan) i))
                  k 5 "" Hk).
    rewrite Hfirst, Hsplit. now apply nth_firstn_below. }
  assert (Har' : arity_ok (batch_item_barcode (bp_batch_base plan) i) false = true).
  { unfold arity_ok. rewrite H6. reflexivity. }
  rewrite (@parse_barcode_arity_ok db _ false Har'). unfold year_field in *.
  rewrite !Hnth by lia.
  destruct (int (nth 3 (split input) "")) as [y|]; [|discriminate].
  injection Hparse as <-. reflexivity.
Qed.

(** X18. Items created by a scan count for the allocator: after
    [ensure_item_exists] created an item whose barcode carries the number
    [n], the highest item number is the larger of the old one and [n]; a
    barcode without a number, or one that was already there, changes
    nothing. *)
Theorem get_highest_after_ensure
    (db : DB) (barcode item_type generation created_date : string) :
  get_highest_item_number
    (snd (ensure_item_exists db barcode item_type generation created_date)) =
  match fetchone (has_barcode barcode) (items db), item_number barcode with
  | None, Some n => Z.max (get_highest_item_number db) n
  | _, _ => get_highest_item_number db
  end.
Proof.
  destruct (fetchone (has_barcode barcode) (items db)) as [row|] eqn:Hf.
  - now rewrite (@ensure_item_exists_present db barcode item_type generation created_date
                   row Hf).
  - assert (Hstep : get_highest_item_number
                      (set_items db (insert (items db)
                                       (fresh_item barcode item_type generation created_date)))
                    = match item_number barcode with
                      | Some n => Z.max (get_highest_item_number db) n
                      | None => get_highest_item_number db
                      end).
    { rewrite !get_highest_item_number_fold. cbn [items set_items insert rows].
      rewrite fold_left_app. cbn [fold_left]. unfold highest_step at 1, number_of.
      cbn [snd full_barcode fresh_item].
      destruct (item_number barcode) as [n|]; [|reflexivity].
      destruct (Z.gtb_spec n (fold_left highest_step (rows (items db)) 0)); lia. }
    destruct (Nat.ltb_spec (field_count barcode) 5) as [Hlt|Hge].
    + assert (E : ensure_item_exists db barcode item_type generation created_date =
                  (false, db)).
      { unfold ensure_item_exists, ensure_item_insert. rewrite Hf.
        fold (field_count barcode). apply Nat.ltb_lt in Hlt. now rewrite Hlt. }
      rewrite E. cbn [snd]. rewrite item_number_not_six by lia. reflexivity.
    + rewrite (@ensure_item_exists_absent db barcode item_type generation created_date
                 Hge Hf).
      exact Hstep.
Qed.

Section BatchAbort.

Variable plan : batch_plan.
Variable now : Z.

Lemma create_batch_items_lengths count : forall i db db',
  create_batch_items plan now count i db = inr db' ->
  List.length (rows (items db')) = (List.length (rows (items db)) + count)%nat /\
  List.length (rows (item_locations db')) =
    (List.length (rows (item_locations db)) + count)%nat /\
  List.length (rows (item_scans db')) = (List.length (rows (item_scans db)) + count)%nat /\
  batch_scans db' = batch_scans db /\ notes db' = notes db /\
  locations db' = locations db /\ item_codes db' = item_codes db.
Proof.
  induction count as [|c IH]; intros i db db'; cbn [create_batch_items].
  - intros [= <-]. rewrite !Nat.add_0_r. now repeat split.
  - destruct (str_fits i); cbn [negb]; [|discriminate].
    unfold insert_item. destruct (fetchone _ (items db)); [discriminate|]. intros Hrun.
    apply IH in Hrun as (H1 & H2 & H3 & H4).
    cbn [items item_locations item_scans set_items set_item_locations set_item_scans
         insert rows batch_scans notes locations item_codes] in *.
    rewrite !length_app in *. cbn [List.length] in *. repeat split; try lia; apply H4.
Qed.

(** A loop that ran to its end printed every number of its range. *)
Lemma create_batch_items_printed count : forall i db db',
  create_batch_items plan now count i db = inr db' ->
  (0 < count)%nat -> - str_bound < i /\ i + Z.of_nat count <= str_bound.
Proof.
  induction count as [|c IH]; intros i db db'; cbn [create_batch_items]; [lia|].
  destruct (str_fits i) eqn:Hfit; cbn [negb]; [|discriminate].
  apply str_fits_bound in Hfit.
  destruct (insert_item _ _) as [e|t']; [discriminate|]. intros Hrun _.
  destruct c as [|c']; [lia|].
  apply IH in Hrun; lia.
Qed.

(** The loop stops with the [UNIQUE] violation when one of its barcodes
    is taken. *)
Lemma create_batch_items_collision count : forall i db k,
  - str_bound < i -> i + Z.of_nat count <= str_bound ->
  i <= k < i + Z.of_nat count ->
  fetchone (has_barcode (batch_item_barcode (bp_batch_base plan) k)) (items db) <> None ->
  exists msg, create_batch_items plan now count i db = inl (IntegrityError msg).
Proof.
  induction count as [|c IH]; intros i db k Hlo Hhi Hk Htaken; [lia|].
  cbn [create_batch_items]. rewrite (@str_fits_below i) by lia. cbn [negb].
  unfold insert_item. cbn [full_barcode].
  destruct (fetchone (has_barcode (batch_item_barcode (bp_batch_base plan) i)) (items db))
    as [row|] eqn:Hf; [now eexists|].
  apply (IH (i + 1) _ k); [lia|lia| |].
  - assert (k <> i) by (intros ->; congruence). lia.
  - cbn [items set_items set_item_locations set_item_scans].
    destruct (fetchone (has_barcode (batch_item_barcode (bp_batch_base plan) k)) (items db))
      as [row|] eqn:Hk'; [|congruence].
    now rewrite (fetchone_insert_old _ _ _ Hk').
Qed.

End BatchAbort.

(** X19. The transaction of [create_batch] is all or nothing.  When it
    reports the batch as created, the quantity is one SQLite stores,
    every number of the range was printable, and the store has one more
    batch record and exactly [quantity] more items, assignments and
    scans; in every other case the store is unchanged.  In particular,
    when a barcode of the planned range is already taken (the plan is
    stale), the first [UNIQUE] violation aborts the batch and none of
    the items inserted before it remains; a quantity beyond 64 bits
    aborts it at the first [INSERT]; and a start number that the prompt
    cannot print ends the function before the quantity is read. *)
Theorem create_batch_commit_all_or_nothing
    (db : DB) (plan : batch_plan) (quantity_entry : string) (now : Z) :
  isascii quantity_entry = true ->
  let result := create_batch_commit db plan quantity_entry now in
  (forall q base loc start,
     fst result = BatchCreated q base loc start ->
     int quantity_entry = Some q /\ 0 < q <= sqlite_max_int /\
     - str_bound < bp_start_num plan /\ bp_start_num plan + q <= str_bound /\
     List.length (rows (batch_scans (snd result))) = S (List.length (rows (batch_scans db))) /\
     List.length (rows (items (snd result))) =
       (List.length (rows (items db)) + Z.to_nat q)%nat /\
     List.length (rows (item_locations (snd result))) =
       (List.length (rows (item_locations db)) + Z.to_nat q)%nat /\
     List.length (rows (item_scans (snd result))) =
       (List.length (rows (item_scans db)) + Z.to_nat q)%nat) /\
  ((forall q base loc start, fst result <> BatchCreated q base loc start) ->
   snd result = db) /\
  (forall q k,
     int quantity_entry = Some q -> q <= sqlite_max_int ->
     - str_bound < bp_start_num plan -> bp_start_num plan + q <= str_bound ->
     bp_start_num plan <= k < bp_start_num plan + q ->
     fetchone (has_barcode (batch_item_barcode (bp_batch_base plan) k)) (items db) <> None ->
     exists msg, result = (BatchAborted (IntegrityError msg), db)) /\
  (forall q,
     int quantity_entry = Some q -> sqlite_max_int < q ->
     str_fits (bp_start_num plan) = true ->
     result = (BatchAborted sqlite_int_overflow, db)) /\
  (str_fits (bp_start_num plan) = false -> result = (InvalidQuantity, db)).
Proof.
  intros _ result. subst result. unfold create_batch_commit.
  destruct (str_fits (bp_start_num plan)) eqn:Hstart; cbn [negb fst snd].
  2:{ split; [intros; discriminate|]. split; [reflexivity|].
      split; [|split; [intros; discriminate|reflexivity]].
      intros q k _ _ Hlo Hhi Hk. rewrite (@str_fits_below (bp_start_num plan)) in Hstart by lia.
      discriminate. }
  destruct (int quantity_entry) as [q0|]; cbn [fst snd].
  2:{ split; [intros; discriminate|]. split; [reflexivity|].
      split; [intros; discriminate|]. split; [intros; discriminate|discriminate]. }
  destruct (Z.leb_spec q0 0) as [Hle|Hpos]; cbn [fst snd].
  { split; [intros; discriminate|]. split; [reflexivity|].
    split; [intros q k [= <-] _ _ _ Hk; lia|].
    split; [|discriminate]. intros q [= <-] Hbig. unfold sqlite_max_int in Hbig. lia. }
  destruct (Z.ltb_spec sqlite_max_int q0) as [Hbig|Hsmall]; cbn [fst snd].
  { split; [intros; discriminate|]. split; [reflexivity|].
    split; [intros q k [= <-] Hq; lia|]. split; [reflexivity|discriminate]. }
  match goal with
  | |- context [create_batch_items _ _ _ _ ?d] => set (db1 := d)
  end.
  destruct (create_batch_items plan now (Z.to_nat q0) (bp_start_num plan) db1)
    as [e|db2] eqn:E; cbn [fst snd].
  - split; [intros; discriminate|]. split; [reflexivity|].
    split; [|split; [intros q [= <-]; lia|discriminate]].
    intros q k [= <-] _ Hlo Hhi Hk Htaken.
    destruct (@create_batch_items_collision plan now (Z.to_nat q0) (bp_start_num plan)
                db1 k Hlo ltac:(lia) ltac:(lia) Htaken) as [msg Hmsg].
    rewrite E in Hmsg. injection Hmsg as ->. now exists msg.
  - pose proof E as E0. pose proof E as E1.
    apply create_batch_items_lengths in E as (H1 & H2 & H3 & H4 & _).
    apply create_batch_items_printed in E1 as [Hlo Hhi]; [|lia].
    split.
    + intros q base loc start [= <- _ _ _]. split; [reflexivity|]. split; [lia|].
      split; [exact Hlo|]. split; [lia|].
      rewrite H4. subst db1. cbn [batch_scans set_batch_scans insert rows].
      rewrite length_app. cbn [List.length]. repeat split; try lia; assumption.
    + split.
      * intros Hnot. exfalso. now apply (Hnot q0 (bp_batch_base plan)
                                           (bp_location_barcode plan) (bp_start_num plan)).
      * split; [|split; [intros q [= <-]; lia|discriminate]].
        intros q k [= <-] _ Hlo' Hhi' Hk Htaken.
        destruct (@create_batch_items_collision plan now (Z.to_nat q0) (bp_start_num plan)
                    db1 k Hlo' ltac:(lia) ltac:(lia) Htaken) as [msg Hmsg].
        rewrite E0 in Hmsg. discriminate.
Qed.

(** X20. Purging twice is purging once: after a confirmed purge no
    item is OUT, so a second purge finds nothing and leaves the store as
    the first one left it. *)
Theorem delete_all_out_items_twice (db : DB) (confirm1 confirm2 : string) :
  filter_chars is_alpha_char (upper (strip confirm1)) = "DELETEALL" ->
  filter_chars is_alpha_char (upper (strip confirm2)) = "DELETEALL" ->
  count_where (has_status "OUT") (items (snd (delete_all_out_items db confirm1))) = 0%nat /\
  delete_all_out_items (snd (delete_all_out_items db confirm1)) confirm2 =
  (NothingDeleted, snd (delete_all_out_items db confirm1)).
Proof.
  intros H1 H2.
  destruct (delete_all_out_items_rows db confirm1 H1) as (Hi & _).
  assert (Hz : count_where (has_status "OUT") (items (snd (delete_all_out_items db confirm1)))
               = 0%nat).
  { unfold count_where. rewrite Hi, filter_none; [reflexivity|].
    intros r Hr. apply filter_In in Hr as [_ Hr]. now apply negb_true_iff. }
  split; [exact Hz|].
  unfold delete_all_out_items at 1. rewrite H2, String.eqb_refl. cbn [negb].
  now rewrite Hz.
Qed.

Section LogScanIff.

Variable store : nat -> option exn.
Variable db : DB.
Variable p : parsed.
Variable status : string.
Variable now : Z.
Variable max_retries : nat.
Variable retry_delay : N.

Lemma log_scan_loop_succeeds remaining : forall retries,
  fst (fst (log_scan_loop store db p status now max_retries retry_delay remaining retries))
  = true <->
  exists k, (k < remaining)%nat /\ store (retries + k)%nat = None /\
            forall j, (j < k)%nat -> busy_at store (retries + j).
Proof.
  induction remaining as [|m IH]; intros retries; cbn [log_scan_loop].
  - cbn [fst]. split; [discriminate|]. intros (k & Hk & _). lia.
  - destruct (store retries) as [e|] eqn:Hs.
    + destruct (lock_busy e) eqn:Hb.
      * specialize (IH (S retries)).
        destruct (log_scan_loop _ _ _ _ _ _ _ _ _) as [[r d] evs]. cbn [fst] in *.
        rewrite IH. split.
        -- intros (k & Hk & Hnone & Hbusy). exists (S k). split; [lia|]. split.
           ++ now replace (retries + S k)%nat with (S retries + k)%nat by lia.
           ++ intros [|j] Hj.
              ** rewrite Nat.add_0_r. now exists e.
              ** replace (retries + S j)%nat with (S retries + j)%nat by lia.
                 apply Hbusy. lia.
        -- intros (k & Hk & Hnone & Hbusy). destruct k as [|k].
           ++ rewrite Nat.add_0_r in Hnone. congruence.
           ++ exists k. split; [lia|]. split.
              ** now replace (S retries + k)%nat with (retries + S k)%nat by lia.
              ** intros j Hj. replace (S retries + j)%nat with (retries + S j)%nat by lia.
                 apply Hbusy. lia.
      * cbn [fst]. split; [discriminate|]. intros (k & Hk & Hnone & Hbusy).
        destruct k as [|k].
        -- rewrite Nat.add_0_r in Hnone. congruence.
        -- destruct (Hbusy 0%nat ltac:(lia)) as (e' & He' & Hb').
           rewrite Nat.add_0_r in He'. congruence.
    + cbn [fst]. split; [intros _|reflexivity]. exists 0%nat.
      split; [lia|]. split; [now rewrite Nat.add_0_r|]. intros j Hj. lia.
Qed.

Lemma log_scan_loop_sleeps remaining : forall retries,
  (List.length
     (filter is_sleep
        (snd (log_scan_loop store db p status now max_retries retry_delay remaining retries)))
   <= remaining)%nat.
Proof.
  induction remaining as [|m IH]; intros retries; cbn [log_scan_loop].
  - cbn [snd filter is_sleep List.length]. lia.
  - destruct (store retries) as [e|]; [|cbn; lia].
    destruct (lock_busy e); [|cbn; lia]. specialize (IH (S retries)).
    destruct (log_scan_loop _ _ _ _ _ _ _ _ _) as [[r d] evs]. cbn [snd] in *.
    cbn [filter is_sleep List.length]. lia.
Qed.

End LogScanIff.

(** X21. [log_scan] succeeds exactly when one of its first
    [max_retries] attempts goes through after nothing but lock-busy
    failures; with [max_retries = 0] it gives up without an attempt.  It
    never sleeps more than [max_retries] times, a failure leaves the
    store unchanged, and a success changes the scan log only. *)
Theorem log_scan_succeeds_iff
    (store : nat -> option exn) (db : DB) (p : parsed) (status : string) (now : Z)
    (max_retries : nat) (retry_delay : N) :
  let result := log_scan store db p status now max_retries retry_delay in
  (fst (fst result) = true <->
   exists k, (k < max_retries)%nat /\ store k = None /\
             forall j, (j < k)%nat -> busy_at store j) /\
  (max_retries = 0%nat -> result = (false, db, [GaveUp 0])) /\
  (List.length (filter is_sleep (snd result)) <= max_retries)%nat /\
  (fst (fst result) = false -> snd (fst result) = db) /\
  (fst (fst result) = true ->
   rows (item_scans (snd (fst result))) =
     (rows (item_scans db) ++ [(next_rowid (item_scans db), scan_of p status now)])%list /\
   items (snd (fst result)) = items db /\ notes (snd (fst result)) = notes db /\
   item_locations (snd (fst result)) = item_locations db /\
   locations (snd (fst result)) = locations db).
Proof.
  intros result. subst result. split; [|split; [|split; [|split]]].
  - unfold log_scan. apply (log_scan_loop_succeeds store db p status now max_retries
                              retry_delay max_retries 0%nat).
  - intros ->. reflexivity.
  - apply log_scan_loop_sleeps.
  - apply log_scan_result.
  - intros H. destruct (log_scan_result store db p status now max_retries retry_delay)
      as [Hyes _].
    rewrite (Hyes H). unfold logged. now repeat split.
Qed.

Section MoveSession.

Lemma move_item_loop_finish target before : forall db entry now after,
  lower (strip entry) = "finish" ->
  Session.move_item_loop db target (before ++ (entry, now) :: after) =
  Session.move_item_loop db target before.
Proof.
  induction before as [|[e t] before IH]; intros db entry now after Hfin.
  - cbn [app Session.move_item_loop]. now rewrite Hfin.
  - cbn [app Session.move_item_loop].
    destruct (String.eqb (lower (strip e)) "finish"); [reflexivity|].
    destruct (move_item_scan db target (strip e) t) as [report db1].
    now rewrite (IH db1 entry now after Hfin).
Qed.

Lemma move_item_loop_reports target entries : forall db,
  (List.length (fst (Session.move_item_loop db target entries)) <= List.length entries)%nat.
Proof.
  induction entries as [|[e t] rest IH]; intros db; cbn [Session.move_item_loop].
  - cbn. lia.
  - destruct (String.eqb _ "finish"); [cbn; lia|].
    destruct (move_item_scan db target (strip e) t) as [report db1].
    specialize (IH db1). destruct (Session.move_item_loop db1 target rest).
    cbn [fst List.length] in *. lia.
Qed.

End MoveSession.

(** X22. [move_item_session] touches the store only once its target is
    accepted: an empty target, one that looks like an item barcode or an
    unregistered one ends the session with the store unchanged.  The
    session reads its scans up to the first "finish", in any letter case
    and with blanks around it, and ignores what follows. *)
Theorem move_item_session_bounds (db : DB) (target_entry : string) :
  let target := upper (strip target_entry) in
  (forall entries,
     target = "" \/ looks_like_item_barcode target = true \/
     fetchone (Registry.has_location target) (locations db) = None ->
     snd (Session.move_item_session db target_entry entries) = db /\
     forall name reports,
       fst (Session.move_item_session db target_entry entries) <>
       Session.SessionEnded name reports) /\
  (forall before entry now after,
     lower (strip entry) = "finish" ->
     Session.move_item_session db target_entry (before ++ (entry, now) :: after) =
     Session.move_item_session db target_entry before) /\
  (forall entries name reports,
     fst (Session.move_item_session db target_entry entries) =
       Session.SessionEnded name reports ->
     (List.length reports <= List.length entries)%nat /\
     exists id, fetchone (Registry.has_location target) (locations db) =
                Some (id, {| barcode := target; location_name := name |})).
Proof.
  intros target. unfold Session.move_item_session. fold target.
  split; [|split].
  - intros entries H. destruct target as [|c l]; [split; [reflexivity|discriminate]|].
    destruct (looks_like_item_barcode (String c l)) eqn:Hl;
      [split; [reflexivity|discriminate]|].
    destruct H as [H|[H|H]]; try discriminate.
    change (fun r : Z * location => String.eqb (barcode (snd r)) (String c l))
      with (Registry.has_location (String c l)).
    rewrite H. split; [reflexivity|discriminate].
  - intros before entry now after Hfin. destruct target as [|c l]; [reflexivity|].
    destruct (looks_like_item_barcode (String c l)); [reflexivity|].
    destruct (fetchone _ (locations db)); [|reflexivity].
    now rewrite (move_item_loop_finish (String c l) before db entry now after Hfin).
  - intros entries name reports. destruct target as [|c l]; [discriminate|].
    destruct (looks_like_item_barcode (String c l)); [discriminate|].
    change (fun r : Z * location => String.eqb (barcode (snd r)) (String c l))
      with (Registry.has_location (String c l)).
    destruct (fetchone (Registry.has_location (String c l)) (locations db))
      as [[id loc]|] eqn:Hf; [|discriminate].
    pose proof (move_item_loop_reports (String c l) entries db) as Hlen.
    destruct (Session.move_item_loop db (String c l) entries) as [rs db2].
    cbn [fst snd] in *. intros [= <- <-]. split; [exact Hlen|].
    exists id. apply find_some in Hf as [_ Hb]. unfold Registry.has_location in Hb.
    cbn [snd] in Hb. apply String.eqb_eq in Hb. destruct loc as [lb ln].
    cbn [barcode] in Hb. subst lb. reflexivity.
Qed.

(** ** The earlier program *)

Section EarlierProgram.

Lemma scanner_parse_barcode_parsed barcode is_batch p :
  Scanner.parse_barcode barcode is_batch = Parsed p ->
  (5 <= field_count barcode)%nat /\ pd_full_barcode p = barcode.
Proof.
  unfold Scanner.parse_barcode, field_count.
  destruct is_batch; cbn [andb negb].
  - destruct (Nat.eqb_spec (List.length (split barcode)) 5) as [E|E]; cbn [negb];
      [|discriminate].
    destruct (int _); [|discriminate]. intros [= <-]. split; [lia|reflexivity].
  - destruct (Nat.eqb_spec (List.length (split barcode)) 5) as [E|E]; cbn [orb negb].
    + destruct (int _); [|discriminate]. intros [= <-]. split; [lia|reflexivity].
    + destruct (Nat.eqb_spec (List.length (split barcode)) 6) as [E6|E6]; cbn [negb];
        [|discriminate].
      destruct (int _); [|discriminate]. intros [= <-]. split; [lia|reflexivity].
Qed.

(** After [ensure_item_exists] and [update_item_status] on a barcode of
    at least 5 fields. *)
Lemma ensure_then_update db barcode p s :
  (5 <= field_count barcode)%nat ->
  ensure_item_exists db barcode (pd_item_type p) (pd_generation p) (pd_created_date p) =
    (true, ensured db barcode p) /\
  update_item_status (ensured db barcode p) barcode s =
    (true, snd (update_item_status (ensured db barcode p) barcode s)) /\
  status_of (snd (update_item_status (ensured db barcode p) barcode s)) barcode = Some s /\
  (forall other, other <> barcode ->
     status_of (snd (update_item_status (ensured db barcode p) barcode s)) other =
     status_of db other).
Proof.
  intros H5.
  assert (He : ensure_item_exists db barcode (pd_item_type p) (pd_generation p)
                 (pd_created_date p) = (true, ensured db barcode p) /\
               (exists s0, status_of (ensured db barcode p) barcode = Some s0) /\
               forall other, other <> barcode ->
                 status_of (ensured db barcode p) other = status_of db other).
  { unfold ensured.
    destruct (fetchone (has_barcode barcode) (items db)) as [row|] eqn:Hf.
    - rewrite (@ensure_item_exists_present db barcode _ _ _ row Hf). cbn [snd].
      split; [reflexivity|]. split; [|reflexivity].
      unfold status_of. rewrite Hf. now eexists.
    - rewrite (@ensure_item_exists_absent db barcode _ _ _ H5 Hf). cbn [snd].
      split; [reflexivity|]. split.
      + rewrite (@status_of_insert db (fresh_item barcode (pd_item_type p) (pd_generation p)
                                         (pd_created_date p)) barcode Hf).
        cbn [full_barcode fresh_item]. rewrite String.eqb_refl. now eexists.
      + intros other Hne.
        rewrite (@status_of_insert db (fresh_item barcode (pd_item_type p) (pd_generation p)
                                         (pd_created_date p)) other Hf).
        cbn [full_barcode fresh_item]. apply String.eqb_neq in Hne. now rewrite Hne. }
  destruct He as (He & [s0 Hs0] & Hother).
  split; [exact He|]. split; [|split].
  - unfold update_item_status. cbn [snd]. f_equal.
    apply negb_true_iff, Nat.eqb_neq. rewrite count_where_zero.
    unfold status_of in Hs0.
    destruct (fetchone _ (items (ensured db barcode p))); discriminate.
  - rewrite status_of_update_item_status, String.eqb_refl, Hs0. reflexivity.
  - intros other Hne. rewrite status_of_update_item_status.
    apply String.eqb_neq in Hne. rewrite Hne. apply String.eqb_neq in Hne.
    now apply Hother.
Qed.

End EarlierProgram.

(** X23. [register_location] of [scanner.py] never overwrites: it
    fails exactly on a barcode that is already registered and then
    changes nothing; otherwise the barcode is found afterwards under the
    given name, stored as typed, and every other lookup is as before. *)
Theorem scanner_register_location_no_overwrite (db : DB) (barcode location_name : string) :
  let result := Scanner.register_location db barcode location_name in
  (fst result = false <->
   exists row, fetchone (Registry.has_location barcode) (locations db) = Some row) /\
  (fst result = false -> snd result = db) /\
  (fst result = true ->
   fetchone (Registry.has_location barcode) (locations (snd result)) =
     Some (next_rowid (locations db),
           {| Store.barcode := barcode; Store.location_name := location_name |}) /\
   (forall other, other <> barcode ->
      fetchone (Registry.has_location other) (locations (snd result)) =
      fetchone (Registry.has_location other) (locations db)) /\
   items (snd result) = items db /\ item_locations (snd result) = item_locations db).
Proof.
  intros result. subst result. unfold Scanner.register_location.
  change (fun r : Z * location => String.eqb (Store.barcode (snd r)) barcode)
    with (Registry.has_location barcode).
  destruct (fetchone (Registry.has_location barcode) (locations db)) as [row|] eqn:Hf;
    cbn [fst snd].
  - split; [split; [intros _; now exists row|reflexivity]|].
    split; [reflexivity|discriminate].
  - split; [split; [discriminate|intros [row Hrow]; discriminate]|].
    split; [discriminate|]. intros _.
    change (locations (set_locations db ?t)) with t.
    split; [|split; [|split; reflexivity]].
    + apply fetchone_insert_new; [exact Hf|].
      unfold Registry.has_location. cbn [snd Store.barcode]. apply String.eqb_refl.
    + intros other Hne.
      destruct (fetchone (Registry.has_location other) (locations db)) as [x|] eqn:Hx.
      * now apply fetchone_insert_old.
      * apply fetchone_insert_miss; [exact Hx|].
        unfold Registry.has_location. cbn [snd Store.barcode].
        apply String.eqb_neq. congruence.
Qed.

(** X24. A pass of [move_item_to_location] of [scanner.py] that meets
    no fault refuses an unregistered location and changes nothing; for a
    registered location and a known item it appends exactly one
    assignment, for that item's rowid, and changes neither the status of
    the item nor the scan log. *)
Theorem scanner_move_item_to_location_once_outcome
    (db : DB) (item_barcode location_barcode : string) (now : Z) :
  let result := Scanner.move_item_to_location_once db item_barcode location_barcode now in
  (fetchone (Registry.has_location location_barcode) (locations db) = None ->
   result = (false, db)) /\
  (forall l row,
     fetchone (Registry.has_location location_barcode) (locations db) = Some l ->
     fetchone (has_barcode item_barcode) (items db) = Some row ->
     fst result = true /\
     items (snd result) = items db /\
     rows (item_locations (snd result)) =
       (rows (item_locations db) ++
        [(next_rowid (item_locations db),
          {| il_item_id := fst row; il_location_barcode := location_barcode;
             il_timestamp := now |})])%list) /\
  (fst result = true ->
   exists row,
     fetchone (has_barcode item_barcode) (items (snd result)) = Some row /\
     rows (item_locations (snd result)) =
       (rows (item_locations db) ++
        [(next_rowid (item_locations db),
          {| il_item_id := fst row; il_location_barcode := location_barcode;
             il_timestamp := now |})])%list) /\
  (fst result = false -> item_locations (snd result) = item_locations db) /\
  item_scans (snd result) = item_scans db /\ locations (snd result) = locations db.
Proof.
  intros result. subst result. unfold Scanner.move_item_to_location_once.
  change (fun r : Z * location => String.eqb (Store.barcode (snd r)) location_barcode)
    with (Registry.has_location location_barcode).
  destruct (fetchone (Registry.has_location location_barcode) (locations db))
    as [l|] eqn:Hl.
  2:{ cbn [fst snd]. split; [reflexivity|]. split; [discriminate|].
      split; [discriminate|]. now repeat split. }
  split; [discriminate|].
  destruct (fetchone (has_barcode item_barcode) (items db)) as [row|] eqn:Hf.
  - cbn [fst snd]. split.
    + intros l0 row0 _ [= <-]. now repeat split.
    + split; [|split; [discriminate|now split]].
      intros _. exists row. split; [exact Hf|reflexivity].
  - split; [discriminate|].
    destruct (Scanner.parse_barcode item_barcode false) as [p| | |] eqn:Hp;
      try (cbn [fst snd]; split; [discriminate|now repeat split]).
    destruct (scanner_parse_barcode_parsed _ _ Hp) as [H5 _].
    rewrite (@ensure_item_exists_absent db item_barcode _ _ _ H5 Hf). cbn [negb].
    change (items (set_items db ?t)) with t.
    rewrite (@fetchone_insert_new _ (has_barcode item_barcode) (items db)
               (fresh_item item_barcode (pd_item_type p) (pd_generation p)
                  (pd_created_date p)) Hf (String.eqb_refl _)).
    cbn [fst snd]. split; [|split; [discriminate|now split]].
    intros _.
    exists (next_rowid (items db),
            fresh_item item_barcode (pd_item_type p) (pd_generation p) (pd_created_date p)).
    split; [|reflexivity].
    cbn [items set_item_locations set_items].
    apply (@fetchone_insert_new _ (has_barcode item_barcode) (items db)
             (fresh_item item_barcode (pd_item_type p) (pd_generation p)
                (pd_created_date p)) Hf (String.eqb_refl _)).
Qed.

(** X25. One check-in scan of [scan_session] of [scanner.py] on a
    quiet store, for a barcode that decodes and a registered location:
    the item (created first if unseen) has status IN, exactly one
    assignment to the location is appended for the row that carries the
    barcode, exactly one IN scan is logged, and no other barcode changes
    status. *)
Theorem scanner_check_in_outcome
    (db : DB) (location_barcode barcode : string) (now : Z) (p : parsed) (l : Z * location) :
  Scanner.parse_barcode barcode false = Parsed p ->
  location_barcode <> "" ->
  fetchone (Registry.has_location location_barcode) (locations db) = Some l ->
  let result := Scanner.scan_session_scan db "IN" (Some location_barcode) barcode now in
  let db' := snd result in
  fst result = Scanner.ScanSaved true true /\
  status_of db' barcode = Some "IN" /\
  (forall other, other <> barcode -> status_of db' other = status_of db other) /\
  (exists row,
     fetchone (has_barcode barcode) (items db') = Some row /\
     rows (item_locations db') =
       (rows (item_locations db) ++
        [(next_rowid (item_locations db),
          {| il_item_id := fst row; il_location_barcode := location_barcode;
             il_timestamp := now |})])%list) /\
  rows (item_scans db') =
    (rows (item_scans db) ++ [(next_rowid (item_scans db), scan_of p "IN" now)])%list /\
  locations db' = locations db /\ notes db' = notes db.
Proof.
  intros Hp Hne Hl result db'. subst db' result.
  destruct (scanner_parse_barcode_parsed _ _ Hp) as [H5 Hfull].
  destruct (@ensure_then_update db barcode p "IN" H5) as (He & Hu & Hst & Hother).
  unfold Scanner.scan_session_scan. rewrite Hp, He. cbn [negb]. rewrite Hu.
  set (db2 := snd (update_item_status (ensured db barcode p) barcode "IN")) in *.
  assert (Hloc2 : locations db2 = locations db).
  { subst db2. unfold update_item_status, ensured, ensure_item_exists, ensure_item_insert.
    cbn [snd]. destruct (fetchone _ (items db)); [reflexivity|].
    destruct (Nat.ltb _ 5); [reflexivity|].
    destruct (insert_item _ _) as [[]|]; reflexivity. }
  assert (Hil2 : item_locations db2 = item_locations db).
  { subst db2. unfold update_item_status, ensured, ensure_item_exists, ensure_item_insert.
    cbn [snd]. destruct (fetchone _ (items db)); [reflexivity|].
    destruct (Nat.ltb _ 5); [reflexivity|].
    destruct (insert_item _ _) as [[]|]; reflexivity. }
  assert (Hsc2 : item_scans db2 = item_scans db).
  { subst db2. unfold update_item_status, ensured, ensure_item_exists, ensure_item_insert.
    cbn [snd]. destruct (fetchone _ (items db)); [reflexivity|].
    destruct (Nat.ltb _ 5); [reflexivity|].
    destruct (insert_item _ _) as [[]|]; reflexivity. }
  assert (Hn2 : notes db2 = notes db).
  { subst db2. unfold update_item_status, ensured, ensure_item_exists, ensure_item_insert.
    cbn [snd]. destruct (fetchone _ (items db)); [reflexivity|].
    destruct (Nat.ltb _ 5); [reflexivity|].
    destruct (insert_item _ _) as [[]|]; reflexivity. }
  destruct location_barcode as [|c rest]; [congruence|].
  rewrite String.eqb_refl, Hfull.
  unfold Scanner.move_item_to_location_once.
  change (fun r : Z * location => String.eqb (Store.barcode (snd r)) (String c rest))
    with (Registry.has_location (String c rest)).
  rewrite Hloc2, Hl.
  pose proof Hst as Hrow. unfold status_of in Hrow.
  destruct (fetchone (has_barcode barcode) (items db2)) as [row|] eqn:Hf; [|discriminate].
  unfold log_scan, default_max_retries. cbn [log_scan_loop fst snd].
  split; [reflexivity|]. split; [|split; [|split; [|split; [|split]]]].
  - unfold status_of. cbn [items set_item_scans set_item_locations insert]. now rewrite Hf.
  - intros other Ho. unfold status_of at 1.
    cbn [items set_item_scans set_item_locations insert].
    now apply Hother.
  - exists row. split.
    + cbn [items set_item_scans set_item_locations insert]. exact Hf.
    + cbn [item_locations set_item_scans set_item_locations insert rows].
      now rewrite Hil2.
  - cbn [item_scans set_item_scans set_item_locations insert rows]. now rewrite Hsc2.
  - cbn [locations set_item_scans set_item_locations]. exact Hloc2.
  - cbn [notes set_item_scans set_item_locations]. exact Hn2.
Qed.

(** ** The move and the retry, over both programs *)

Section GaveUp.

Variable store : nat -> option exn.
Variable db : DB.
Variable p : parsed.
Variable status : string.
Variable now : Z.
Variable max_retries : nat.
Variable retry_delay : N.

(** The notice of the exhausted budget is printed exactly when every
    attempt met a locked store. *)
Lemma log_scan_loop_gave_up remaining : forall retries,
  In (GaveUp max_retries)
     (snd (log_scan_loop store db p status now max_retries retry_delay remaining retries))
  <-> forall j, (j < remaining)%nat -> busy_at store (retries + j).
Proof.
  induction remaining as [|m IH]; intros retries; cbn [log_scan_loop].
  - cbn [snd In]. split; [intros _ j Hj; lia|intros _; now left].
  - destruct (store retries) as [e|] eqn:Hs.
    + destruct (lock_busy e) eqn:Hb.
      * specialize (IH (S retries)).
        destruct (log_scan_loop _ _ _ _ _ _ _ _ _) as [[r d] evs]. cbn [snd] in *.
        split.
        -- intros [H|[H|H]]; try discriminate. intros [|j] Hj.
           ++ rewrite Nat.add_0_r. now exists e.
           ++ replace (retries + S j)%nat with (S retries + j)%nat by lia.
              apply IH; [exact H|lia].
        -- intros H. right. right. apply IH. intros j Hj.
           replace (S retries + j)%nat with (retries + S j)%nat by lia.
           apply H. lia.
      * cbn [snd In]. split; [intros [H|[]]; discriminate|].
        intros H. destruct (H 0%nat ltac:(lia)) as (e' & He' & Hb').
        rewrite Nat.add_0_r in He'. congruence.
    + cbn [snd In]. split; [intros []|].
      intros H. destruct (H 0%nat ltac:(lia)) as (e' & He' & _).
      rewrite Nat.add_0_r in He'. congruence.
Qed.

End GaveUp.

(** C3 (as the code has it). For an existing item whose status is
    OUT, one scan of the move session of [main.py] sets the status to
    IN, leaves every other item row as it was, and appends exactly one
    location assignment (to the target, stamped [now]) and exactly one
    scan with status IN.  [move_item_to_location] of [scanner.py], for
    a registered target, appends the one assignment and nothing else:
    the status stays OUT and no scan is logged; for an unregistered
    target it changes nothing. *)
Theorem move_item_scan_out_item
    (db : DB) (target_location barcode : string) (now : Z)
    (p : parsed) (item_id : Z) (row : item) :
  primary_key (items db) ->
  parse_barcode db barcode false = Parsed p ->
  fetchone (has_barcode barcode) (items db) = Some (item_id, row) ->
  current_status row = "OUT" ->
  (let result := move_item_scan db target_location barcode now in
   let db' := snd result in
   fst result = ItemMoved false true /\
   (exists before after,
      rows (items db) = (before ++ (item_id, row) :: after)%list /\
      rows (items db') = (before ++ (item_id, set_status "IN" row) :: after)%list) /\
   current_status (set_status "IN" row) = "IN" /\
   rows (item_locations db') =
     (rows (item_locations db) ++
      [(next_rowid (item_locations db),
        {| il_item_id := item_id; il_location_barcode := target_location;
           il_timestamp := now |})])%list /\
   rows (item_scans db') =
     (rows (item_scans db) ++
      [(next_rowid (item_scans db),
        {| scan_barcode := barcode; scan_item_type := pd_item_type p;
           scan_generation := pd_generation p; scan_created_date := pd_created_date p;
           scan_time := now; scan_status := "IN" |})])%list /\
   notes db' = notes db /\ locations db' = locations db /\
   batch_scans db' = batch_scans db /\ item_codes db' = item_codes db) /\
  (let earlier := Scanner.move_item_to_location_once db barcode target_location now in
   (forall l,
      fetchone (Registry.has_location target_location) (locations db) = Some l ->
      fst earlier = true /\
      items (snd earlier) = items db /\
      status_of (snd earlier) barcode = Some "OUT" /\
      item_scans (snd earlier) = item_scans db /\
      rows (item_locations (snd earlier)) =
        (rows (item_locations db) ++
         [(next_rowid (item_locations db),
           {| il_item_id := item_id; il_location_barcode := target_location;
              il_timestamp := now |})])%list) /\
   (fetchone (Registry.has_location target_location) (locations db) = None ->
    earlier = (false, db))).
Proof.
  intros Hk Hp Hf Hs. split.
  - exact (@move_item_scan_out_row db target_location barcode now p item_id row
             Hk Hp Hf Hs).
  - cbv zeta. unfold Scanner.move_item_to_location_once.
    change (fun r : Z * location => String.eqb (Store.barcode (snd r)) target_location)
      with (Registry.has_location target_location).
    destruct (fetchone (Registry.has_location target_location) (locations db))
      as [l0|] eqn:Hl.
    + rewrite Hf. cbn [fst snd]. split; [|discriminate].
      intros l _. split; [reflexivity|]. split; [reflexivity|]. split.
      * unfold status_of. cbn [items set_item_locations]. rewrite Hf.
        cbn [option_map snd]. now rewrite Hs.
      * split; reflexivity.
    + split; [discriminate|reflexivity].
Qed.

(** C6. [log_scan] makes at most [max_retries] attempts (3 unless
    the caller says otherwise), each lock-busy one followed by a notice
    and a sleep of [retry_delay] (200 ms by default).
    After [max_retries] lock-busy attempts it gives up: it prints the
    notice of the exhausted budget and returns [False] with the store
    unchanged; that notice appears in no other case.  An attempt that
    succeeds appends the one scan; one that fails in any other way ends
    the operation at once, without another attempt or sleep, with the
    store unchanged.  A barcode that fails validation never reaches
    [log_scan]: the check-out loop reports it as invalid, with no attempt
    made, while exhausted retries are reported as a scan that could not
    be saved. *)
Theorem log_scan_retry_protocol
    (store : nat -> option exn) (db : DB) (p : parsed) (status : string) (now : Z)
    (max_retries : nat) (retry_delay : N) (k : nat) :
  (k <= max_retries)%nat ->
  (forall j, (j < k)%nat -> busy_at store j) ->
  (k = max_retries ->
   log_scan store db p status now max_retries retry_delay =
   (false, db, (retry_events max_retries retry_delay 0 k ++ [GaveUp max_retries])%list)) /\
  ((k < max_retries)%nat -> store k = None ->
   log_scan store db p status now max_retries retry_delay =
   (true, logged db p status now, retry_events max_retries retry_delay 0 k)) /\
  ((k < max_retries)%nat -> forall e, store k = Some e -> lock_busy e = false ->
   log_scan store db p status now max_retries retry_delay =
   (false, db, (retry_events max_retries retry_delay 0 k ++ [ErrorNotice e])%list)) /\
  (In (GaveUp max_retries) (snd (log_scan store db p status now max_retries retry_delay))
   <-> forall j, (j < max_retries)%nat -> busy_at store j) /\
  (forall barcode,
     (fst (fst (Session.check_out_scan store db barcode now)) = Session.InvalidBarcode <->
      is_none (parse_barcode db barcode false) = true) /\
     (is_none (parse_barcode db barcode false) = true ->
      Session.check_out_scan store db barcode now = (Session.InvalidBarcode, db, [])) /\
     (is_none (parse_barcode db barcode false) = false ->
      (forall j, (j < default_max_retries)%nat -> busy_at store j) ->
      fst (fst (Session.check_out_scan store db barcode now)) = Session.ScanNotSaved true /\
      In (GaveUp default_max_retries)
         (snd (Session.check_out_scan store db barcode now)))) /\
  default_max_retries = 3%nat /\ default_retry_delay = 200%N.
Proof.
  intros Hle Hbusy.
  destruct (@log_scan_attempts store db p status now max_retries retry_delay k Hle Hbusy)
    as (Hgave & Hsaved & Hfailed).
  split; [exact Hgave|]. split; [exact Hsaved|]. split; [exact Hfailed|]. split.
  { unfold log_scan.
    rewrite (@log_scan_loop_gave_up store db p status now max_retries retry_delay
               max_retries 0%nat).
    reflexivity. }
  split; [|split; reflexivity].
  intros barcode.
  destruct (parse_barcode db barcode false) as [p0| | |] eqn:Hp.
  - cbn [is_none].
    rewrite (@check_out_scan_unfold store db barcode now p0 Hp).
    split; [|split; [discriminate|]].
    + destruct (log_scan store _ p0 "OUT" now _ _) as [[saved db3] events].
      cbn [fst]. destruct saved; split; discriminate.
    + intros _ Hall.
      destruct (@log_scan_attempts store (marked_out db barcode p0) p0 "OUT" now
                  default_max_retries default_retry_delay default_max_retries
                  (Nat.le_refl _) Hall) as (E & _).
      rewrite (E eq_refl). cbn [fst snd]. split; [reflexivity|].
      apply in_or_app. right. now left.
  - unfold Session.check_out_scan. rewrite Hp. cbn [is_none fst].
    split; [tauto|]. split; [reflexivity|discriminate].
  - unfold Session.check_out_scan. rewrite Hp. cbn [is_none fst].
    split; [tauto|]. split; [reflexivity|discriminate].
  - unfold Session.check_out_scan. rewrite Hp. cbn [is_none fst].
    split; [tauto|]. split; [reflexivity|discriminate].
Qed.

(** ** The scenarios, run on the further properties *)

Lemma schema_ok_preserved_witness :
  schema_ok mixed_db /\
  schema_ok (snd (delete_all_out_items mixed_db "delete all")).
Proof.
  assert (H : schema_ok mixed_db).
  { unfold schema_ok, primary_key, unique_barcodes, unique_locations. vm_compute.
    split; [|split];
      repeat (constructor; [simpl; intuition discriminate|]); constructor. }
  split; [exact H|].
  exact (proj1 (proj2 (proj2 (proj2 (proj2 (@schema_ok_preserved mixed_db H)))))
           "delete all").
Defined.

Lemma add_note_get_note_witness :
  fetchone (has_barcode "PIPI_01_02_23_G1_0002") (items mixed_db) =
    Some (2, set_status "OUT"
               (fresh_item "PIPI_01_02_23_G1_0002" "PioPino" "G1" "01.02.2023")) /\
  Notes.get_note (snd (Notes.add_note mixed_db "PIPI_01_02_23_G1_0002" "discard"))
    "PIPI_01_02_23_G1_0002" = "discard".
Proof.
  assert (H : fetchone (has_barcode "PIPI_01_02_23_G1_0002") (items mixed_db) =
              Some (2, set_status "OUT"
                         (fresh_item "PIPI_01_02_23_G1_0002" "PioPino" "G1" "01.02.2023")))
    by (vm_compute; reflexivity).
  split; [exact H|].
  exact (proj1 (proj2 (@add_note_get_note mixed_db "PIPI_01_02_23_G1_0002" "discard" _ H))).
Defined.

Lemma assignments_registered_preserved_witness :
  assignments_registered mixed_db /\
  assignments_registered
    (snd (Session.move_item_session mixed_db "shelf1" [("PIPI_01_02_23_G1_0002", 30)])).
Proof.
  assert (H : assignments_registered mixed_db).
  { assert (Hl : In (1, {| barcode := "SHELF1"; location_name := "Shelf 1" |})
                    (rows (locations mixed_db))) by (vm_compute; left; reflexivity).
    assert (Hall : forallb (fun r => String.eqb (il_location_barcode (snd r)) "SHELF1")
                     (rows (item_locations mixed_db)) = true) by (vm_compute; reflexivity).
    intros r Hr. exists (1, {| barcode := "SHELF1"; location_name := "Shelf 1" |}).
    split; [exact Hl|].
    rewrite forallb_forall in Hall. specialize (Hall r Hr). apply String.eqb_eq in Hall.
    symmetry. exact Hall. }
  split; [exact H|].
  exact (proj1 (proj2 (proj2 (@assignments_registered_preserved mixed_db H)))
           "shelf1" [("PIPI_01_02_23_G1_0002", 30)]).
Defined.

Lemma move_item_scan_outcome_witness :
  parse_barcode out_db "PIPI_01_02_23_G1_0007" false = Parsed pipi_scan /\
  status_of (snd (move_item_scan out_db "SHELF1" "PIPI_01_02_23_G1_0007" 30))
    "PIPI_01_02_23_G1_0007" = Some "IN".
Proof.
  assert (H : parse_barcode out_db "PIPI_01_02_23_G1_0007" false = Parsed pipi_scan)
    by (vm_compute; reflexivity).
  split; [exact H|].
  exact (proj1 (proj2 (@move_item_scan_outcome out_db "SHELF1" "PIPI_01_02_23_G1_0007" 30
                         pipi_scan H))).
Defined.

Lemma check_out_scan_outcome_witness :
  parse_barcode shelf_db "PIPI_01_02_23_G1_0007" false = Parsed pipi_scan /\
  status_of (snd (fst (Session.check_out_scan always_locked shelf_db
                         "PIPI_01_02_23_G1_0007" 5)))
    "PIPI_01_02_23_G1_0007" = Some "OUT".
Proof.
  assert (H : parse_barcode shelf_db "PIPI_01_02_23_G1_0007" false = Parsed pipi_scan)
    by (vm_compute; reflexivity).
  split; [exact H|].
  exact (proj1 (@check_out_scan_outcome always_locked shelf_db "PIPI_01_02_23_G1_0007" 5
                  pipi_scan H)).
Defined.

Lemma check_out_then_purge_witness :
  parse_barcode mixed_db "PIPI_01_02_23_G1_0001" false =
    Parsed {| pd_item_type := "PioPino"; pd_generation := "G1";
              pd_created_date := "01.02.2023";
              pd_full_barcode := "PIPI_01_02_23_G1_0001" |} /\
  filter_chars is_alpha_char (upper (strip "delete all")) = "DELETEALL" /\
  status_of
    (snd (delete_all_out_items
            (snd (fst (Session.check_out_scan (fun _ => None) mixed_db
                         "PIPI_01_02_23_G1_0001" 40)))
            "delete all"))
    "PIPI_01_02_23_G1_0001" = None.
Proof.
  assert (H1 : parse_barcode mixed_db "PIPI_01_02_23_G1_0001" false =
               Parsed {| pd_item_type := "PioPino"; pd_generation := "G1";
                         pd_created_date := "01.02.2023";
                         pd_full_barcode := "PIPI_01_02_23_G1_0001" |})
    by (vm_compute; reflexivity).
  assert (H2 : filter_chars is_alpha_char (upper (strip "delete all")) = "DELETEALL")
    by (vm_compute; reflexivity).
  split; [exact H1|]. split; [exact H2|].
  exact (proj1 (proj2 (@check_out_then_purge (fun _ => None) mixed_db
                         "PIPI_01_02_23_G1_0001" 40 _ "delete all" H1 H2))).
Defined.

Lemma batch_item_decodes_witness :
  create_batch_prepare three_items_db "shelf1" "PIPI_01_02_23_G1" = inr pipi_plan /\
  0 <= 8 /\
  item_codes three_items_db = item_codes three_items_db /\
  parse_barcode three_items_db "PIPI_01_02_23_G1_0008" false =
    Parsed {| pd_item_type := "PioPino"; pd_generation := "G1";
              pd_created_date := "01.02.2023";
              pd_full_barcode := "PIPI_01_02_23_G1_0008" |}.
Proof.
  assert (H1 : create_batch_prepare three_items_db "shelf1" "PIPI_01_02_23_G1" =
               inr pipi_plan) by (vm_compute; reflexivity).
  assert (H2 : 0 <= 8) by lia.
  assert (H3 : item_codes three_items_db = item_codes three_items_db) by reflexivity.
  split; [exact H1|]. split; [exact H2|]. split; [exact H3|].
  exact (proj1 (@batch_item_decodes three_items_db "shelf1" "PIPI_01_02_23_G1" pipi_plan 8
                  three_items_db H1 H2 H3)).
Defined.

Lemma delete_all_out_items_twice_witness :
  filter_chars is_alpha_char (upper (strip "delete all")) = "DELETEALL" /\
  filter_chars is_alpha_char (upper (strip " Delete-All ")) = "DELETEALL" /\
  delete_all_out_items (snd (delete_all_out_items mixed_db "delete all")) " Delete-All " =
  (NothingDeleted, snd (delete_all_out_items mixed_db "delete all")).
Proof.
  assert (H1 : filter_chars is_alpha_char (upper (strip "delete all")) = "DELETEALL")
    by (vm_compute; reflexivity).
  assert (H2 : filter_chars is_alpha_char (upper (strip " Delete-All ")) = "DELETEALL")
    by (vm_compute; reflexivity).
  split; [exact H1|]. split; [exact H2|].
  exact (proj2 (@delete_all_out_items_twice mixed_db "delete all" " Delete-All " H1 H2)).
Defined.

Lemma scanner_check_in_outcome_witness :
  Scanner.parse_barcode "PiPi_01_02_23_G1_0007" false =
    Parsed {| pd_item_type := "PioPino"; pd_generation := "G1";
              pd_created_date := "01.02.2023";
              pd_full_barcode := "PiPi_01_02_23_G1_0007" |} /\
  "SHELF1" <> "" /\
  fetchone (Registry.has_location "SHELF1") (locations shelf_db) =
    Some (1, {| barcode := "SHELF1"; location_name := "Shelf 1" |}) /\
  status_of (snd (Scanner.scan_session_scan shelf_db "IN" (Some "SHELF1")
                    "PiPi_01_02_23_G1_0007" 7))
    "PiPi_01_02_23_G1_0007" = Some "IN".
Proof.
  assert (H1 : Scanner.parse_barcode "PiPi_01_02_23_G1_0007" false =
               Parsed {| pd_item_type := "PioPino"; pd_generation := "G1";
                         pd_created_date := "01.02.2023";
                         pd_full_barcode := "PiPi_01_02_23_G1_0007" |}) by (vm_compute; reflexivity).
  assert (H2 : "SHELF1" <> "") by discriminate.
  assert (H3 : fetchone (Registry.has_location "SHELF1") (locations shelf_db) =
               Some (1, {| barcode := "SHELF1"; location_name := "Shelf 1" |}))
    by (vm_compute; reflexivity).
  split; [exact H1|]. split; [exact H2|]. split; [exact H3|].
  exact (proj1 (proj2 (@scanner_check_in_outcome shelf_db "SHELF1" "PiPi_01_02_23_G1_0007" 7
                         _ _ H1 H2 H3))).
Defined.

Lemma move_item_scan_out_item_witness :
  primary_key (items out_db) /\
  parse_barcode out_db "PIPI_01_02_23_G1_0007" false = Parsed pipi_scan /\
  fetchone (has_barcode "PIPI_01_02_23_G1_0007") (items out_db) =
    Some (1, set_status "OUT" (fresh_item "PIPI_01_02_23_G1_0007" "PioPino" "G1" "01.02.2023")) /\
  fst (move_item_scan out_db "SHELF1" "PIPI_01_02_23_G1_0007" 30) = ItemMoved false true.
Proof.
  assert (H1 : primary_key (items out_db)).
  { unfold primary_key. vm_compute. repeat constructor. simpl. tauto. }
  assert (H2 : parse_barcode out_db "PIPI_01_02_23_G1_0007" false = Parsed pipi_scan)
    by (vm_compute; reflexivity).
  assert (H3 : fetchone (has_barcode "PIPI_01_02_23_G1_0007") (items out_db) =
               Some (1, set_status "OUT"
                          (fresh_item "PIPI_01_02_23_G1_0007" "PioPino" "G1" "01.02.2023")))
    by (vm_compute; reflexivity).
  split; [exact H1|]. split; [exact H2|]. split; [exact H3|].
  exact (proj1 (proj1 (@move_item_scan_out_item out_db "SHELF1" "PIPI_01_02_23_G1_0007" 30
                         pipi_scan 1 _ H1 H2 H3 eq_refl))).
Defined.

(** C3 as the specification words it: an item that is OUT is moved by
    [move_item_to_location] of [scanner.py] and is still OUT, with no
    scan logged. *)
Lemma scanner_move_keeps_out_status :
  status_of out_db "PIPI_01_02_23_G1_0007" = Some "OUT" /\
  fst (Scanner.move_item_to_location_once out_db "PIPI_01_02_23_G1_0007" "SHELF1" 30) =
    true /\
  status_of
    (snd (Scanner.move_item_to_location_once out_db "PIPI_01_02_23_G1_0007" "SHELF1" 30))
    "PIPI_01_02_23_G1_0007" = Some "OUT" /\
  item_scans
    (snd (Scanner.move_item_to_location_once out_db "PIPI_01_02_23_G1_0007" "SHELF1" 30)) =
    item_scans out_db /\
  List.length
    (rows (item_locations
             (snd (Scanner.move_item_to_location_once out_db "PIPI_01_02_23_G1_0007"
                     "SHELF1" 30)))) =
    S (List.length (rows (item_locations out_db))).
Proof. do 4 (split; [vm_compute; reflexivity|]). vm_compute. reflexivity. Qed.

Lemma log_scan_retry_protocol_witness :
  (3 <= 3)%nat /\
  (forall j, (j < 3)%nat -> busy_at always_locked j) /\
  log_scan always_locked shelf_db pipi_scan "OUT" 0 3 200 =
  (false, shelf_db,
   [RetryNotice 1 3; Sleep 200; RetryNotice 2 3; Sleep 200; RetryNotice 3 3; Sleep 200;
    GaveUp 3]).
Proof.
  assert (H1 : (3 <= 3)%nat) by lia.
  assert (H2 : forall j, (j < 3)%nat -> busy_at always_locked j).
  { intros j _. exists (OperationalError "database is locked"). split; reflexivity. }
  split; [exact H1|]. split; [exact H2|].
  exact (proj1 (@log_scan_retry_protocol always_locked shelf_db pipi_scan "OUT" 0
                  3%nat 200%N 3%nat H1 H2)
           eq_refl).
Defined.

(** The two failures of a check-out, side by side: a text that does not
    decode, and a store that stays locked. *)
Example check_out_invalid_or_unsaved :
  Session.check_out_scan always_locked shelf_db "PIPI_01" 0 =
    (Session.InvalidBarcode, shelf_db, []) /\
  fst (fst (Session.check_out_scan always_locked shelf_db "PIPI_01_02_23_G1_0007" 0)) =
    Session.ScanNotSaved true /\
  snd (Session.check_out_scan always_locked shelf_db "PIPI_01_02_23_G1_0007" 0) =
    [RetryNotice 1 3; Sleep 200; RetryNotice 2 3; Sleep 200; RetryNotice 3 3; Sleep 200;
     GaveUp 3] /\
  snd (Session.check_out_scan disk_full shelf_db "PIPI_01_02_23_G1_0007" 0) =
    [ErrorNotice (OperationalError "database or disk is full")].
Proof. do 3 (split; [vm_compute; reflexivity|]). vm_compute. reflexivity. Qed.

Lemma to_upper_alphanumeric_canonical_witness :
  isascii "shelf-1" = true /\
  to_upper_alphanumeric (to_upper_alphanumeric "shelf-1") = to_upper_alphanumeric "shelf-1".
Proof.
  assert (H : isascii "shelf-1" = true) by reflexivity.
  split; [exact H|]. exact (proj1 (@to_upper_alphanumeric_canonical "shelf-1" H)).
Defined.

Lemma derived_batch_barcode_witness :
  fetchone (has_barcode "PIPI_01_02_23_G1_0007") (items shelf_db) = None /\
  fetchone (has_barcode "PIPI_01_02_23_G1_0007")
    (items (snd (ensure_item_exists shelf_db "PIPI_01_02_23_G1_0007" "PioPino" "G1"
                   "01.02.2023"))) =
    Some (1, fresh_item "PIPI_01_02_23_G1_0007" "PioPino" "G1" "01.02.2023") /\
  field_count
    (batch_barcode
       (snd (1, fresh_item "PIPI_01_02_23_G1_0007" "PioPino" "G1" "01.02.2023"))) = 5%nat.
Proof.
  assert (H1 : fetchone (has_barcode "PIPI_01_02_23_G1_0007") (items shelf_db) = None)
    by (vm_compute; reflexivity).
  assert (H2 : fetchone (has_barcode "PIPI_01_02_23_G1_0007")
                 (items (snd (ensure_item_exists shelf_db "PIPI_01_02_23_G1_0007"
                                "PioPino" "G1" "01.02.2023"))) =
               Some (1, fresh_item "PIPI_01_02_23_G1_0007" "PioPino" "G1" "01.02.2023"))
    by (vm_compute; reflexivity).
  split; [exact H1|]. split; [exact H2|].
  exact (proj1 (proj2 (proj2 (proj2
           (@derived_batch_barcode shelf_db "PIPI_01_02_23_G1_0007" "PioPino" "G1"
              "01.02.2023" _ H1 H2))))).
Defined.

Lemma create_batch_commit_all_or_nothing_witness :
  isascii "2" = true /\
  exists msg,
    create_batch_commit
      (snd (create_batch three_items_db "shelf1" "PIPI_01_02_23_G1" "2" 0)) pipi_plan "2" 1 =
    (BatchAborted (IntegrityError msg),
     snd (create_batch three_items_db "shelf1" "PIPI_01_02_23_G1" "2" 0)).
Proof.
  assert (H : isascii "2" = true) by reflexivity.
  assert (H1 : int "2" = Some 2) by reflexivity.
  assert (H2 : 2 <= sqlite_max_int) by (vm_compute; discriminate).
  assert (H3 : - str_bound < bp_start_num pipi_plan)
    by (pose proof str_bound_big; cbn [bp_start_num pipi_plan]; lia).
  assert (H4 : bp_start_num pipi_plan + 2 <= str_bound)
    by (pose proof str_bound_big; cbn [bp_start_num pipi_plan]; lia).
  assert (H5 : bp_start_num pipi_plan <= 8 < bp_start_num pipi_plan + 2)
    by (cbn [bp_start_num pipi_plan]; lia).
  assert (H6 : fetchone (has_barcode (batch_item_barcode (bp_batch_base pipi_plan) 8))
                 (items (snd (create_batch three_items_db "shelf1" "PIPI_01_02_23_G1"
                                "2" 0))) <> None)
    by (vm_compute; discriminate).
  split; [exact H|].
  exact (proj1 (proj2 (proj2
           (@create_batch_commit_all_or_nothing
              (snd (create_batch three_items_db "shelf1" "PIPI_01_02_23_G1" "2" 0))
              pipi_plan "2" 1 H)))
           2 8 H1 H2 H3 H4 H5 H6).
Defined.
